(** * Supply-chain management web application: a shallow embedding

    The application is a Flask front end over a MySQL database whose stored
    procedures hold the business logic.  This development embeds the parts of
    the Python source that the specification talks about:

    - [config.py]       the [BusinessRules] tables;
    - [utils/helpers.py]     [paginate_query], [is_future_date],
                             [get_customer_type_info], session helpers;
    - [utils/decorators.py]  [role_required], [_is_rate_limited],
                             [_get_from_cache], [_set_cache];
    - [database/connection.py], [database/models.py]   the query wrappers
                             and the [CartItem], [Customer], [Order] models;
    - [routes/customer.py], [routes/orders.py]   the cart, checkout,
                             bulk-update and cancel handlers.

    Python integers are [Z]; dictionaries are [gmap]s; a multi-valued form is
    an association list; wall-clock time is an exact number of clock ticks
    ([Z]) and a calendar date is its proleptic ordinal ([Z]).  The database
    is an oracle that answers every call from the history of the calls made
    so far, so a statement quantified over all oracles covers every behaviour
    of the stored procedures, which the repository does not contain. *)

From Stdlib Require Import ZArith QArith Lia Ascii Sorted.
From stdpp Require Import gmap strings list fin_maps sorting.

Open Scope Z_scope.

(* ===================================================================== *)
(** * Python values and exceptions *)
(* ===================================================================== *)

(** [decimal.Decimal]: coefficient times ten to the exponent. *)
Record Decimal := mkDecimal { dec_coef : Z; dec_exp : Z }.

#[global] Instance Decimal_eq_dec : EqDecision Decimal.
Proof. solve_decision. Defined.

(** The values that travel between the handlers, the session and the
    database driver. *)
Inductive Value :=
| VNone
| VInt (n : Z)
| VDec (d : Decimal)
| VStr (s : string)
| VDate (ordinal : Z).

#[global] Instance Value_eq_dec : EqDecision Value.
Proof. solve_decision. Defined.

(** Python truth value of a [Value]. *)
Definition truthy (v : Value) : bool :=
  match v with
  | VNone => false
  | VInt n => negb (n =? 0)
  | VDec d => negb (dec_coef d =? 0)
  | VStr s => negb (String.eqb s "")
  | VDate _ => true
  end.

Inductive Exn :=
| ValueError
| TypeError
| KeyError
| ZeroDivisionError
| InvalidOperation
| DatabaseError.

Inductive Result (A : Type) :=
| Ok (a : A)
| Raise (e : Exn).
Arguments Ok {A} a.
Arguments Raise {A} e.

(** A dictionary-cursor row, also used for keyword dictionaries. *)
Abbreviation Row := (gmap string Value).

(** ** Comparing values *)

(** Both decimals scaled to the smaller exponent. *)
Definition dec_align (a b : Decimal) : Z * Z :=
  let m := Z.min (dec_exp a) (dec_exp b) in
  (dec_coef a * 10 ^ (dec_exp a - m), dec_coef b * 10 ^ (dec_exp b - m)).

Definition as_number (v : Value) : option Decimal :=
  match v with
  | VInt n => Some (mkDecimal n 0)
  | VDec d => Some d
  | _ => None
  end.

(** [a == b] *)
Definition py_eq (a b : Value) : bool :=
  match as_number a, as_number b with
  | Some x, Some y => let '(p, q) := dec_align x y in p =? q
  | _, _ => bool_decide (a = b)
  end.

(** [a < b]; ordering values of unrelated types raises [TypeError]. *)
Definition py_lt (a b : Value) : Result bool :=
  match as_number a, as_number b with
  | Some x, Some y => let '(p, q) := dec_align x y in Ok (p <? q)
  | _, _ =>
    match a, b with
    | VStr s, VStr t => Ok (String.ltb s t)
    | VDate d, VDate e => Ok (d <? e)
    | _, _ => Raise TypeError
    end
  end.

(** [v in l] on a list or tuple. *)
Definition py_in (v : Value) (l : list Value) : bool := existsb (py_eq v) l.

(* ===================================================================== *)
(** * config.py: business rules *)
(* ===================================================================== *)

Module Config.

(** One entry of [BusinessRules.CUSTOMER_TYPES].  The discount rates are
    the float literals [0.00], [5.00] and [15.00], all exact. *)
Record CustomerTypeInfo := mkCustomerTypeInfo {
  discount_rate : Q;
  min_order_qty : Z;
  description : string
}.

Definition CUSTOMER_TYPES : gmap string CustomerTypeInfo :=
  <["end" := mkCustomerTypeInfo 0 1 "End consumer"]>
  (<["retail" := mkCustomerTypeInfo 5 10 "Retail customer"]>
  (<["wholesale" := mkCustomerTypeInfo 15 50 "Wholesale customer"]> ∅)).

Definition ORDER_STATUS_FLOW : gmap string (list string) :=
  <["pending" := ["confirmed"; "cancelled"]]>
  (<["confirmed" := ["assigned_train"; "cancelled"]]>
  (<["assigned_train" := ["in_transit_rail"; "cancelled"]]>
  (<["in_transit_rail" := ["at_warehouse"; "cancelled"]]>
  (<["at_warehouse" := ["assigned_truck"; "cancelled"]]>
  (<["assigned_truck" := ["out_for_delivery"; "cancelled"]]>
  (<["out_for_delivery" := ["delivered"; "returned"]]>
  (<["delivered" := []]>
  (<["cancelled" := []]>
  (<["returned" := []]> ∅))))))))).

(** Reading the table as a graph: is [new] listed as a successor of
    [current]?  Nothing in the application evaluates this; it is defined
    here to state what the handlers do not check. *)
Definition flow_allows (current new : string) : bool :=
  match ORDER_STATUS_FLOW !! current with
  | Some successors => bool_decide (new ∈ successors)
  | None => false
  end.

End Config.

(* ===================================================================== *)
(** * The Python runtime, the request and the database *)
(* ===================================================================== *)

(** Built-ins of the Python runtime whose full definition lies outside the
    repository.  Each returns [None] where Python raises. *)
Class PyRuntime := mkPyRuntime {
  (** [int(s)] on a string; [None] is [ValueError]. *)
  py_int : string → option Z;
  (** [s.isdigit()]. *)
  py_isdigit : string → bool;
  (** [datetime.strptime(s, '%Y-%m-%d').date()] as an ordinal; [None] is
      [ValueError]. *)
  strptime_ymd : string → option Z;
  (** [Decimal(s)] on a string; [None] is [InvalidOperation]. *)
  py_decimal : string → option Decimal
}.

(** What a handler can read of the request it serves: the HTTP method, the
    submitted form (a multi-dictionary, in submission order), the referrer
    header, the session and the current date. *)
Record Ctx := mkCtx {
  method : string;
  form : list (string * string);
  referrer : option string;
  session : gmap string Value;
  today : Z
}.

(** [request.form.get(key, default)] before the default is applied. *)
Fixpoint form_get (f : list (string * string)) (key : string) : option string :=
  match f with
  | [] => None
  | (k, v) :: rest => if String.eqb k key then Some v else form_get rest key
  end.

(** [request.form.getlist(key)]. *)
Fixpoint form_getlist (f : list (string * string)) (key : string) : list string :=
  match f with
  | [] => []
  | (k, v) :: rest =>
    if String.eqb k key then v :: form_getlist rest key else form_getlist rest key
  end.

(** [session.get(key)]. *)
Definition session_get (ctx : Ctx) (key : string) : Value :=
  default VNone (session ctx !! key).

(** One call on the global [DatabaseConnection]. *)
Inductive DbCall :=
| ExecuteQuery (query : string) (params : list Value) (fetch_one : bool)
| CallProcedure (proc_name : string) (args : list Value).

#[global] Instance DbCall_eq_dec : EqDecision DbCall.
Proof. solve_decision. Defined.

(** The database server as an oracle: every answer may depend on all the
    calls made before.  [None] means that the driver raised. *)
Record Database := mkDatabase {
  fetchone : list DbCall → string → list Value → option (option Row);
  fetchall : list DbCall → string → list Value → option (list Row);
  stored_results : list DbCall → string → list Value → option (list Row)
}.

(** A piece of a formatted message: literal text or an interpolated value. *)
Inductive Part :=
| Lit (text : string)
| Interp (v : Value).

Record Flash := mkFlash { message : list Part; category : string }.

Inductive Url :=
| UrlFor (endpoint : string) (values : list (string * Value))
| UrlRaw (target : string).

(** Responses.  The context handed to a template is computed from query
    results without further effects and is left out. *)
Inductive Response :=
| Redirect (location : Url)
| RenderTemplate (name : string).

(** What a handler changes: the calls it made on the database, in order,
    and the messages it flashed, in order. *)
Record St := mkSt { calls : list DbCall; flashes : list Flash }.

Definition M (A : Type) : Type := St → Result A * St.

#[global] Instance M_ret : MRet M := λ A a st, (Ok a, st).
#[global] Instance M_bind : MBind M := λ A B f m st,
  match m st with
  | (Ok a, st') => f a st'
  | (Raise e, st') => (Raise e, st')
  end.

#[global] Instance M_fmap : FMap M := λ A B f m st,
  match m st with
  | (Ok a, st') => (Ok (f a), st')
  | (Raise e, st') => (Raise e, st')
  end.

Definition raise {A} (e : Exn) : M A := λ st, (Raise e, st).

(** [try: body except Exception: handler] *)
Definition try_except {A} (body : M A) (handler : Exn → M A) : M A := λ st,
  match body st with
  | (Ok a, st') => (Ok a, st')
  | (Raise e, st') => handler e st'
  end.

(** [try: body except ValueError: handler] *)
Definition try_except_value_error {A} (body : M A) (handler : M A) : M A := λ st,
  match body st with
  | (Raise ValueError, st') => handler st'
  | other => other
  end.

(** A computation without effects that may raise. *)
Definition lift_result {A} (r : Result A) : M A := λ st, (r, st).

Definition of_option {A} (e : Exn) (o : option A) : M A :=
  match o with
  | Some a => mret a
  | None => raise e
  end.

Definition flash (msg : list Part) (cat : string) : M unit := λ st,
  (Ok tt, mkSt (calls st) (flashes st ++ [mkFlash msg cat])).

Definition url_for (endpoint : string) : Url := UrlFor endpoint [].

(** [request.referrer or fallback] *)
Definition referrer_or (ctx : Ctx) (fallback : Url) : Url :=
  match referrer ctx with
  | Some r => if String.eqb r "" then fallback else UrlRaw r
  | None => fallback
  end.

(** [d[key]] on a dictionary. *)
Definition getitem (d : Row) (key : string) : M Value :=
  of_option KeyError (d !! key).

(** [d[key]] where [d] may be Python's [None]. *)
Definition subscript (d : option Row) (key : string) : M Value :=
  match d with
  | Some d => getitem d key
  | None => raise TypeError
  end.

(** Truth value of a row-or-[None]: an empty dictionary is false. *)
Definition row_truthy (r : option Row) : bool :=
  match r with
  | Some d => negb (bool_decide (d = ∅))
  | None => false
  end.

Definition initial : St := mkSt [] [].

(* ===================================================================== *)
(** * utils/helpers.py *)
(* ===================================================================== *)

Module Helpers.

(** ** Slicing *)

(** How Python turns one bound of [l[start:stop]] into an offset. *)
Definition slice_bound (len i : Z) : Z :=
  if i <? 0 then Z.max (i + len) 0 else Z.min i len.

Definition py_slice {A} (l : list A) (start stop : Z) : list A :=
  let len := Z.of_nat (length l) in
  let lo := slice_bound len start in
  let hi := slice_bound len stop in
  take (Z.to_nat (hi - lo)) (drop (Z.to_nat lo) l).

(** ** Pagination *)

Record Pagination (A : Type) := mkPagination {
  items : list A;
  total : Z;
  page : Z;
  per_page : Z;
  pages : Z;
  has_prev : bool;
  has_next : bool;
  prev_num : option Z;
  next_num : option Z
}.
Arguments mkPagination {A}.
Arguments items {A}.
Arguments total {A}.
Arguments page {A}.
Arguments per_page {A}.
Arguments pages {A}.
Arguments has_prev {A}.
Arguments has_next {A}.
Arguments prev_num {A}.
Arguments next_num {A}.

(** [//] with a zero divisor raises. *)
Definition floordiv (a b : Z) : Result Z :=
  if b =? 0 then Raise ZeroDivisionError else Ok (a `div` b).

Definition paginate_query {A} (query_result : list A) (page per_page : Z)
  : Result (Pagination A) :=
  match query_result with
  | [] => Ok (mkPagination [] 0 1 per_page 0 false false None None)
  | _ =>
    let total := Z.of_nat (length query_result) in
    match floordiv (total + per_page - 1) per_page with
    | Raise e => Raise e
    | Ok pages =>
      let page :=
        if page <? 1 then 1
        else if (pages <? page) && (0 <? pages) then pages
        else page in
      let start := (page - 1) * per_page in
      let end_ := start + per_page in
      let items := py_slice query_result start end_ in
      Ok (mkPagination items total page per_page pages
            (1 <? page) (page <? pages)
            (if 1 <? page then Some (page - 1) else None)
            (if page <? pages then Some (page + 1) else None))
    end
  end.

(** The items of a page, empty when the call raised. *)
Definition page_items {A} (r : Result (Pagination A)) : list A :=
  match r with
  | Ok p => items p
  | Raise _ => []
  end.

(** The page number that falls inside [1 .. pages] nearest to the one asked
    for; used to state which page [paginate_query] serves. *)
Definition clamp (page pages : Z) : Z := Z.max 1 (Z.min page pages).

(** ** Customer types *)

Definition unknown_customer_type : Config.CustomerTypeInfo :=
  Config.mkCustomerTypeInfo 0 1 "Unknown".

Definition get_customer_type_info (customer_type : string)
  : Config.CustomerTypeInfo :=
  default unknown_customer_type (Config.CUSTOMER_TYPES !! customer_type).


(** ** Session helpers *)

(** The keys of the dictionary that [get_current_user] builds. *)
Definition user_keys : list string :=
  ["user_name"; "user_role"; "full_name"; "customer_id"; "store_name";
   "manager_id"].

Definition get_current_user (ctx : Ctx) : option Row :=
  if bool_decide ("user_name" ∈ dom (session ctx)) then
    Some (<["user_name" := session_get ctx "user_name"]>
         (<["user_role" := session_get ctx "user_role"]>
         (<["full_name" := session_get ctx "full_name"]>
         (<["customer_id" := session_get ctx "customer_id"]>
         (<["store_name" := session_get ctx "store_name"]>
         (<["manager_id" := session_get ctx "manager_id"]> ∅))))))
  else None.

Definition is_customer (ctx : Ctx) : bool :=
  py_eq (session_get ctx "user_role") (VStr "customer").

(** ** Flash helpers *)

Definition flash_success (msg : list Part) : M unit := flash msg "success".
Definition flash_error (msg : list Part) : M unit := flash msg "error".
Definition flash_warning (msg : list Part) : M unit := flash msg "warning".
Definition flash_info (msg : list Part) : M unit := flash msg "info".

(** ** Dates *)

(** The argument of [is_future_date]: a string, a [datetime] or a [date]. *)
Inductive DateArg :=
| AsStr (s : string)
| AsDatetime (ordinal : Z) (seconds : Z)
| AsDate (ordinal : Z).

Definition is_future_date `{PyRuntime} (today : Z) (date_obj : DateArg)
    (days_ahead : Z) : bool :=
  let parsed :=
    match date_obj with
    | AsStr s => strptime_ymd s
    | AsDatetime d _ => Some d
    | AsDate d => Some d
    end in
  match parsed with
  | Some d =>
    let min_date := today + days_ahead in
    min_date <=? d
  | None => false
  end.

Definition calculate_delivery_date (today : Z) (order_date : option Z)
    (min_days : Z) : Z :=
  default today order_date + min_days.

(** ** Input sanitising *)

(** Characters that [str.strip()] removes, among those with a code below
    256: the ASCII white space (9 to 13, 28 to 32), the next-line control
    (133) and the no-break space (160). *)
Definition is_space (c : ascii) : bool :=
  let n := nat_of_ascii c in
  ((9 <=? n) && (n <=? 13) || (28 <=? n) && (n <=? 32)
   || (n =? 133) || (n =? 160))%nat.

(** The characters that the regular expression deletes: the two angle
    brackets (60, 62), the double quote (34), the apostrophe (39) and the
    semicolon (59). *)
Definition is_dangerous (c : ascii) : bool :=
  let n := nat_of_ascii c in
  ((n =? 60) || (n =? 62) || (n =? 34) || (n =? 39) || (n =? 59))%nat.

Fixpoint lstrip (l : list ascii) : list ascii :=
  match l with
  | c :: rest => if is_space c then lstrip rest else l
  | [] => []
  end.

Definition strip (l : list ascii) : list ascii :=
  reverse (lstrip (reverse (lstrip l))).

Definition sanitize_input (text : string) (max_length : option Z) : string :=
  if String.eqb text "" then ""
  else
    let chars := List.filter (λ c, negb (is_dangerous c)) (String.list_ascii_of_string text) in
    let chars := strip chars in
    let chars :=
      match max_length with
      | Some m =>
        if negb (m =? 0) && (m <? Z.of_nat (length chars))
        then py_slice chars 0 m else chars
      | None => chars
      end in
    String.string_of_list_ascii chars.

End Helpers.

(* ===================================================================== *)
(** * database/connection.py *)
(* ===================================================================== *)

Module Connection.
Section with_database.
Context (db : Database).

Definition record (c : DbCall) (st : St) : St :=
  mkSt (calls st ++ [c]) (flashes st).

(** [execute_query(query, params, fetch_one=True)]: one row or [None]. *)
Definition execute_query_one (query : string) (params : list Value)
  : M (option Row) := λ st,
  let st' := record (ExecuteQuery query params true) st in
  match fetchone db (calls st) query params with
  | Some r => (Ok r, st')
  | None => (Raise DatabaseError, st')
  end.

(** [execute_query(query, params)]: all rows. *)
Definition execute_query (query : string) (params : list Value)
  : M (list Row) := λ st,
  let st' := record (ExecuteQuery query params false) st in
  match fetchall db (calls st) query params with
  | Some rs => (Ok rs, st')
  | None => (Raise DatabaseError, st')
  end.

Definition call_procedure (proc_name : string) (args : list Value)
  : M (list Row) := λ st,
  let st' := record (CallProcedure proc_name args) st in
  match stored_results db (calls st) proc_name args with
  | Some rs => (Ok rs, st')
  | None => (Raise DatabaseError, st')
  end.

Definition call_function (func_name : string) (args : list Value) : M Value :=
  let placeholders :=
    match args with
    | [] => ""
    | _ => String.concat ", " (replicate (length args) "%s")
    end in
  let query :=
    String.append "SELECT "
      (String.append func_name
        (String.append "(" (String.append placeholders ") as result"))) in
  result ← execute_query_one query args;
  if row_truthy result then subscript result "result" else mret VNone.

End with_database.
End Connection.

(* ===================================================================== *)
(** * utils/decorators.py *)
(* ===================================================================== *)

Module Decorators.

(** ** Authorisation *)

Definition role_required {Args : Type} (allowed_roles : list Value)
    (f : Ctx → Args → M Response) : Ctx → Args → M Response := λ ctx args,
  if negb (bool_decide ("user_name" ∈ dom (session ctx))) then
    flash [Lit "Please log in to access this page."] "warning";;
    mret (Redirect (url_for "auth.login"))
  else
    let user_role := session_get ctx "user_role" in
    if negb (py_in user_role allowed_roles) then
      flash [Lit "You do not have permission to access this page."] "error";;
      mret (Redirect (url_for "index"))
    else f ctx args.

(** The two messages that [role_required] flashes. *)
Definition login_notice : Flash :=
  mkFlash [Lit "Please log in to access this page."] "warning".
Definition denied_notice : Flash :=
  mkFlash [Lit "You do not have permission to access this page."] "error".

(** A view that leaves a mark among the flashed messages when it runs, to
    observe whether a decorator called the function it wraps. *)
Definition probe_mark : Flash := mkFlash [Lit "view called"] "probe".

Definition probe {Args : Type} : Ctx → Args → M Response := λ _ _,
  flash (message probe_mark) (category probe_mark);;
  mret (RenderTemplate "probe.html").

(** ** The process-local stores kept on [flask.g] *)

Record CacheEntry (V : Type) := mkCacheEntry { value : V; expires : Z }.
Arguments mkCacheEntry {V}.
Arguments value {V}.
Arguments expires {V}.

(** The two attributes of [g]; [None] while [hasattr] is false. *)
Record G (V : Type) := mkG {
  rate_limit_store : option (gmap string (list Z));
  cache_store : option (gmap string (CacheEntry V))
}.
Arguments mkG {V}.
Arguments rate_limit_store {V}.
Arguments cache_store {V}.

Section stores.
Context {V : Type}.

(** [now] is the value of [time.time()] read by the call. *)
Definition _is_rate_limited (now : Z) (key : string)
    (max_requests per_seconds : Z) (g : G V) : bool * G V :=
  let store := default ∅ (rate_limit_store g) in
  let window_start := now - per_seconds in
  let kept :=
    match store !! key with
    | Some stamps => filter (λ timestamp, window_start < timestamp) stamps
    | None => []
    end in
  let store := <[key := kept]> store in
  if max_requests <=? Z.of_nat (length kept) then
    (true, mkG (Some store) (cache_store g))
  else
    (false, mkG (Some (<[key := kept ++ [now]]> store)) (cache_store g)).

Definition _get_from_cache (now : Z) (key : string) (g : G V)
  : option V * G V :=
  let store := default ∅ (cache_store g) in
  match store !! key with
  | Some cache_entry =>
    if now <? expires cache_entry then
      (Some (value cache_entry), mkG (rate_limit_store g) (Some store))
    else
      (None, mkG (rate_limit_store g) (Some (delete key store)))
  | None => (None, mkG (rate_limit_store g) (Some store))
  end.

Definition _set_cache (now : Z) (key : string) (v : V) (timeout : Z) (g : G V)
  : G V :=
  let store := default ∅ (cache_store g) in
  mkG (rate_limit_store g) (Some (<[key := mkCacheEntry v (now + timeout)]> store)).

(** A fresh [g]: neither attribute exists. *)
Definition fresh : G V := mkG None None.

(** The timestamps recorded for [key]. *)
Definition recorded (g : G V) (key : string) : list Z :=
  default [] (default ∅ (rate_limit_store g) !! key).

(** A sequence of rate-limit checks, each with its key and clock reading,
    all under the same limits; returns the verdicts in order. *)
Fixpoint run_checks (max_requests per_seconds : Z)
    (requests : list (string * Z)) (g : G V) : list bool * G V :=
  match requests with
  | [] => ([], g)
  | (key, now) :: rest =>
    let '(limited, g1) := _is_rate_limited now key max_requests per_seconds g in
    let '(verdicts, g2) := run_checks max_requests per_seconds rest g1 in
    (limited :: verdicts, g2)
  end.

(** The clock readings of the requests for [key] that were let through. *)
Fixpoint admitted (key : string) (requests : list (string * Z))
    (verdicts : list bool) : list Z :=
  match requests, verdicts with
  | (k, now) :: rest, limited :: more =>
    if String.eqb k key && negb limited
    then now :: admitted key rest more
    else admitted key rest more
  | _, _ => []
  end.

(** The recorded readings that a check at [now] still counts. *)
Definition recent (per_seconds now : Z) (stamps : list Z) : list Z :=
  filter (λ t, now - per_seconds < t) stamps.

(** The clock never runs backwards over a sequence of requests. *)
Definition clock_monotone (requests : list (string * Z)) : Prop :=
  StronglySorted Z.le (snd <$> requests).

(** How many of the readings [stamps] fall into the window that starts at
    [from] and lasts [per_seconds], the start included and the end not. *)
Definition in_window (from per_seconds : Z) (stamps : list Z) : Z :=
  Z.of_nat (length (filter (λ t, from ≤ t < from + per_seconds) stamps)).

(** The same count for the window with both of its ends included. *)
Definition in_closed_window (from per_seconds : Z) (stamps : list Z) : Z :=
  Z.of_nat (length (filter (λ t, from ≤ t ≤ from + per_seconds) stamps)).

(** Operations on the cache, each with its clock reading. *)
Inductive CacheOp :=
| CacheGet (now : Z) (key : string)
| CacheSet (now : Z) (key : string) (v : V) (timeout : Z).

Definition op_time (op : CacheOp) : Z :=
  match op with
  | CacheGet now _ => now
  | CacheSet now _ _ _ => now
  end.

Definition sets_key (key : string) (op : CacheOp) : bool :=
  match op with
  | CacheGet _ _ => false
  | CacheSet _ k _ _ => String.eqb k key
  end.

Definition cache_step (g : G V) (op : CacheOp) : G V :=
  match op with
  | CacheGet now key => snd (_get_from_cache now key g)
  | CacheSet now key v timeout => _set_cache now key v timeout g
  end.

Definition run_cache (ops : list CacheOp) (g : G V) : G V :=
  foldl cache_step g ops.

(** The entry stored under [key], if any. *)
Definition cached (g : G V) (key : string) : option (CacheEntry V) :=
  default ∅ (cache_store g) !! key.

End stores.
End Decorators.

(* ===================================================================== *)
(** * database/models.py *)
(* ===================================================================== *)

Module Models.
Import Connection.

(** A model instance is the dictionary of its fields. *)
Abbreviation Obj := (gmap string Value).

(** [BaseModel.from_dict]: [cls( **data)] on a dataclass whose fields all
    have defaults; a key that is not a field is a [TypeError]. *)
Definition from_dict (defaults : list (string * Value)) (data : Row) : M Obj :=
  if bool_decide (dom data ⊆ dom (list_to_map (M:=gmap string Value) defaults))
  then mret (data ∪ list_to_map defaults)
  else raise TypeError.

Definition zero_cents : Value := VDec (mkDecimal 0 (-2)).

Definition CartItem_fields : list (string * Value) :=
  [("cart_id", VNone); ("customer_id", VNone); ("item_id", VNone);
   ("quantity", VInt 1); ("added_date", VNone); ("updated_date", VNone);
   ("item_name", VStr ""); ("price", zero_cents); ("weight", zero_cents);
   ("volume", zero_cents)].

Definition Customer_fields : list (string * Value) :=
  [("customer_id", VNone); ("user_name", VStr ""); ("customer_type", VStr "");
   ("first_name", VStr ""); ("last_name", VStr ""); ("email", VStr "");
   ("phone", VStr ""); ("address", VStr ""); ("city", VStr "");
   ("postal_code", VStr ""); ("credit_limit", VDec (mkDecimal 1000000 (-2)));
   ("current_balance", zero_cents); ("created_date", VNone)].

Definition Order_fields : list (string * Value) :=
  [("order_id", VNone); ("customer_id", VNone); ("route_id", VNone);
   ("order_date", VNone); ("delivery_date", VNone);
   ("requested_delivery_time", VNone); ("status", VStr "pending");
   ("total_items", VInt 0); ("total_weight", zero_cents);
   ("total_volume", zero_cents); ("subtotal", zero_cents);
   ("discount_amount", zero_cents); ("tax_amount", zero_cents);
   ("shipping_cost", zero_cents); ("total_amount", zero_cents);
   ("payment_status", VStr "pending"); ("special_instructions", VStr "");
   ("priority", VStr "standard"); ("created_date", VNone);
   ("updated_date", VNone)].

(** Reading an attribute of an instance; every field is always set. *)
Definition attr (self : Obj) (name : string) : Value :=
  default VNone (self !! name).

(** [Decimal(str(v))]: the text of an integer or of a decimal reads back
    as the same number; the texts ['None'] and of a date are no numbers. *)
Definition decimal_of_str `{PyRuntime} (v : Value) : Result Decimal :=
  match v with
  | VInt n => Ok (mkDecimal n 0)
  | VDec d => Ok d
  | VStr s =>
    match py_decimal s with
    | Some d => Ok d
    | None => Raise InvalidOperation
    end
  | VNone | VDate _ => Raise InvalidOperation
  end.

Definition ten : Decimal := mkDecimal 1000 (-2).

(** The query that [call_function] builds for the shipping cost. *)
Definition shipping_query : string :=
  "SELECT fn_calculate_shipping_cost(%s, %s, %s) as result".

(** The call that creates an order from the cart. *)
Definition create_call (customer_id route_id delivery_date
    special_instructions : Value) : DbCall :=
  CallProcedure "sp_create_order_from_cart"
    [customer_id; route_id; delivery_date; special_instructions].

Section with_database.
Context `{PyRuntime} (db : Database).

Definition CartItem_add_to_cart (customer_id item_id quantity : Value) : M bool :=
  try_except
    (call_procedure db "sp_add_to_cart" [customer_id; item_id; quantity];;
     mret true)
    (λ _, mret false).

Definition CartItem_get_cart_contents (customer_id : Value) : M (list Obj) :=
  try_except
    (cart_data ← call_procedure db "sp_get_cart_summary" [customer_id];
     mapM (from_dict CartItem_fields) cart_data)
    (λ _, mret []).

Definition Customer_get_by_id (customer_id : Value) : M (option Obj) :=
  try_except
    (customer_data ← execute_query_one db
       "SELECT * FROM customers WHERE customer_id = %s" [customer_id];
     match customer_data with
     | Some data =>
       if row_truthy customer_data
       then Some <$> from_dict Customer_fields data
       else mret None
     | None => mret None
     end)
    (λ _, mret None).

Definition Customer_get_discount_rate (self : Obj) : M Decimal :=
  try_except
    (result ← execute_query_one db
       "SELECT discount_rate FROM customer_type WHERE customer_type = %s"
       [attr self "customer_type"];
     if row_truthy result then
       rate ← subscript result "discount_rate";
       lift_result (decimal_of_str rate)
     else mret (mkDecimal 0 (-2)))
    (λ _, mret (mkDecimal 0 (-2))).

Definition order_query : string :=
  "SELECT * FROM order_table WHERE order_id = %s".

Definition Order_get_by_id (order_id : Value) : M (option Obj) :=
  try_except
    (order_data ← execute_query_one db order_query [order_id];
     match order_data with
     | Some data =>
       if row_truthy order_data
       then Some <$> from_dict Order_fields data
       else mret None
     | None => mret None
     end)
    (λ _, mret None).

Definition Order_create_from_cart (customer_id route_id delivery_date
    special_instructions : Value) : M (option Obj) :=
  try_except
    (result ← call_procedure db "sp_create_order_from_cart"
       [customer_id; route_id; delivery_date; special_instructions];
     match result with
     | first :: _ =>
       let order_id := default VNone (first !! "order_id") in
       if truthy order_id then Order_get_by_id order_id else mret None
     | [] => mret None
     end)
    (λ _, mret None).

(** Returns the flag and the instance, whose [status] the call assigns on
    success. *)
Definition Order_update_status (self : Obj) (new_status : Value)
    (user_name : Value) : M (bool * Obj) :=
  try_except
    (call_procedure db "sp_update_order_status"
       [attr self "order_id"; new_status; user_name];;
     mret (true, <["status" := new_status]> self))
    (λ _, mret (false, self)).

Definition calculate_shipping_cost (route_id weight volume : Value) : M Decimal :=
  try_except
    (result ← call_function db "fn_calculate_shipping_cost"
       [route_id; weight; volume];
     if truthy result then lift_result (decimal_of_str result) else mret ten)
    (λ _, mret ten).

End with_database.
End Models.

(* ===================================================================== *)
(** * routes/customer.py and routes/orders.py *)
(* ===================================================================== *)

(** SQL text is given on one line; the layout whitespace of the Python
    string literals is not kept. *)

Module Routes.
Import Connection Helpers Models.

(** The argument lists of the calls of the procedure [proc_name], in the
    order of the calls. *)
Definition procedure_calls (proc_name : string) (cs : list DbCall)
  : list (list Value) :=
  cs ≫= λ c,
    match c with
    | CallProcedure p args => if String.eqb p proc_name then [args] else []
    | ExecuteQuery _ _ _ => []
    end.

(** Where [add_to_cart] sends the browser after a refusal. *)
Definition products_page (ctx : Ctx) : Response :=
  Redirect (referrer_or ctx (url_for "customer.products")).

(** The call by which a handler asks for [order_id] to be moved to
    [new_status]. *)
Definition update_call (new_status : string) (user_name : Value)
    (order_id : Z) : DbCall :=
  CallProcedure "sp_update_order_status"
    [VInt order_id; VStr new_status; user_name].

Section with_database.
Context `{PyRuntime} (db : Database).

(** [int(request.form.get(key, fallback))] with an integer fallback. *)
Definition int_of_form (ctx : Ctx) (key : string) (fallback : Z) : M Z :=
  match form_get (form ctx) key with
  | Some s => of_option ValueError (py_int s)
  | None => mret fallback
  end.

(** ** routes/customer.py *)

Definition add_to_cart (ctx : Ctx) : M Response :=
  try_except
    (let user := get_current_user ctx in
     customer_id ← subscript user "customer_id";
     item_id ← int_of_form ctx "item_id" 0;
     quantity ← int_of_form ctx "quantity" 1;
     if (item_id <=? 0) || (quantity <=? 0) then
       flash_error [Lit "Invalid item or quantity"];;
       mret (Redirect (referrer_or ctx (url_for "customer.products")))
     else
       item ← execute_query_one db
         "SELECT item_id, item_name FROM items WHERE item_id = %s AND is_active = TRUE"
         [VInt item_id];
       if negb (row_truthy item) then
         flash_error [Lit "Product not found or unavailable"];;
         mret (Redirect (referrer_or ctx (url_for "customer.products")))
       else
         total_available ← execute_query_one db
           "SELECT SUM(quantity_available) as total FROM inventory WHERE item_id = %s"
           [VInt item_id];
         insufficient ←
           (if negb (row_truthy total_available) then mret true
            else
              total ← subscript total_available "total";
              lift_result (py_lt total (VInt quantity)));
         if insufficient : bool then
           flash_error [Lit "Insufficient stock available"];;
           mret (Redirect (referrer_or ctx (url_for "customer.products")))
         else
           added ← CartItem_add_to_cart db customer_id (VInt item_id) (VInt quantity);
           (if added : bool then
              item_name ← subscript item "item_name";
              flash_success [Interp item_name; Lit " added to cart"]
            else flash_error [Lit "Failed to add item to cart"]);;
           mret (Redirect (referrer_or ctx (url_for "customer.cart"))))
    (λ _,
       flash_error [Lit "Error adding item to cart"];;
       mret (Redirect (referrer_or ctx (url_for "customer.products")))).

Definition _render_checkout_page (ctx : Ctx) : M Response :=
  try_except
    (let user := get_current_user ctx in
     customer_id ← subscript user "customer_id";
     cart_items ← CartItem_get_cart_contents db customer_id;
     match cart_items with
     | [] =>
       flash_warning [Lit "Your cart is empty"];;
       mret (Redirect (url_for "customer.cart"))
     | _ =>
       customer ← Customer_get_by_id db customer_id;
       discount_rate ←
         match customer with
         | Some c => Customer_get_discount_rate db c
         | None => mret (mkDecimal 0 (-2))
         end;
       routes ← execute_query db
         "SELECT r.*, s.city as store_city FROM route r INNER JOIN store s ON r.store_name = s.store_name WHERE r.is_active = TRUE ORDER BY r.store_name, r.route_name"
         [];
       let min_delivery_date := calculate_delivery_date (today ctx) None 7 in
       mret (RenderTemplate "customer/checkout.html")
     end)
    (λ _,
       flash_error [Lit "Error loading checkout page"];;
       mret (Redirect (url_for "customer.cart"))).

Definition checkout (ctx : Ctx) : M Response :=
  if String.eqb (method ctx) "GET" then _render_checkout_page ctx
  else
  try_except
    (let user := get_current_user ctx in
     customer_id ← subscript user "customer_id";
     route_id ← int_of_form ctx "route_id" 0;
     let delivery_date := default "" (form_get (form ctx) "delivery_date") in
     let special_instructions :=
       sanitize_input (default "" (form_get (form ctx) "special_instructions")) None in
     if route_id <=? 0 then
       flash_error [Lit "Please select a delivery route"];;
       _render_checkout_page ctx
     else if String.eqb delivery_date ""
             || negb (is_future_date (today ctx) (AsStr delivery_date) 7) then
       flash_error [Lit "Delivery date must be at least 7 days from today"];;
       _render_checkout_page ctx
     else
       cart_items ← CartItem_get_cart_contents db customer_id;
       match cart_items with
       | [] =>
         flash_error [Lit "Your cart is empty"];;
         mret (Redirect (url_for "customer.cart"))
       | _ =>
         parsed ← of_option ValueError (strptime_ymd delivery_date);
         order ← Order_create_from_cart db customer_id (VInt route_id)
                   (VDate parsed) (VStr special_instructions);
         match order with
         | Some o =>
           flash_success [Lit "Order #"; Interp (attr o "order_id");
                          Lit " placed successfully!"];;
           mret (Redirect (UrlFor "customer.order_detail"
                             [("order_id", attr o "order_id")]))
         | None =>
           flash_error [Lit "Failed to create order. Please try again."];;
           _render_checkout_page ctx
         end
       end)
    (λ _,
       flash_error [Lit "Error processing order"];;
       _render_checkout_page ctx).

(** ** routes/orders.py *)

(** The loop of [bulk_update_orders]; a failing update is logged and the
    loop goes on. *)
Fixpoint update_each (order_ids : list Z) (new_status : string)
    (user_name : Value) (updated_count : Z) : M Z :=
  match order_ids with
  | [] => mret updated_count
  | order_id :: rest =>
    updated_count ←
      try_except
        (call_procedure db "sp_update_order_status"
           [VInt order_id; VStr new_status; user_name];;
         mret (updated_count + 1))
        (λ _, mret updated_count);
    update_each rest new_status user_name updated_count
  end.

Definition bulk_update_orders (ctx : Ctx) : M Response :=
  let back := Redirect (referrer_or ctx (url_for "manager.orders_management")) in
  try_except
    (let order_ids := form_getlist (form ctx) "order_ids" in
     let new_status := default "" (form_get (form ctx) "new_status") in
     if bool_decide (order_ids = []) || String.eqb new_status "" then
       flash_error [Lit "Please select orders and specify status"];;
       mret back
     else
       parsed ←
         try_except_value_error
           (Some <$> of_option ValueError
              (mapM py_int (List.filter py_isdigit order_ids)))
           (flash_error [Lit "Invalid order IDs"];; mret None);
       match parsed with
       | None => mret back
       | Some [] =>
         flash_error [Lit "No valid orders selected"];;
         mret back
       | Some order_ids =>
         let user := get_current_user ctx in
         user_name ← subscript user "user_name";
         updated_count ← update_each order_ids new_status user_name 0;
         flash_success [Lit "Updated "; Interp (VInt updated_count);
                        Lit " orders to "; Interp (VStr new_status)];;
         mret back
       end)
    (λ _,
       flash_error [Lit "Error updating orders"];;
       mret back).

Definition terminal_statuses : list Value :=
  [VStr "delivered"; VStr "cancelled"; VStr "returned"].

Definition cancel_order (ctx : Ctx) (order_id : Z) : M Response :=
  let back := Redirect (referrer_or ctx (url_for "customer.orders")) in
  try_except
    (let user := get_current_user ctx in
     order ←
       (if is_customer ctx then
          customer_id ← subscript user "customer_id";
          execute_query_one db
            "SELECT * FROM order_table WHERE order_id = %s AND customer_id = %s"
            [VInt order_id; customer_id]
        else
          execute_query_one db
            "SELECT * FROM order_table WHERE order_id = %s"
            [VInt order_id]);
     if negb (row_truthy order) then
       flash_error [Lit "Order not found"];;
       mret back
     else
       status ← subscript order "status";
       if py_in status terminal_statuses then
         flash_error [Lit "Order cannot be cancelled"];;
         mret back
       else
         user_name ← subscript user "user_name";
         call_procedure db "sp_update_order_status"
           [VInt order_id; VStr "cancelled"; user_name];;
         flash_success [Lit "Order #"; Interp (VInt order_id);
                        Lit " has been cancelled"];;
         mret back)
    (λ _,
       flash_error [Lit "Error cancelling order"];;
       mret back).

(** ** What the statements below observe *)

(** The query by which [cancel_order] looks the order up: customers are
    confined to their own orders, every other role sees all orders. *)
Definition scoped_lookup (ctx : Ctx) (order_id : Z) : string * list Value :=
  if is_customer ctx then
    ("SELECT * FROM order_table WHERE order_id = %s AND customer_id = %s",
     [VInt order_id; session_get ctx "customer_id"])
  else ("SELECT * FROM order_table WHERE order_id = %s", [VInt order_id]).

(** The requesting user is logged in and is shown an order whose status is
    none of the three final ones. *)
Definition cancellable (ctx : Ctx) (order_id : Z) : Prop :=
  ∃ order status,
    "user_name" ∈ dom (session ctx) ∧
    fetchone db [] (scoped_lookup ctx order_id).1 (scoped_lookup ctx order_id).2
      = Some (Some order) ∧
    order ≠ ∅ ∧
    order !! "status" = Some status ∧
    py_in status terminal_statuses = false.

(** [int(request.form.get(key, fallback))] as a value; [None] where it
    raises. *)
Definition form_int (ctx : Ctx) (key : string) (fallback : Z) : option Z :=
  match form_get (form ctx) key with
  | Some s => py_int s
  | None => Some fallback
  end.

Definition item_query : string :=
  "SELECT item_id, item_name FROM items WHERE item_id = %s AND is_active = TRUE".
Definition stock_query : string :=
  "SELECT SUM(quantity_available) as total FROM inventory WHERE item_id = %s".

(** Every validation of [add_to_cart] passes for the submitted [item_id]
    and [quantity]. *)
Definition cart_request_valid (ctx : Ctx) (item_id quantity : Z) : Prop :=
  "user_name" ∈ dom (session ctx) ∧
  form_int ctx "item_id" 0 = Some item_id ∧
  form_int ctx "quantity" 1 = Some quantity ∧
  0 < item_id ∧ 0 < quantity ∧
  ∃ item stock total,
    fetchone db [] item_query [VInt item_id] = Some (Some item) ∧
    item ≠ ∅ ∧
    fetchone db [ExecuteQuery item_query [VInt item_id] true]
      stock_query [VInt item_id] = Some (Some stock) ∧
    stock ≠ ∅ ∧
    stock !! "total" = Some total ∧
    py_lt total (VInt quantity) = Ok false.

(** From [st] to [st'] no order was created and no flashed message was
    taken back. *)
Definition render_frame (st st' : St) : Prop :=
  procedure_calls "sp_create_order_from_cart" (calls st')
  = procedure_calls "sp_create_order_from_cart" (calls st) ∧
  ∃ more, flashes st' = flashes st ++ more.

(** Every precondition of the POST branch of [checkout] holds. *)
Definition checkout_request_valid (ctx : Ctx) : Prop :=
  "user_name" ∈ dom (session ctx) ∧
  ∃ route_id delivery_date parsed first others,
    form_int ctx "route_id" 0 = Some route_id ∧
    0 < route_id ∧
    form_get (form ctx) "delivery_date" = Some delivery_date ∧
    delivery_date ≠ "" ∧
    strptime_ymd delivery_date = Some parsed ∧
    today ctx + 7 ≤ parsed ∧
    (CartItem_get_cart_contents db (session_get ctx "customer_id") initial).1
      = Ok (first :: others).

End with_database.
End Routes.

(* ===================================================================== *)
(** * A small runtime for running the handlers *)
(* ===================================================================== *)

(** An instance of [PyRuntime] for evaluating the handlers on concrete
    requests.  It reads plain decimal numerals, with an optional sign and
    surrounding blanks for [int], and ISO dates; it rejects every other
    string, where Python accepts a few more spellings.  The theorems below
    hold for every runtime and do not depend on it. *)
Module SampleRuntime.
Import Helpers.

Definition digit_of (c : ascii) : option Z :=
  let n := nat_of_ascii c in
  if ((48 <=? n) && (n <=? 57))%nat then Some (Z.of_nat n - 48) else None.

Fixpoint digits_value (acc : Z) (l : list ascii) : option Z :=
  match l with
  | [] => Some acc
  | c :: rest =>
    match digit_of c with
    | Some d => digits_value (10 * acc + d) rest
    | None => None
    end
  end.

Definition numeral (l : list ascii) : option Z :=
  match l with
  | [] => None
  | _ => digits_value 0 l
  end.

Definition signed_numeral (l : list ascii) : option Z :=
  match l with
  | "-"%char :: rest => Z.opp <$> numeral rest
  | "+"%char :: rest => numeral rest
  | _ => numeral l
  end.

Definition int_of_string (s : string) : option Z :=
  signed_numeral (strip (String.list_ascii_of_string s)).

Definition isdigit (s : string) : bool :=
  match String.list_ascii_of_string s with
  | [] => false
  | l => forallb (λ c, bool_decide (is_Some (digit_of c))) l
  end.

(** Splitting at a separator character. *)
Fixpoint split_at (sep : ascii) (l : list ascii) : list (list ascii) :=
  match l with
  | [] => [[]]
  | c :: rest =>
    if Ascii.eqb c sep then [] :: split_at sep rest
    else
      match split_at sep rest with
      | first :: others => (c :: first) :: others
      | [] => [[c]]
      end
  end.

Definition is_leap (y : Z) : bool :=
  (y `mod` 4 =? 0) && (negb (y `mod` 100 =? 0) || (y `mod` 400 =? 0)).

Definition days_in_month (y m : Z) : Z :=
  if m =? 2 then (if is_leap y then 29 else 28)
  else if (m =? 4) || (m =? 6) || (m =? 9) || (m =? 11) then 30
  else 31.

Definition days_before_month (y m : Z) : Z :=
  foldr (λ k acc, days_in_month y (Z.of_nat k) + acc) 0
        (seq 1 (Z.to_nat (m - 1))).

(** [date(y, m, d).toordinal()] *)
Definition ordinal_of (y m d : Z) : Z :=
  let p := y - 1 in
  p * 365 + p `div` 4 - p `div` 100 + p `div` 400 + days_before_month y m + d.

Definition date_of_string (s : string) : option Z :=
  match split_at "-"%char (String.list_ascii_of_string s) with
  | [ys; ms; ds] =>
    if bool_decide (length ys = 4%nat)
       && bool_decide (1 ≤ length ms ≤ 2)%nat
       && bool_decide (1 ≤ length ds ≤ 2)%nat then
      match numeral ys, numeral ms, numeral ds with
      | Some y, Some m, Some d =>
        if (1 <=? y) && (1 <=? m) && (m <=? 12) && (1 <=? d)
           && (d <=? days_in_month y m)
        then Some (ordinal_of y m d) else None
      | _, _, _ => None
      end
    else None
  | _ => None
  end.

Definition decimal_of_string (s : string) : option Decimal :=
  let body := strip (String.list_ascii_of_string s) in
  let '(negative, body) :=
    match body with
    | "-"%char :: rest => (true, rest)
    | "+"%char :: rest => (false, rest)
    | _ => (false, body)
    end in
  let sign := if negative : bool then -1 else 1 in
  match split_at "."%char body with
  | [whole] => (λ n, mkDecimal (sign * n) 0) <$> numeral whole
  | [whole; frac] =>
    match numeral (whole ++ frac) with
    | Some n => Some (mkDecimal (sign * n) (- Z.of_nat (length frac)))
    | None => None
    end
  | _ => None
  end.

#[export] Instance runtime : PyRuntime :=
  mkPyRuntime int_of_string isdigit date_of_string decimal_of_string.

(** The session of the customer 7, logged in as alice. *)
Definition customer_session : gmap string Value :=
  <["user_name" := VStr "alice"]>
  (<["user_role" := VStr "customer"]>
  (<["customer_id" := VInt 7]> ∅)).

(** A POST by that customer with the given form, on 3 November 2026. *)
Definition customer_post (fields : list (string * string)) : Ctx :=
  mkCtx "POST" fields None customer_session 739923.

(** A database whose every one-row query finds the order 5 in the given
    status. *)
Definition order_db (status : string) : Database :=
  mkDatabase
    (λ _ _ _, Some (Some (<["order_id" := VInt 5]>
                         (<["status" := VStr status]> ∅))))
    (λ _ _ _, Some []) (λ _ _ _, Some []).

(** A database with one active item, 25 of it in stock, and one line in
    every cart; creating an order yields order 5, which it then finds. *)
Definition shop_db : Database :=
  mkDatabase
    (λ _ query _,
       if String.eqb query Routes.stock_query
       then Some (Some {["total" := VDec (mkDecimal 25 0)]})
       else if String.eqb query Routes.item_query
       then Some (Some (<["item_id" := VInt 3]> {["item_name" := VStr "Rice"]}))
       else Some (Some (<["order_id" := VInt 5]> {["status" := VStr "pending"]})))
    (λ _ _ _, Some [])
    (λ _ proc_name _,
       if String.eqb proc_name "sp_get_cart_summary"
       then Some [<["item_id" := VInt 3]> {["quantity" := VInt 2]}]
       else if String.eqb proc_name "sp_create_order_from_cart"
       then Some [{["order_id" := VInt 5]}]
       else Some []).

(** A database whose shipping-cost function answers zero. *)
Definition free_shipping_db : Database :=
  mkDatabase
    (λ _ _ _, Some (Some {["result" := VDec (mkDecimal 0 (-2))]}))
    (λ _ _ _, Some []) (λ _ _ _, Some []).

(** A database that finds nothing: no row for any query, no result set for
    any procedure. *)
Definition empty_db : Database :=
  mkDatabase (λ _ _ _, Some None) (λ _ _ _, Some []) (λ _ _ _, Some []).

End SampleRuntime.

(* ===================================================================== *)
(** * More of utils/helpers.py *)
(* ===================================================================== *)

(** Further built-ins of the runtime: the ISO text of a clock reading and
    its parser ([None] where [datetime.fromisoformat] raises), [str] on a
    value, and the MD5 digest in hexadecimal. *)
Class PyRuntimeExt := mkPyRuntimeExt {
  isoformat : Z → string;
  fromisoformat : string → option Z;
  py_str : Value → string;
  md5_hex : string → string
}.

#[global] Instance Part_eq_dec : EqDecision Part.
Proof. solve_decision. Defined.

#[global] Instance Flash_eq_dec : EqDecision Flash.
Proof. solve_decision. Defined.

Module HelpersExt.

(** ** get_pagination_info *)

Record PageInfo := mkPageInfo {
  total : Z;
  page : Z;
  per_page : Z;
  pages : Z;
  has_prev : bool;
  has_next : bool;
  prev_num : option Z;
  next_num : option Z;
  start_index : Z;
  end_index : Z
}.

Definition get_pagination_info (total page per_page : Z) : Result PageInfo :=
  match (if 0 <? total
         then Helpers.floordiv (total + per_page - 1) per_page
         else Ok 0) with
  | Raise e => Raise e
  | Ok pages =>
    let page :=
      if page <? 1 then 1
      else if (pages <? page) && (0 <? pages) then pages
      else page in
    Ok (mkPageInfo total page per_page pages
          (1 <? page) (page <? pages)
          (if 1 <? page then Some (page - 1) else None)
          (if page <? pages then Some (page + 1) else None)
          (if 0 <? total then (page - 1) * per_page + 1 else 0)
          (Z.min (page * per_page) total))
  end.

(** ** Session predicates and writers *)

Definition is_logged_in (ctx : Ctx) : bool :=
  bool_decide ("user_name" ∈ dom (session ctx)).

Definition is_store_manager (ctx : Ctx) : bool :=
  py_eq (session_get ctx "user_role") (VStr "store_manager").

Definition is_main_manager (ctx : Ctx) : bool :=
  py_eq (session_get ctx "user_role") (VStr "main_manager").

Definition is_manager (ctx : Ctx) : bool :=
  py_in (session_get ctx "user_role")
    [VStr "store_manager"; VStr "main_manager"].

(** The same request with another session. *)
Definition with_session (ctx : Ctx) (s : gmap string Value) : Ctx :=
  mkCtx (method ctx) (form ctx) (referrer ctx) s (today ctx).

(** [user_data.get(key)] *)
Definition dict_get (d : Row) (key : string) : Value := default VNone (d !! key).

(** [create_user_session]: the new session and the [permanent] flag.  The
    messages that Flask keeps in the session under ['_flashes'] are held in
    [St], apart from the other keys. *)
Definition create_user_session `{PyRuntimeExt} (now : Z) (user_data : Row)
    (s : gmap string Value) : gmap string Value * bool :=
  let s := <["user_name" := dict_get user_data "user_name"]> s in
  let s := <["user_role" := dict_get user_data "role"]> s in
  let s := <["full_name" := dict_get user_data "full_name"]> s in
  let s := <["customer_id" := dict_get user_data "customer_id"]> s in
  let s := <["store_name" := dict_get user_data "store_name"]> s in
  let s := <["manager_id" := dict_get user_data "manager_id"]> s in
  let s := <["last_activity" := VStr (isoformat now)]> s in
  (s, true).

Definition clear_user_session (s : gmap string Value) : gmap string Value := ∅.

(** ** Password rules *)

Definition in_range (lo hi : nat) (c : ascii) : bool :=
  let n := nat_of_ascii c in ((lo <=? n) && (n <=? hi))%nat.

Definition is_upper : ascii → bool := in_range 65 90.
Definition is_lower : ascii → bool := in_range 97 122.
Definition is_digit : ascii → bool := in_range 48 57.

(** The class of special characters of the last rule, by character code:
    exclamation mark, at, hash, dollar, percent, caret, ampersand, star,
    the two parentheses, comma, full stop, question mark, double quote,
    colon, the two braces, bar and the two angle brackets. *)
Definition special_codes : list nat :=
  [33; 64; 35; 36; 37; 94; 38; 42; 40; 41; 44; 46; 63; 34; 58; 123; 125; 124;
   60; 62]%nat.

Definition is_special (c : ascii) : bool :=
  bool_decide (nat_of_ascii c ∈ special_codes).

(** [re.search] for one character of a class. *)
Definition search (class : ascii → bool) (s : string) : bool :=
  existsb class (String.list_ascii_of_string s).

Definition is_valid_password (password : string) : bool * list string :=
  if String.eqb password "" then (false, ["Password is required"])
  else
    let errors := [] in
    let errors :=
      if (String.length password <? 8)%nat
      then errors ++ ["Password must be at least 8 characters long"]
      else errors in
    let errors :=
      if negb (search is_upper password)
      then errors ++ ["Password must contain at least one uppercase letter"]
      else errors in
    let errors :=
      if negb (search is_lower password)
      then errors ++ ["Password must contain at least one lowercase letter"]
      else errors in
    let errors :=
      if negb (search is_digit password)
      then errors ++ ["Password must contain at least one number"]
      else errors in
    let errors :=
      if negb (search is_special password)
      then errors ++ ["Password must contain at least one special character"]
      else errors in
    ((length errors =? 0)%nat, errors).

End HelpersExt.

(* ===================================================================== *)
(** * More of utils/decorators.py *)
(* ===================================================================== *)

Module DecoratorsExt.
Import Decorators.

(** What these decorators read besides [Ctx]: the clock, the URL and the
    address of the request, whether its body is JSON, and the configured
    [PERMANENT_SESSION_LIFETIME] ([None] when it is not configured). *)
Record Env := mkEnv {
  now : Z;
  url : string;
  remote_addr : Value;
  is_json : bool;
  lifetime : option Z
}.

(** ** Sessions *)

Definition _is_session_valid `{PyRuntimeExt} (env : Env)
    (s : gmap string Value) : bool :=
  let last_activity := default VNone (s !! "last_activity") in
  if negb (truthy last_activity) then false
  else
    match last_activity with
    | VStr text =>
      match fromisoformat text, lifetime env with
      | Some last_activity_dt, Some timeout =>
        if timeout <? now env - last_activity_dt then false else true
      | _, _ => false
      end
    | _ => false
    end.

Definition expired_notice : Flash :=
  mkFlash [Lit "Session expired. Please log in again."] "warning".

(** [login_required]: the outcome and the session afterwards.  The wrapped
    function reads the session and does not write it.  [session.clear()]
    also drops the messages flashed so far, which Flask keeps in the
    session. *)
Definition login_required `{PyRuntimeExt} {Args : Type}
    (f : Ctx → Args → M Response) (env : Env) (ctx : Ctx) (args : Args)
    (st : St) : (Result Response * St) * gmap string Value :=
  if negb (bool_decide ("user_name" ∈ dom (session ctx))) then
    ((flash (message login_notice) (category login_notice);;
      mret (Redirect (url_for "auth.login"))) st,
     <["next_url" := VStr (url env)]> (session ctx))
  else if negb (_is_session_valid env (session ctx)) then
    ((flash (message expired_notice) (category expired_notice);;
      mret (Redirect (url_for "auth.login"))) (mkSt (calls st) []),
     ∅)
  else (f ctx args st, session ctx).

Definition customer_required `{PyRuntimeExt} {Args : Type}
    (f : Ctx → Args → M Response) :=
  login_required (role_required [VStr "customer"] f).

Definition manager_required `{PyRuntimeExt} {Args : Type}
    (f : Ctx → Args → M Response) :=
  login_required (role_required [VStr "store_manager"; VStr "main_manager"] f).

Definition store_manager_required `{PyRuntimeExt} {Args : Type}
    (f : Ctx → Args → M Response) :=
  login_required (role_required [VStr "store_manager"] f).

Definition main_manager_required `{PyRuntimeExt} {Args : Type}
    (f : Ctx → Args → M Response) :=
  login_required (role_required [VStr "main_manager"] f).

(** ** Form validation *)

(** [field not in request.form or not request.form[field].strip()];
    [request.form[field]] is the first value submitted for the field. *)
Definition is_blank (f : list (string * string)) (field : string) : bool :=
  match form_get f field with
  | None => true
  | Some v => bool_decide (Helpers.strip (String.list_ascii_of_string v) = [])
  end.

(** The loop over [required_fields]. *)
Fixpoint collect_missing (f : list (string * string))
    (required_fields : list string) (missing_fields : list string)
  : list string :=
  match required_fields with
  | [] => missing_fields
  | field :: rest =>
    collect_missing f rest
      (if is_blank f field then missing_fields ++ [field] else missing_fields)
  end.

Definition validate_form {Args : Type} (required_fields : list string)
    (f : Ctx → Args → M Response) : Ctx → Args → M Response := λ ctx args,
  let missing_fields := collect_missing (form ctx) required_fields [] in
  match missing_fields with
  | [] => f ctx args
  | _ =>
    flash [Lit "Missing required fields: ";
           Interp (VStr (String.concat ", " missing_fields))] "error";;
    mret (Redirect (referrer_or ctx (url_for "index")))
  end.

(** ** Rate limiting *)

Definition _get_rate_limit_key `{PyRuntimeExt} (env : Env) (ctx : Ctx) : string :=
  if bool_decide ("user_name" ∈ dom (session ctx))
  then String.append "rate_limit:user:" (py_str (session_get ctx "user_name"))
  else String.append "rate_limit:ip:" (py_str (remote_addr env)).

(** What a rate-limited view answers: a page, or a JSON body with a status
    code. *)
Inductive Reply :=
| Page (r : Response)
| Json (body : list (string * Value)) (status : Z).

Definition rate_limit `{PyRuntimeExt} {V Args : Type}
    (max_requests per_seconds : Z) (key_func : option (Env → Ctx → string))
    (f : Ctx → Args → M Response) (env : Env) (ctx : Ctx) (args : Args)
    (g : G V) (st : St) : (Result Reply * St) * G V :=
  let key :=
    match key_func with
    | Some key_of => key_of env ctx
    | None => _get_rate_limit_key env ctx
    end in
  let '(limited, g') :=
    _is_rate_limited (now env) key max_requests per_seconds g in
  if limited then
    if is_json env then
      ((Ok (Json [("error", VStr "Rate limit exceeded")] 429), st), g')
    else
      ((flash [Lit "Too many requests. Please try again later."] "warning";;
        mret (Page (Redirect (url_for "index")))) st, g')
  else ((Page <$> f ctx args) st, g').

(** Calls of one rate-limited view made one after the other under the same
    [g] (Flask keeps one [g] for each application context), each with its
    own request and its own messages; returns the final states of the
    calls, in order, and the store. *)
Fixpoint serve `{PyRuntimeExt} {V Args : Type} (max_requests per_seconds : Z)
    (f : Ctx → Args → M Response) (args : Args)
    (requests : list (Env * Ctx)) (g : G V) : list St * G V :=
  match requests with
  | [] => ([], g)
  | (env, ctx) :: rest =>
    let '((_, st), g1) :=
      rate_limit max_requests per_seconds None f env ctx args g initial in
    let '(sts, g2) := serve max_requests per_seconds f args rest g1 in
    (st :: sts, g2)
  end.

(** The clock readings of the requests under [key] at which the wrapped
    view ran, observed through the mark that [probe] leaves. *)
Fixpoint ran `{PyRuntimeExt} (key : string) (requests : list (Env * Ctx))
    (sts : list St) : list Z :=
  match requests, sts with
  | (env, ctx) :: rest, st :: more =>
    if String.eqb (_get_rate_limit_key env ctx) key
       && bool_decide (probe_mark ∈ flashes st)
    then now env :: ran key rest more
    else ran key rest more
  | _, _ => []
  end.

(** The key and the clock reading of each request. *)
Definition keyed `{PyRuntimeExt} (requests : list (Env * Ctx))
  : list (string * Z) :=
  (λ r : Env * Ctx, (_get_rate_limit_key r.1 r.2, now r.1)) <$> requests.

(** ** Response caching *)

(** [f"{k}:{v}"] for the keyword arguments in the order of their names. *)
Definition kwargs_parts `{PyRuntimeExt} (kwargs : list (string * Value))
  : list string :=
  (λ kv : string * Value,
     String.append kv.1 (String.append ":" (py_str kv.2)))
  <$> merge_sort (λ a b : string * Value, String.leb a.1 b.1) kwargs.

Definition _generate_cache_key `{PyRuntimeExt} (func_name : string)
    (args : list Value) (kwargs : list (string * Value))
    (prefix : option string) : string :=
  let key_parts := [func_name] in
  let key_parts :=
    match prefix with
    | Some p => if String.eqb p "" then key_parts else p :: key_parts
    | None => key_parts
    end in
  let key_parts := key_parts ++ (py_str <$> args) in
  let key_parts := key_parts ++ kwargs_parts kwargs in
  md5_hex (String.concat ":" key_parts).

(** [cache_response]: [now] is the clock at the lookup, [later] the clock
    when the result is stored. *)
Definition cache_response `{PyRuntimeExt} (timeout : Z)
    (key_prefix : option string) (func_name : string)
    (f : Ctx → list Value → list (string * Value) → M Response)
    (now later : Z) (ctx : Ctx) (args : list Value)
    (kwargs : list (string * Value)) (g : G Response) (st : St)
  : (Result Response * St) * G Response :=
  let cache_key := _generate_cache_key func_name args kwargs key_prefix in
  let '(cached_result, g1) := _get_from_cache now cache_key g in
  match cached_result with
  | Some r => ((Ok r, st), g1)
  | None =>
    match f ctx args kwargs st with
    | (Ok result, st') =>
      ((Ok result, st'), _set_cache later cache_key result timeout g1)
    | (Raise e, st') => ((Raise e, st'), g1)
    end
  end.

End DecoratorsExt.

(* ===================================================================== *)
(** * More of database/models.py *)
(* ===================================================================== *)

Module ModelsExt.
Import Connection Models.

(** [BaseModel.to_dict]: the attributes whose name does not start with an
    underscore. *)
Definition is_private (name : string) : bool :=
  match name with
  | String c _ => Ascii.eqb c "_"%char
  | EmptyString => false
  end.

Definition to_dict (self : Obj) : Row :=
  filter (λ kv : string * Value, is_private kv.1 = false) self.

(** The fields of [User]; [user_name] has no default.  [True] is the
    integer 1. *)
Definition User_defaults : list (string * Value) :=
  [("password", VStr ""); ("role", VStr ""); ("created_date", VNone);
   ("last_login", VNone); ("is_active", VInt 1)].

Definition User_from_dict (data : Row) : M Obj :=
  if bool_decide (dom data ⊆ {["user_name"]} ∪
                    dom (list_to_map (M:=gmap string Value) User_defaults))
     && bool_decide ("user_name" ∈ dom data)
  then mret (data ∪ list_to_map User_defaults)
  else raise TypeError.

Definition users_query : string := "SELECT * FROM users WHERE user_name = %s".

Section with_database.
Context (db : Database).

Definition User_authenticate (user_name password : Value) : M (option Obj) :=
  try_except
    (result ← call_procedure db "sp_authenticate_user" [user_name; password];
     succeeded ←
       match result with
       | first :: _ =>
         status ← getitem first "status";
         mret (py_eq status (VStr "Success"))
       | [] => mret false
       end;
     if succeeded : bool then
       user_data ← execute_query_one db users_query [user_name];
       match user_data with
       | Some data =>
         if row_truthy user_data then Some <$> User_from_dict data
         else mret None
       | None => mret None
       end
     else mret None)
    (λ _, mret None).

End with_database.
End ModelsExt.

(* ===================================================================== *)
(** * routes/manager.py *)
(* ===================================================================== *)

Module Manager.
Import Connection Helpers HelpersExt Routes.


Section with_database.
Context `{PyRuntime} (db : Database).

Definition update_order_status (ctx : Ctx) : M Response :=
  let back := Redirect (referrer_or ctx (url_for "manager.orders_management")) in
  try_except
    (order_id ← int_of_form ctx "order_id" 0;
     let new_status := default "" (form_get (form ctx) "new_status") in
     if (order_id <=? 0) || String.eqb new_status "" then
       flash_error [Lit "Invalid order or status"];;
       mret back
     else
       let user := get_current_user ctx in
       user_name ← subscript user "user_name";
       call_procedure db "sp_update_order_status"
         [VInt order_id; VStr new_status; user_name];;
       flash_success [Lit "Order #"; Interp (VInt order_id);
                      Lit " status updated to "; Interp (VStr new_status)];;
       mret back)
    (λ _,
       flash_error [Lit "Error updating order status"];;
       mret back).



End with_database.
End Manager.

(** An instance of [PyRuntimeExt] for evaluating on concrete requests.  A
    clock reading is written as its number of seconds in decimal; [str]
    gives a string as it is and an integer in decimal; the digest is the
    identity, which keeps distinct key strings apart.  The theorems below
    hold for every runtime and do not depend on it. *)
Module SampleRuntimeExt.

Fixpoint digits_of (fuel : nat) (n : Z) (acc : list ascii) : list ascii :=
  match fuel with
  | O => acc
  | S fuel' =>
    let acc := ascii_of_nat (Z.to_nat (48 + n `mod` 10)) :: acc in
    if n <? 10 then acc else digits_of fuel' (n `div` 10) acc
  end.

Definition string_of_Z (n : Z) : string :=
  let body := digits_of (S (Z.to_nat (Z.log2 (Z.abs n)))) (Z.abs n) [] in
  String.string_of_list_ascii (if n <? 0 then "-"%char :: body else body).

Definition Z_of_string (s : string) : option Z :=
  SampleRuntime.signed_numeral (String.list_ascii_of_string s).

Definition str (v : Value) : string :=
  match v with
  | VNone => "None"
  | VInt n => string_of_Z n
  | VDec d =>
    String.append (string_of_Z (dec_coef d))
      (String.append "E" (string_of_Z (dec_exp d)))
  | VStr s => s
  | VDate ordinal => string_of_Z ordinal
  end.

#[export] Instance runtime : PyRuntimeExt :=
  mkPyRuntimeExt string_of_Z Z_of_string str (λ s, s).

(** A request at clock reading [now] under a session lifetime of eight
    hours. *)
Definition at_time (now : Z) : DecoratorsExt.Env :=
  DecoratorsExt.mkEnv now "/customer/cart" (VStr "10.0.0.1") false (Some 28800).




End SampleRuntimeExt.

(* ===================================================================== *)
(** * Properties of the pure helpers *)
(* ===================================================================== *)

Section customer_types.
Import Config Helpers.

(** C7.  Each of the customer types ['end'], ['retail'] and ['wholesale'] has
    an entry in [BusinessRules.CUSTOMER_TYPES] with discount rate and
    minimum order quantity 0.00/1, 5.00/10 and 15.00/50;
    [get_customer_type_info] returns exactly that entry for each of the
    three, and the default entry (0.00, 1, ['Unknown']) for every other
    string. *)
Theorem customer_type_info_spec (customer_type : string) :
  CUSTOMER_TYPES !! "end" = Some (mkCustomerTypeInfo 0 1 "End consumer") ∧
  CUSTOMER_TYPES !! "retail" = Some (mkCustomerTypeInfo 5 10 "Retail customer") ∧
  CUSTOMER_TYPES !! "wholesale"
    = Some (mkCustomerTypeInfo 15 50 "Wholesale customer") ∧
  Some (get_customer_type_info "end") = CUSTOMER_TYPES !! "end" ∧
  Some (get_customer_type_info "retail") = CUSTOMER_TYPES !! "retail" ∧
  Some (get_customer_type_info "wholesale") = CUSTOMER_TYPES !! "wholesale" ∧
  (customer_type ≠ "end" → customer_type ≠ "retail" →
   customer_type ≠ "wholesale" →
   get_customer_type_info customer_type = mkCustomerTypeInfo 0 1 "Unknown").
Proof.
  repeat split; try reflexivity.
  intros Hend Hretail Hwholesale.
  unfold get_customer_type_info, CUSTOMER_TYPES.
  rewrite !lookup_insert_ne by congruence.
  rewrite lookup_empty. reflexivity.
Qed.

Lemma customer_type_info_spec_witness :
  get_customer_type_info "platinum" = mkCustomerTypeInfo 0 1 "Unknown".
Proof.
  apply (customer_type_info_spec "platinum"); discriminate.
Defined.

End customer_types.

Section pagination.
Import Helpers.
Context {A : Type}.
Implicit Types (l : list A).

Lemma Zltb_bool_decide (a b : Z) : (a <? b) = bool_decide (a < b).
Proof.
  destruct (Z.ltb_spec a b);
    [rewrite bool_decide_true by lia | rewrite bool_decide_false by lia]; done.
Qed.

Lemma slice_from_nonneg l (start count : Z) :
  0 ≤ start → 0 ≤ count →
  py_slice l start (start + count)
  = take (Z.to_nat count) (drop (Z.to_nat start) l).
Proof.
  intros Hs Hc. unfold py_slice, slice_bound.
  assert ((start <? 0) = false) as -> by lia.
  assert ((start + count <? 0) = false) as -> by lia.
  destruct (decide (Z.of_nat (length l) ≤ start)) as [Hge|Hlt].
  - rewrite !drop_ge by lia. by rewrite !take_nil.
  - replace (Z.min start (Z.of_nat (length l))) with start by lia.
    destruct (decide (start + count ≤ Z.of_nat (length l))) as [Hin|Hout].
    + f_equal. lia.
    + rewrite !take_ge; [done| |]; rewrite length_drop; lia.
Qed.

(** The first [n] chunks of size [k] make up the first [n * k] elements. *)
Lemma chunks_concat l (k n : nat) :
  concat ((λ p, take k (drop ((p - 1) * k) l)) <$> seq 1 n) = take (n * k) l.
Proof.
  induction n as [|n IH]; [done|].
  rewrite seq_S, fmap_app, concat_app, IH. simpl.
  rewrite app_nil_r.
  replace (n - 0)%nat with n by lia.
  rewrite take_take_drop. f_equal. lia.
Qed.

Lemma paginate_query_nonempty l (page per_page : Z) :
  l ≠ [] → 0 < per_page →
  let total := Z.of_nat (length l) in
  let pages := (total + per_page - 1) `div` per_page in
  let served := clamp page pages in
  1 ≤ pages ∧
  (pages - 1) * per_page < total ≤ pages * per_page ∧
  paginate_query l page per_page =
    Ok (mkPagination
          (take (Z.to_nat per_page) (drop (Z.to_nat ((served - 1) * per_page)) l))
          total served per_page pages
          (bool_decide (1 < served)) (bool_decide (served < pages))
          (if bool_decide (1 < served) then Some (served - 1) else None)
          (if bool_decide (served < pages) then Some (served + 1) else None)).
Proof.
  intros Hne Hpos total pages served.
  assert (0 < total) as Htotal.
  { subst total. destruct l; [done|]. simpl length. lia. }
  assert ((pages - 1) * per_page < total ≤ pages * per_page) as Hceil.
  { subst pages.
    pose proof (Z.div_mod (total + per_page - 1) per_page ltac:(lia)) as Hdm.
    pose proof (Z.mod_pos_bound (total + per_page - 1) per_page Hpos) as Hmod.
    nia. }
  assert (1 ≤ pages) as Hpages by nia.
  split; [done|]. split; [done|].
  unfold paginate_query, floordiv.
  destruct l as [|x l']; [done|].
  assert ((per_page =? 0) = false) as -> by lia.
  fold total. fold pages.
  assert ((if page <? 1 then 1
           else if (pages <? page) && (0 <? pages) then pages else page)
          = served) as ->.
  { subst served. unfold clamp.
    destruct (page <? 1) eqn:E1; [lia|].
    destruct (pages <? page) eqn:E2; simpl.
    - assert ((0 <? pages) = true) as -> by lia. lia.
    - lia. }
  assert (1 ≤ served) as Hserved by (subst served; unfold clamp; lia).
  rewrite slice_from_nonneg by nia.
  by rewrite !Zltb_bool_decide.
Qed.

End pagination.

Section pagination_spec.
Import Helpers.
Context {A : Type}.
Implicit Types (l : list A).

(** C9.  For every list, page number and positive [per_page],
    [paginate_query] returns: [total] the length of the input; [pages] the
    ceiling of [total / per_page]; [page] the requested number clamped into
    [1 .. pages], and 1 for the empty list; [items] the slice of the input
    that starts at [(page - 1) * per_page] and has at most [per_page]
    elements; [has_prev] exactly when [page > 1] and [has_next] exactly when
    [page < pages]; and the items of the pages [1 .. pages], one after the
    other, are the input list. *)
Theorem paginate_query_spec l (page per_page : Z) :
  0 < per_page →
  ∃ r,
    paginate_query l page per_page = Ok r ∧
    total r = Z.of_nat (length l) ∧
    (pages r - 1) * per_page < total r ≤ pages r * per_page ∧
    Helpers.page r = clamp page (pages r) ∧
    (l ≠ [] → 1 ≤ Helpers.page r ≤ pages r) ∧
    (l = [] → Helpers.page r = 1) ∧
    items r = take (Z.to_nat per_page)
                (drop (Z.to_nat ((Helpers.page r - 1) * per_page)) l) ∧
    Z.of_nat (length (items r)) ≤ per_page ∧
    has_prev r = bool_decide (1 < Helpers.page r) ∧
    has_next r = bool_decide (Helpers.page r < pages r) ∧
    concat ((λ p, page_items (paginate_query l (Z.of_nat p) per_page))
              <$> seq 1 (Z.to_nat (pages r))) = l.
Proof.
  intros Hpos.
  destruct (decide (l = [])) as [->|Hne].
  { eexists. split; [reflexivity|]. simpl.
    repeat split; try done; try lia.
    - unfold clamp. lia.
    - by rewrite take_nil. }
  destruct (paginate_query_nonempty l page per_page Hne Hpos)
    as (Hpages & Hceil & Heq).
  eexists. split; [exact Heq|]. simpl.
  set (total := Z.of_nat (length l)) in *.
  set (pages := (total + per_page - 1) `div` per_page) in *.
  assert (1 ≤ clamp page pages ≤ pages) as Hclamp by (unfold clamp; lia).
  repeat split; try done; try lia.
  - rewrite length_take. lia.
  - transitivity (take (Z.to_nat pages * Z.to_nat per_page) l);
      [|apply take_ge; subst total; nia].
    rewrite <- (chunks_concat l (Z.to_nat per_page) (Z.to_nat pages)). f_equal.
    apply list_fmap_ext. intros i p Hp.
    apply lookup_seq in Hp as [-> Hi].
    destruct (paginate_query_nonempty l (Z.of_nat (1 + i)) per_page Hne Hpos)
      as (_ & _ & ->).
    simpl. fold total. fold pages.
    assert (clamp (Z.of_nat (S i)) pages = Z.of_nat (S i)) as ->
      by (unfold clamp; lia).
    f_equal. f_equal. nia.
Qed.

End pagination_spec.

Lemma paginate_query_spec_witness :
  0 < 2 ∧
  ∃ r, Helpers.paginate_query [10; 20; 30; 40; 50] 2 2 = Ok r ∧
       Helpers.items r = [30; 40].
Proof.
  split; [lia|].
  destruct (paginate_query_spec [10; 20; 30; 40; 50] 2 2 ltac:(lia))
    as (r & Hr & _).
  exists r. split; [exact Hr|].
  vm_compute in Hr. by injection Hr as <-.
Defined.


(* ===================================================================== *)
(** * The rate limiter *)
(* ===================================================================== *)

Section rate_limiter.
Import Decorators.
Context {V : Type}.
Implicit Types (g : G V) (key : string) (stamps acc : list Z).

Lemma is_rate_limited_unfold g key now max_requests per_seconds :
  let kept := recent per_seconds now (recorded g key) in
  _is_rate_limited now key max_requests per_seconds g =
    if max_requests <=? Z.of_nat (length kept)
    then (true, mkG (Some (<[key := kept]> (default ∅ (rate_limit_store g))))
                    (cache_store g))
    else (false, mkG (Some (<[key := kept ++ [now]]>
                              (<[key := kept]> (default ∅ (rate_limit_store g)))))
                     (cache_store g)).
Proof.
  unfold _is_rate_limited, recorded, recent. simpl.
  destruct (default ∅ (rate_limit_store g) !! key); reflexivity.
Qed.

Lemma is_rate_limited_recorded g key now max_requests per_seconds :
  let kept := recent per_seconds now (recorded g key) in
  let r := _is_rate_limited now key max_requests per_seconds g in
  r.1 = bool_decide (max_requests ≤ Z.of_nat (length kept)) ∧
  recorded r.2 key = if r.1 then kept else kept ++ [now].
Proof.
  intros kept r. subst r. rewrite is_rate_limited_unfold. fold kept.
  destruct (Z.leb_spec max_requests (Z.of_nat (length kept))); simpl.
  - rewrite bool_decide_true by done. split; [done|].
    unfold recorded. simpl. by rewrite lookup_insert_eq.
  - rewrite bool_decide_false by lia. split; [done|].
    unfold recorded. simpl. by rewrite lookup_insert_eq.
Qed.

Lemma is_rate_limited_other g key key' now max_requests per_seconds :
  key' ≠ key →
  recorded (_is_rate_limited now key' max_requests per_seconds g).2 key
  = recorded g key.
Proof.
  intros Hne. rewrite is_rate_limited_unfold.
  destruct (_ <=? _); unfold recorded; simpl;
    rewrite ?lookup_insert_ne by done; reflexivity.
Qed.

Lemma recent_recent per_seconds earlier now stamps :
  earlier ≤ now →
  recent per_seconds now (recent per_seconds earlier stamps)
  = recent per_seconds now stamps.
Proof.
  intros Hle. unfold recent. rewrite list_filter_filter.
  apply list_filter_iff. intros t. lia.
Qed.

Lemma in_window_app from per_seconds stamps more :
  in_window from per_seconds (stamps ++ more)
  = in_window from per_seconds stamps + in_window from per_seconds more.
Proof. unfold in_window. rewrite filter_app, length_app. lia. Qed.

(** Readings inside a window that ends after [now] are all recent at
    [now]. *)
Lemma in_window_recent from per_seconds now acc :
  now < from + per_seconds →
  in_window from per_seconds acc
  ≤ Z.of_nat (length (recent per_seconds now acc)).
Proof.
  intros Hnow. unfold in_window, recent.
  induction acc as [|t acc IH]; [done|].
  rewrite !filter_cons.
  repeat case_decide; simpl length; lia.
Qed.

(** The invariant of a run, for the requests still to come. *)
Lemma run_checks_window key max_requests per_seconds requests :
  0 < per_seconds →
  ∀ g acc last,
    clock_monotone requests →
    Forall (λ r, last ≤ r.2) requests →
    Forall (λ t, t ≤ last) acc →
    recorded g key = recent per_seconds last acc →
    (∀ from, in_window from per_seconds acc ≤ max_requests) →
    ∀ from,
      in_window from per_seconds
        (acc ++ admitted key requests
                  (run_checks max_requests per_seconds requests g).1)
      ≤ max_requests.
Proof.
  intros Hper. unfold clock_monotone.
  induction requests as [|[k now] rest IH];
    intros g acc last Hsorted Hfuture Hpast Hrec Hacc from.
  { simpl. by rewrite app_nil_r. }
  simpl in Hsorted. apply StronglySorted_inv in Hsorted as [Hsorted Hnow].
  apply Forall_cons in Hfuture as [Hlast _]. simpl in Hlast.
  assert (Forall (λ r : string * Z, now ≤ r.2) rest) as Hrest.
  { apply Forall_forall. intros r Hr.
    rewrite Forall_forall in Hnow. apply Hnow.
    by apply (list_elem_of_fmap_2 snd). }
  simpl.
  destruct (_is_rate_limited now k max_requests per_seconds g)
    as [limited g1] eqn:Hstep.
  destruct (run_checks max_requests per_seconds rest g1)
    as [verdicts g2] eqn:Hrun.
  simpl.
  assert (verdicts = (run_checks max_requests per_seconds rest g1).1) as ->
    by (by rewrite Hrun).
  destruct (String.eqb_spec k key) as [->|Hk]; simpl.
  - pose proof (is_rate_limited_recorded g key now max_requests per_seconds)
      as [Hverdict Hrec1].
    rewrite Hstep in Hverdict, Hrec1. simpl in Hverdict, Hrec1.
    rewrite Hrec, recent_recent in Hverdict, Hrec1 by done.
    destruct limited; simpl.
    + apply (IH g1 acc now); try done.
      eapply Forall_impl; [exact Hpast|]. simpl. lia.
    + symmetry in Hverdict. apply bool_decide_eq_false in Hverdict.
      rewrite cons_middle, app_assoc.
      apply (IH g1 (acc ++ [now]) now); try done.
      * apply Forall_app. split.
        -- eapply Forall_impl; [exact Hpast|]. simpl. lia.
        -- by apply Forall_singleton.
      * rewrite Hrec1. unfold recent.
        rewrite filter_app, filter_cons, filter_nil.
        rewrite decide_True by lia. done.
      * intros a. rewrite in_window_app.
        unfold in_window at 2.
        rewrite filter_cons, filter_nil.
        case_decide as Hin; simpl length.
        -- pose proof (in_window_recent a per_seconds now acc ltac:(lia)). lia.
        -- specialize (Hacc a). lia.
  - apply (IH g1 acc last); try done.
    + eapply Forall_impl; [exact Hrest|]. simpl. lia.
    + rewrite <- Hrec.
      change g1 with (limited, g1).2. rewrite <- Hstep.
      by apply is_rate_limited_other.
Qed.

End rate_limiter.

Section rate_limiter_spec.
Import Decorators.
Context {V : Type}.
Implicit Types (g : G V) (key : string).

Lemma in_window_empty from per_seconds (stamps : list Z) :
  per_seconds ≤ 0 → in_window from per_seconds stamps = 0.
Proof.
  intros Hper. unfold in_window.
  induction stamps as [|t stamps IH]; [done|].
  rewrite filter_cons. by rewrite decide_False by lia.
Qed.

(** C4.  On the one store [g.rate_limit_store], with [key], [max_requests]
    and [per_seconds] fixed: a call of [_is_rate_limited] returns [False]
    exactly when fewer than [max_requests] of the timestamps recorded for
    the key are later than [now - per_seconds]; it then records [now] after
    those, and a call that returns [True] records no timestamp.  Hence, over
    any sequence of calls read off a clock that does not run backwards, and
    for a limit that is not negative, every window of length [per_seconds]
    (start included, end excluded) holds at most [max_requests] calls for
    the key that returned [False]. *)
Theorem rate_limit_spec key (max_requests per_seconds : Z) :
  (∀ g now,
     let kept := recent per_seconds now (recorded g key) in
     let r := _is_rate_limited now key max_requests per_seconds g in
     (r.1 = false ↔ Z.of_nat (length kept) < max_requests) ∧
     recorded r.2 key = (if r.1 then kept else kept ++ [now])) ∧
  (∀ requests from,
     0 ≤ max_requests →
     clock_monotone requests →
     in_window from per_seconds
       (admitted key requests
          (run_checks (V:=V) max_requests per_seconds requests fresh).1)
     ≤ max_requests).
Proof.
  split.
  - intros g now kept r.
    destruct (is_rate_limited_recorded g key now max_requests per_seconds)
      as [Hverdict Hrec].
    fold kept in Hverdict, Hrec. fold r in Hverdict, Hrec.
    split; [|exact Hrec].
    rewrite Hverdict. rewrite bool_decide_eq_false. lia.
  - intros requests from Hmax Hclock.
    destruct (decide (0 < per_seconds)) as [Hper|Hper];
      [|rewrite in_window_empty by lia; done].
    destruct requests as [|[k t] rest] eqn:Hreq; [by simpl|].
    rewrite <- Hreq in *.
    apply (run_checks_window key max_requests per_seconds requests Hper
             fresh [] t); try done.
    subst requests. unfold clock_monotone in Hclock. simpl in Hclock.
      apply StronglySorted_inv in Hclock as [_ Hnow].
      apply Forall_cons. split; [simpl; lia|].
      apply Forall_forall. intros r Hr.
      rewrite Forall_forall in Hnow. apply Hnow.
      by apply (list_elem_of_fmap_2 snd).
Qed.

End rate_limiter_spec.

Lemma rate_limit_spec_witness :
  0 ≤ 2 ∧
  Decorators.clock_monotone [("ip", 0); ("ip", 4); ("ip", 9); ("ip", 10)] ∧
  Decorators.in_window 0 10
    (Decorators.admitted "ip" [("ip", 0); ("ip", 4); ("ip", 9); ("ip", 10)]
       (Decorators.run_checks (V:=unit) 2 10
          [("ip", 0); ("ip", 4); ("ip", 9); ("ip", 10)] Decorators.fresh).1)
  ≤ 2.
Proof.
  assert (Decorators.clock_monotone
            [("ip", 0); ("ip", 4); ("ip", 9); ("ip", 10)]) as Hclock.
  { unfold Decorators.clock_monotone. simpl.
    repeat (constructor; [|repeat constructor; lia]). constructor. }
  split; [lia|]. split; [exact Hclock|].
  apply (proj2 (rate_limit_spec (V:=unit) "ip" 2 10)); [lia|exact Hclock].
Defined.

(** The verdicts of the run above: the third request is refused, and the
    fourth, a full window after the first, is let through again. *)
Example rate_limit_run :
  (Decorators.run_checks (V:=unit) 2 10
     [("ip", 0); ("ip", 4); ("ip", 9); ("ip", 10)] Decorators.fresh).1
  = [false; false; true; false].
Proof. vm_compute. reflexivity. Qed.

(** The bound of C4 fails for windows that include both of their ends,
    also on a clock that does not run backwards and for a positive limit:
    under the limit of two calls in ten seconds, of the calls at 0, 4, 9
    and 10 those at 0, 4 and 10 are let through, three in the window from
    0 to 10. *)
Lemma rate_limit_closed_window_counterexample :
  Decorators.clock_monotone [("ip", 0); ("ip", 4); ("ip", 9); ("ip", 10)] ∧
  Decorators.admitted "ip" [("ip", 0); ("ip", 4); ("ip", 9); ("ip", 10)]
    (Decorators.run_checks (V:=unit) 2 10
       [("ip", 0); ("ip", 4); ("ip", 9); ("ip", 10)] Decorators.fresh).1
  = [0; 4; 10] ∧
  ¬ (∀ (key : string) (max_requests per_seconds : Z)
       (requests : list (string * Z)) (from : Z),
       Decorators.in_closed_window from per_seconds
         (Decorators.admitted key requests
            (Decorators.run_checks (V:=unit) max_requests per_seconds requests
               Decorators.fresh).1)
       ≤ max_requests).
Proof.
  split.
  { unfold Decorators.clock_monotone. simpl.
    repeat (constructor; [|repeat constructor; lia]). constructor. }
  split; [by vm_compute|].
  intros Hclaim.
  specialize (Hclaim "ip" 2 10 [("ip", 0); ("ip", 4); ("ip", 9); ("ip", 10)] 0).
  vm_compute in Hclaim. by apply Hclaim.
Qed.

(* ===================================================================== *)
(** * The response cache *)
(* ===================================================================== *)

Section cache.
Import Decorators.
Context {V : Type}.
Implicit Types (g : G V) (key : string) (op : CacheOp (V:=V)).

Lemma get_from_cache_unfold g key now :
  _get_from_cache now key g =
    match cached g key with
    | Some e =>
      if now <? expires e
      then (Some (value e), mkG (rate_limit_store g) (Some (default ∅ (cache_store g))))
      else (None, mkG (rate_limit_store g) (Some (delete key (default ∅ (cache_store g)))))
    | None => (None, mkG (rate_limit_store g) (Some (default ∅ (cache_store g))))
    end.
Proof. reflexivity. Qed.

Lemma cached_set g key v timeout now :
  cached (_set_cache now key v timeout g) key
  = Some (mkCacheEntry v (now + timeout)).
Proof. unfold cached, _set_cache. simpl. by rewrite lookup_insert_eq. Qed.

(** A step that does not set [key] leaves its entry alone or removes it;
    it leaves it alone when the step runs before the entry expires. *)
Lemma cache_step_cached g key op :
  sets_key key op = false →
  (cached (cache_step g op) key = cached g key
   ∨ cached (cache_step g op) key = None) ∧
  (∀ e, cached g key = Some e → op_time op < expires e →
        cached (cache_step g op) key = Some e).
Proof.
  intros Hset. destruct op as [now k|now k v timeout]; simpl in *.
  - rewrite get_from_cache_unfold.
    destruct (decide (k = key)) as [->|Hne].
    + destruct (cached g key) as [e|] eqn:He.
      * destruct (Z.ltb_spec now (expires e)); simpl.
        -- split; [by left|]. intros e' [= <-] _. exact He.
        -- split; [right; unfold cached; simpl; by rewrite lookup_delete_eq|].
           intros e' [= <-] ?. lia.
      * split; [by left|]. intros e' [=].
    + assert (cached (match cached g k with
                      | Some e =>
                        if now <? expires e
                        then (Some (value e),
                              mkG (rate_limit_store g)
                                  (Some (default ∅ (cache_store g))))
                        else (None,
                              mkG (rate_limit_store g)
                                  (Some (delete k (default ∅ (cache_store g)))))
                      | None =>
                        (None, mkG (rate_limit_store g)
                                   (Some (default ∅ (cache_store g))))
                      end).2 key = cached g key) as Hsame.
      { destruct (cached g k) as [e|]; [destruct (now <? expires e)|];
          unfold cached; simpl; rewrite ?lookup_delete_ne by done; done. }
      rewrite Hsame. split; [by left|]. by intros e ? _.
  - apply String.eqb_neq in Hset.
    assert (cached (_set_cache now k v timeout g) key = cached g key) as Hsame.
    { unfold cached, _set_cache. simpl. by rewrite lookup_insert_ne. }
    rewrite Hsame. split; [by left|]. by intros e ? _.
Qed.

Lemma run_cache_cached ops g key :
  Forall (λ op, sets_key key op = false) ops →
  (cached (run_cache ops g) key = cached g key
   ∨ cached (run_cache ops g) key = None) ∧
  (∀ e, cached g key = Some e →
        Forall (λ op, op_time op < expires e) ops →
        cached (run_cache ops g) key = Some e).
Proof.
  revert g. induction ops as [|op ops IH]; intros g Hops.
  { simpl. split; [by left|]. by intros e ? _. }
  apply Forall_cons in Hops as [Hop Hops].
  destruct (cache_step_cached g key op Hop) as [Hstep Hkeep].
  destruct (IH (cache_step g op) Hops) as [Hrest Hkeeps].
  simpl. split.
  - destruct Hrest as [-> | ->]; [|by right].
    destruct Hstep as [-> | ->]; [by left|by right].
  - intros e He Hall. apply Forall_cons in Hall as [Hnow Hall].
    apply Hkeeps; [|done]. by apply Hkeep.
Qed.

(** C5.  On the one store [g.cache_store]: after [_set_cache(key, value,
    timeout)] at time [set_time], and any further operations none of which
    sets [key] again, [_get_from_cache(key)] at time [now] returns [value]
    when [now] is before [set_time + timeout] and the clock did not run
    backwards in between; it returns [None], and the entry is gone
    afterwards, when [now] is at or past [set_time + timeout].  On a store
    where [key] was never set, [_get_from_cache(key)] returns [None]. *)
Theorem cache_get_after_set g key (v : V) (timeout set_time now : Z)
    (ops : list (CacheOp (V:=V))) :
  Forall (λ op, sets_key key op = false) ops →
  let after := run_cache ops (_set_cache set_time key v timeout g) in
  (Forall (λ op, op_time op ≤ now) ops → now < set_time + timeout →
   (_get_from_cache now key after).1 = Some v) ∧
  (set_time + timeout ≤ now →
   (_get_from_cache now key after).1 = None ∧
   cached (_get_from_cache now key after).2 key = None) ∧
  (_get_from_cache now key (run_cache ops fresh)).1 = None.
Proof.
  intros Hops after.
  pose proof (run_cache_cached ops (_set_cache set_time key v timeout g) key
                Hops) as [Hcases Hkeep].
  rewrite cached_set in Hcases. fold after in Hcases, Hkeep.
  split; [|split].
  - intros Hclock Hearly.
    rewrite get_from_cache_unfold.
    rewrite (Hkeep (mkCacheEntry v (set_time + timeout))).
    + simpl. by assert ((now <? set_time + timeout) = true) as -> by lia.
    + apply cached_set.
    + eapply Forall_impl; [exact Hclock|]. simpl. intros. lia.
  - intros Hlate. rewrite get_from_cache_unfold.
    destruct Hcases as [Hc | Hc]; rewrite Hc; simpl.
    + assert ((now <? set_time + timeout) = false) as -> by lia. simpl.
      split; [done|]. unfold cached. simpl. by rewrite lookup_delete_eq.
    + split; [done|]. exact Hc.
  - pose proof (run_cache_cached ops fresh key Hops) as [Hfresh _].
    rewrite get_from_cache_unfold.
    assert (cached (run_cache ops fresh) key = None) as ->; [|done].
    destruct Hfresh as [-> | ->]; done.
Qed.

End cache.

Lemma cache_get_after_set_witness :
  Forall (λ op, Decorators.sets_key "report" op = false)
    [Decorators.CacheGet 1100 "report"; Decorators.CacheSet 1150 "other" 8 60] ∧
  Forall (λ op, Decorators.op_time op ≤ 1200)
    [Decorators.CacheGet 1100 "report"; Decorators.CacheSet 1150 "other" 8 60] ∧
  1200 < 1000 + 300 ∧
  (Decorators._get_from_cache 1200 "report"
     (Decorators.run_cache
        [Decorators.CacheGet 1100 "report"; Decorators.CacheSet 1150 "other" 8 60]
        (Decorators._set_cache 1000 "report" 7 300 Decorators.fresh))).1
  = Some 7.
Proof.
  assert (Forall (λ op, Decorators.sets_key "report" op = false)
            [Decorators.CacheGet 1100 "report";
             Decorators.CacheSet 1150 "other" 8 60]) as Hops
    by (repeat constructor).
  assert (Forall (λ op, Decorators.op_time op ≤ 1200)
            [Decorators.CacheGet 1100 "report";
             Decorators.CacheSet 1150 "other" 8 60]) as Hclock
    by (repeat constructor; simpl; lia).
  split; [exact Hops|]. split; [exact Hclock|]. split; [lia|].
  apply (cache_get_after_set Decorators.fresh "report" 7 300 1000 1200 _ Hops);
    [exact Hclock|lia].
Defined.

(* ===================================================================== *)
(** * Authorisation *)
(* ===================================================================== *)

Section authorisation.
Import Decorators.
Context {Args : Type}.

(** C3.  A route wrapped by [role_required(allowed_roles)] runs the wrapped
    function if and only if the session contains ['user_name'] and the
    session's ['user_role'] is one of [allowed_roles].  In every other case
    the outcome does not depend on the wrapped function, which is not
    called: it is a redirect to the login page when ['user_name'] is absent
    and to the index page otherwise, after one flashed message. *)
Theorem role_required_spec (allowed_roles : list Value)
    (f : Ctx → Args → M Response) (ctx : Ctx) (args : Args) (st : St) :
  let logged_in := "user_name" ∈ dom (session ctx) in
  let permitted := py_in (session_get ctx "user_role") allowed_roles = true in
  (logged_in ∧ permitted →
   role_required allowed_roles f ctx args st = f ctx args st) ∧
  (¬ logged_in →
   role_required allowed_roles f ctx args st
   = (Ok (Redirect (url_for "auth.login")),
      mkSt (calls st) (flashes st ++ [login_notice]))) ∧
  (logged_in ∧ ¬ permitted →
   role_required allowed_roles f ctx args st
   = (Ok (Redirect (url_for "index")),
      mkSt (calls st) (flashes st ++ [denied_notice]))) ∧
  (probe_mark ∈ flashes (role_required allowed_roles probe ctx args initial).2
   ↔ logged_in ∧ permitted).
Proof.
  intros logged_in permitted. subst logged_in permitted.
  unfold role_required.
  destruct (decide ("user_name" ∈ dom (session ctx))) as [Hin|Hout].
  - rewrite (bool_decide_true _ Hin). simpl.
    destruct (py_in (session_get ctx "user_role") allowed_roles) eqn:Hrole;
      simpl.
    + split; [done|]. split; [done|]. split; [by intros [_ ?]|].
      split; [done|]. intros _. vm_compute. apply list_elem_of_here.
    + split; [by intros [_ ?]|]. split; [done|]. split; [done|].
      split; [|by intros [_ ?]].
      intros Hmark. vm_compute in Hmark.
      apply list_elem_of_singleton in Hmark. discriminate.
  - rewrite (bool_decide_false _ Hout). simpl.
    split; [by intros [? _]|]. split; [done|]. split; [by intros [? _]|].
    split; [|by intros [? _]].
    intros Hmark. vm_compute in Hmark.
    apply list_elem_of_singleton in Hmark. discriminate.
Qed.

End authorisation.

Lemma role_required_spec_witness :
  ("user_name" ∈ dom (session (SampleRuntime.customer_post [])) ∧
   py_in (session_get (SampleRuntime.customer_post []) "user_role")
     [VStr "customer"] = true) ∧
  Decorators.role_required [VStr "customer"] Decorators.probe
    (SampleRuntime.customer_post []) tt initial
  = Decorators.probe (SampleRuntime.customer_post []) tt initial.
Proof.
  assert ("user_name" ∈ dom (session (SampleRuntime.customer_post [])) ∧
          py_in (session_get (SampleRuntime.customer_post []) "user_role")
            [VStr "customer"] = true) as Hok.
  { split; [|reflexivity].
    apply elem_of_dom. eexists. apply lookup_insert_eq. }
  split; [exact Hok|].
  apply (role_required_spec [VStr "customer"] Decorators.probe
           (SampleRuntime.customer_post []) tt initial).
  exact Hok.
Defined.

(* ===================================================================== *)
(** * The handlers and the stored procedures *)
(* ===================================================================== *)

(** Unfolds the monad and the wrappers of the database calls, so that a
    handler applied to a state becomes a tree of case distinctions on the
    answers of the database. *)
Ltac unfold_m :=
  unfold try_except, try_except_value_error, mbind, M_bind, mret, M_ret,
    fmap, M_fmap, getitem, of_option, raise, lift_result,
    Helpers.flash_error, Helpers.flash_success, Helpers.flash_warning,
    Helpers.flash_info, flash,
    Connection.execute_query_one, Connection.execute_query,
    Connection.call_procedure, Connection.record in *.

Section session_user.
Import Helpers.

Lemma subscript_user_in ctx key :
  "user_name" ∈ dom (session ctx) →
  key ∈ user_keys →
  subscript (get_current_user ctx) key = mret (session_get ctx key).
Proof.
  intros Hin Hkey. unfold get_current_user. rewrite bool_decide_true by done.
  unfold user_keys in Hkey.
  repeat (apply elem_of_cons in Hkey as [->|Hkey]; [by vm_compute|]).
  by apply elem_of_nil in Hkey.
Qed.

Lemma subscript_user_out ctx key :
  "user_name" ∉ dom (session ctx) →
  subscript (get_current_user ctx) key = raise TypeError.
Proof.
  intros Hout. unfold get_current_user. by rewrite bool_decide_false by done.
Qed.

End session_user.

Ltac user_known Hlogin :=
  rewrite ?(subscript_user_in _ _ Hlogin) by (unfold Helpers.user_keys; set_solver).

Ltac user_unknown Hlogin :=
  rewrite ?(subscript_user_out _ _ Hlogin).

Section cancel.
Import Connection Helpers Models Routes.
Context `{PyRuntime} (db : Database).

Lemma py_in_terminal status :
  py_eq status (VStr "delivered")
  || (py_eq status (VStr "cancelled")
      || (py_eq status (VStr "returned") || false))
  = py_in status terminal_statuses.
Proof. reflexivity. Qed.

Lemma terminal_py_in status :
  status ∈ terminal_statuses → py_in status terminal_statuses = true.
Proof.
  unfold terminal_statuses. intros Hin.
  repeat (apply elem_of_cons in Hin as [->|Hin]; [reflexivity|]).
  by apply elem_of_nil in Hin.
Qed.

(** The steps shared by every branch of [cancel_order] once the order has
    been fetched. *)
Ltac after_lookup :=
  destruct (fetchone db _ _ _) as [[?order|]|] eqn:?Hq; simpl; try done;
  case_bool_decide; simpl; [done|];
  unfold_m; simpl;
  match goal with
  | |- context [@lookup _ _ _ _ "status" ?row] =>
    destruct (@lookup _ _ _ _ "status" row) as [?status|] eqn:?Hstatus
  end; simpl; [|done];
  rewrite py_in_terminal;
  destruct (py_in _ terminal_statuses) eqn:?Hterm; simpl; [done|].

Lemma cancel_order_only_if ctx order_id :
  let out := cancel_order db ctx order_id initial in
  procedure_calls "sp_update_order_status" (calls out.2) ≠ [] →
  cancellable db ctx order_id ∧
  procedure_calls "sp_update_order_status" (calls out.2)
  = [[VInt order_id; VStr "cancelled"; session_get ctx "user_name"]].
Proof.
  unfold cancellable, scoped_lookup, cancel_order.
  destruct (decide ("user_name" ∈ dom (session ctx))) as [Hlogin|Hlogin].
  - destruct (is_customer ctx); user_known Hlogin; unfold_m; simpl;
      after_lookup;
      user_known Hlogin; unfold_m; simpl;
      destruct (stored_results db _ _ _); simpl; (split; [eauto 10|done]).
  - destruct (is_customer ctx); user_unknown Hlogin; unfold_m; simpl;
      [done|].
    after_lookup.
    user_unknown Hlogin. done.
Qed.

Lemma cancel_order_if ctx order_id :
  let out := cancel_order db ctx order_id initial in
  cancellable db ctx order_id →
  procedure_calls "sp_update_order_status" (calls out.2)
  = [[VInt order_id; VStr "cancelled"; session_get ctx "user_name"]] ∧
  calls out.2
  = [ExecuteQuery (scoped_lookup ctx order_id).1 (scoped_lookup ctx order_id).2
       true;
     CallProcedure "sp_update_order_status"
       [VInt order_id; VStr "cancelled"; session_get ctx "user_name"]].
Proof.
  intros out (order & status & Hlogin & Hq & Hne & Hstatus & Hterm).
  subst out. unfold scoped_lookup, cancel_order in *.
  destruct (is_customer ctx); user_known Hlogin; unfold_m; simpl in Hq |- *;
    rewrite Hq; simpl; rewrite bool_decide_false by done; simpl;
    unfold_m; rewrite Hstatus; simpl; rewrite ?py_in_terminal, Hterm; simpl;
    user_known Hlogin; unfold_m; simpl;
    destruct (stored_results db _ _ _); simpl; done.
Qed.

Lemma cancel_order_terminal ctx order_id order status :
  let out := cancel_order db ctx order_id initial in
  fetchone db [] (scoped_lookup ctx order_id).1 (scoped_lookup ctx order_id).2
    = Some (Some order) →
  order !! "status" = Some status →
  status ∈ terminal_statuses →
  procedure_calls "sp_update_order_status" (calls out.2) = [] ∧
  out.1 = Ok (Redirect (referrer_or ctx (url_for "customer.orders"))) ∧
  ∃ msg, flashes out.2 = [mkFlash msg "error"].
Proof.
  intros out Hq Hstatus Hterm%terminal_py_in. subst out.
  unfold scoped_lookup, cancel_order in *.
  assert (order ≠ ∅) as Hne.
  { intros ->. by rewrite lookup_empty in Hstatus. }
  destruct (decide ("user_name" ∈ dom (session ctx))) as [Hlogin|Hlogin].
  - destruct (is_customer ctx); user_known Hlogin; unfold_m;
      simpl in Hq |- *;
      rewrite Hq; simpl; rewrite bool_decide_false by done; simpl;
      unfold_m; rewrite Hstatus; simpl; rewrite ?py_in_terminal, Hterm; simpl;
      eauto.
  - destruct (is_customer ctx); user_unknown Hlogin; unfold_m;
      simpl in Hq |- *; [eauto|].
    rewrite Hq; simpl; rewrite bool_decide_false by done; simpl;
      unfold_m; rewrite Hstatus; simpl; rewrite ?py_in_terminal, Hterm; simpl;
      eauto.
Qed.

(** C8.  A POST to [cancel_order] for an order that the lookup returns with
    status ['delivered'], ['cancelled'] or ['returned'] makes no call of
    [sp_update_order_status] and answers with one error message and a
    redirect.  The procedure is called only when the requesting user is
    logged in and the lookup scoped to that user (own orders for a customer,
    all orders otherwise) returns an order whose status is none of the
    three; the call then asks for ['cancelled'] on that order. *)
Theorem cancel_order_spec ctx order_id :
  let out := cancel_order db ctx order_id initial in
  let issued := procedure_calls "sp_update_order_status" (calls out.2) in
  (∀ order status,
     fetchone db [] (scoped_lookup ctx order_id).1 (scoped_lookup ctx order_id).2
       = Some (Some order) →
     order !! "status" = Some status →
     status ∈ terminal_statuses →
     issued = [] ∧
     out.1 = Ok (Redirect (referrer_or ctx (url_for "customer.orders"))) ∧
     ∃ msg, flashes out.2 = [mkFlash msg "error"]) ∧
  (issued ≠ [] →
   cancellable db ctx order_id ∧
   issued = [[VInt order_id; VStr "cancelled"; session_get ctx "user_name"]]).
Proof.
  intros out issued. split.
  - intros order status. apply cancel_order_terminal.
  - apply cancel_order_only_if.
Qed.

End cancel.

Lemma cancel_order_spec_witness :
  (∃ order,
     fetchone (SampleRuntime.order_db "delivered") []
       (Routes.scoped_lookup (SampleRuntime.customer_post []) 5).1
       (Routes.scoped_lookup (SampleRuntime.customer_post []) 5).2
       = Some (Some order) ∧
     order !! "status" = Some (VStr "delivered") ∧
     VStr "delivered" ∈ Routes.terminal_statuses) ∧
  Routes.procedure_calls "sp_update_order_status"
    (calls (Routes.cancel_order (SampleRuntime.order_db "delivered")
              (SampleRuntime.customer_post []) 5 initial).2) = [].
Proof.
  pose (ctx := SampleRuntime.customer_post []).
  pose (db := SampleRuntime.order_db "delivered").
  assert (fetchone db [] (Routes.scoped_lookup ctx 5).1
            (Routes.scoped_lookup ctx 5).2
          = Some (Some (<["order_id" := VInt 5]>
                       (<["status" := VStr "delivered"]> ∅)))) as Hq
    by reflexivity.
  assert ((<["order_id" := VInt 5]> (<["status" := VStr "delivered"]> ∅)
             : gmap string Value) !! "status" = Some (VStr "delivered")) as Hs
    by reflexivity.
  assert (VStr "delivered" ∈ Routes.terminal_statuses) as Ht
    by (unfold Routes.terminal_statuses; set_solver).
  split; [eauto|].
  exact (proj1 (proj1 (cancel_order_spec db ctx 5) _ _ Hq Hs Ht)).
Defined.

Section status_updates.
Import Connection Helpers Models Routes Config.
Context `{PyRuntime} (db : Database).

Lemma update_each_calls order_ids new_status user_name :
  ∀ count st,
    ∃ count',
      update_each db order_ids new_status user_name count st
      = (Ok count',
         mkSt (calls st ++ (update_call new_status user_name <$> order_ids))
              (flashes st)).
Proof.
  induction order_ids as [|order_id rest IH]; intros count st.
  { exists count. simpl. rewrite app_nil_r. by destruct st. }
  simpl. unfold_m. simpl.
  destruct (stored_results db _ _ _); simpl;
    match goal with
    | |- ∃ _, update_each _ _ _ _ ?n ?st' = _ =>
      destruct (IH n st') as [count' ->]
    end;
    exists count'; simpl; by rewrite <- app_assoc.
Qed.

Lemma update_status_calls self new_status user_name :
  calls (Order_update_status db self new_status user_name initial).2
  = [CallProcedure "sp_update_order_status"
       [attr self "order_id"; new_status; user_name]].
Proof.
  unfold Order_update_status. unfold_m. simpl.
  by destruct (stored_results db _ _ _).
Qed.

#[local] Arguments update_each : simpl never.

Lemma bulk_update_calls ctx new_status order_ids :
  "user_name" ∈ dom (session ctx) →
  form_get (form ctx) "new_status" = Some new_status →
  new_status ≠ "" →
  mapM py_int (List.filter py_isdigit (form_getlist (form ctx) "order_ids"))
    = Some order_ids →
  calls (bulk_update_orders db ctx initial).2
  = update_call new_status (session_get ctx "user_name") <$> order_ids.
Proof.
  intros Hlogin Hstatus Hne Hparse.
  unfold bulk_update_orders. rewrite Hstatus, Hparse. simpl.
  apply String.eqb_neq in Hne. rewrite Hne, orb_false_r.
  case_bool_decide as Hraw.
  { rewrite Hraw in Hparse. simpl in Hparse. injection Hparse as <-.
    unfold_m. by simpl. }
  unfold_m. simpl.
  destruct order_ids as [|order_id rest]; [unfold_m; by simpl|].
  user_known Hlogin. unfold_m. simpl.
  destruct (update_each_calls (order_id :: rest) new_status
              (session_get ctx "user_name") 0 initial) as [count Hrun].
  rewrite Hrun. by simpl.
Qed.

(** C1.  Every status update that the application performs hands the new
    status to [sp_update_order_status] as it is, whatever the current
    status: [Order.update_status] for every new status, [bulk_update_orders]
    for every selected order id and every submitted status (it asks the
    database nothing else), and [cancel_order] for every order it finds in a
    status that is not final.  [BusinessRules.ORDER_STATUS_FLOW] takes no
    part: transitions that the table does not list, such as
    ['delivered'] to ['pending'] or ['out_for_delivery'] to ['cancelled'],
    are passed on like any other. *)
Theorem status_updates_unchecked :
  (∀ self new_status user_name,
     calls (Order_update_status db self new_status user_name initial).2
     = [CallProcedure "sp_update_order_status"
          [attr self "order_id"; new_status; user_name]]) ∧
  (∀ ctx new_status order_ids,
     "user_name" ∈ dom (session ctx) →
     form_get (form ctx) "new_status" = Some new_status →
     new_status ≠ "" →
     mapM py_int (List.filter py_isdigit (form_getlist (form ctx) "order_ids"))
       = Some order_ids →
     calls (bulk_update_orders db ctx initial).2
     = update_call new_status (session_get ctx "user_name") <$> order_ids) ∧
  (∀ ctx order_id,
     cancellable db ctx order_id →
     calls (cancel_order db ctx order_id initial).2
     = [ExecuteQuery (scoped_lookup ctx order_id).1
          (scoped_lookup ctx order_id).2 true;
        update_call "cancelled" (session_get ctx "user_name") order_id]) ∧
  flow_allows "delivered" "pending" = false ∧
  flow_allows "out_for_delivery" "cancelled" = false.
Proof.
  split; [apply update_status_calls|].
  split; [apply bulk_update_calls|].
  split; [|split; reflexivity].
  intros ctx order_id Hc. by apply cancel_order_if.
Qed.

End status_updates.

Lemma status_updates_unchecked_witness :
  Routes.cancellable (SampleRuntime.order_db "out_for_delivery")
    (SampleRuntime.customer_post []) 5 ∧
  Config.flow_allows "out_for_delivery" "cancelled" = false ∧
  calls (Routes.cancel_order (SampleRuntime.order_db "out_for_delivery")
           (SampleRuntime.customer_post []) 5 initial).2
  = [ExecuteQuery (Routes.scoped_lookup (SampleRuntime.customer_post []) 5).1
       (Routes.scoped_lookup (SampleRuntime.customer_post []) 5).2 true;
     Routes.update_call "cancelled" (VStr "alice") 5].
Proof.
  pose (ctx := SampleRuntime.customer_post []).
  pose (db := SampleRuntime.order_db "out_for_delivery").
  assert (Routes.cancellable db ctx 5) as Hc.
  { exists (<["order_id" := VInt 5]> (<["status" := VStr "out_for_delivery"]> ∅)),
           (VStr "out_for_delivery").
    split; [apply elem_of_dom; eexists; apply lookup_insert_eq|].
    split; [reflexivity|].
    split; [|split; reflexivity].
    intros Hempty.
    apply (f_equal (λ m : gmap string Value, m !! "order_id")) in Hempty.
    rewrite lookup_insert_eq, lookup_empty in Hempty. discriminate. }
  split; [exact Hc|]. split; [reflexivity|].
  exact (proj1 (proj2 (proj2
           (status_updates_unchecked (H:=SampleRuntime.runtime) db))) ctx 5 Hc).
Defined.

Section add_to_cart.
Import Connection Helpers Models Routes.
Context `{PyRuntime} (db : Database).

Lemma int_of_form_eq ctx key fallback :
  int_of_form ctx key fallback
  = of_option ValueError (form_int ctx key fallback).
Proof.
  unfold int_of_form, form_int. by destruct (form_get (form ctx) key).
Qed.

Lemma add_to_cart_cases ctx :
  let out := add_to_cart db ctx initial in
  let issued := procedure_calls "sp_add_to_cart" (calls out.2) in
  (issued = [] ∧ out.1 = Ok (products_page ctx) ∧
   ∃ msg, flashes out.2 = [mkFlash msg "error"]) ∨
  (∃ item_id quantity,
     cart_request_valid db ctx item_id quantity ∧
     issued = [[session_get ctx "customer_id"; VInt item_id; VInt quantity]]).
Proof.
  intros out issued. subst issued out.
  unfold add_to_cart, products_page, cart_request_valid.
  rewrite !int_of_form_eq.
  destruct (decide ("user_name" ∈ dom (session ctx))) as [Hlogin|Hlogin];
    [user_known Hlogin|user_unknown Hlogin; unfold_m; simpl; left; eauto].
  unfold_m. simpl.
  destruct (form_int ctx "item_id" 0) as [item_id|] eqn:Hitem; simpl;
    [|left; eauto].
  destruct (form_int ctx "quantity" 1) as [quantity|] eqn:Hquantity; simpl;
    [|left; eauto].
  destruct (Z.leb_spec item_id 0) as [?|Hpos_item]; simpl; [left; eauto|].
  destruct (Z.leb_spec quantity 0) as [?|Hpos_quantity]; simpl; [left; eauto|].
  fold item_query stock_query.
  destruct (fetchone db [] item_query [VInt item_id]) as [[item|]|] eqn:Hq1;
    simpl; [|left; eauto|left; eauto].
  case_bool_decide as Hitem_empty; simpl; [left; eauto|].
  destruct (fetchone db _ stock_query _) as [[stock|]|] eqn:Hq2;
    simpl; [|left; eauto|left; eauto].
  case_bool_decide as Hstock_empty; simpl; [left; eauto|].
  unfold_m. simpl.
  destruct (stock !! "total") as [total|] eqn:Htotal; simpl; [|left; eauto].
  destruct (py_lt total (VInt quantity)) as [[|]|] eqn:Hlt; simpl;
    [left; eauto| |left; eauto].
  right. exists item_id, quantity.
  split; [eauto 15|].
  unfold CartItem_add_to_cart. unfold_m. simpl.
  destruct (stored_results db _ _ _); simpl.
  - unfold_m. destruct (item !! "item_name"); by simpl.
  - done.
Qed.

(** C6.  A POST to [add_to_cart] calls [sp_add_to_cart] only when every
    validation passes: the parsed [item_id] and [quantity] are positive,
    the query for an active item with that id returns a row, and the summed
    [quantity_available] that the stock query returns is not less than the
    quantity; the call then carries the customer, the item and the quantity.
    When a validation fails the procedure is not called, and the handler
    flashes one error and redirects. *)
Theorem add_to_cart_spec ctx :
  let out := add_to_cart db ctx initial in
  let issued := procedure_calls "sp_add_to_cart" (calls out.2) in
  (issued ≠ [] →
   ∃ item_id quantity,
     cart_request_valid db ctx item_id quantity ∧
     issued = [[session_get ctx "customer_id"; VInt item_id; VInt quantity]]) ∧
  ((∀ item_id quantity, ¬ cart_request_valid db ctx item_id quantity) →
   issued = [] ∧
   out.1 = Ok (Redirect (referrer_or ctx (url_for "customer.products"))) ∧
   ∃ msg, flashes out.2 = [mkFlash msg "error"]).
Proof.
  intros out issued.
  destruct (add_to_cart_cases ctx) as [Hno|(item_id & quantity & Hvalid & Hyes)];
    fold out in Hno || fold out in Hyes.
  - split; [|done]. fold issued in Hno. by destruct Hno as [-> _].
  - fold issued in Hyes. split; [eauto|].
    intros Hnone. by destruct (Hnone item_id quantity).
Qed.

End add_to_cart.

Lemma add_to_cart_spec_witness :
  Routes.procedure_calls "sp_add_to_cart"
    (calls (Routes.add_to_cart (H:=SampleRuntime.runtime) SampleRuntime.shop_db
              (SampleRuntime.customer_post [("item_id", "3"); ("quantity", "2")])
              initial).2) ≠ [] ∧
  ∃ item_id quantity,
    Routes.cart_request_valid (H:=SampleRuntime.runtime) SampleRuntime.shop_db
      (SampleRuntime.customer_post [("item_id", "3"); ("quantity", "2")])
      item_id quantity ∧
    Routes.procedure_calls "sp_add_to_cart"
      (calls (Routes.add_to_cart (H:=SampleRuntime.runtime) SampleRuntime.shop_db
                (SampleRuntime.customer_post [("item_id", "3"); ("quantity", "2")])
                initial).2)
    = [[VInt 7; VInt item_id; VInt quantity]].
Proof.
  pose (ctx := SampleRuntime.customer_post [("item_id", "3"); ("quantity", "2")]).
  assert (Routes.procedure_calls "sp_add_to_cart"
            (calls (Routes.add_to_cart (H:=SampleRuntime.runtime)
                      SampleRuntime.shop_db ctx initial).2) ≠ []) as Hcall
    by (vm_compute; discriminate).
  split; [exact Hcall|].
  exact (proj1 (add_to_cart_spec (H:=SampleRuntime.runtime)
                  SampleRuntime.shop_db ctx) Hcall).
Defined.

(* ===================================================================== *)
(** * Delegation to the database routines *)
(* ===================================================================== *)

Section delegation.
Import Connection Helpers Models.
Context `{PyRuntime} (db : Database).

Lemma from_dict_run defaults (data : Row) st :
  from_dict defaults data st
  = (if bool_decide (dom data ⊆ dom (list_to_map (M:=gmap string Value) defaults))
     then Ok (data ∪ list_to_map defaults) else Raise TypeError, st).
Proof. unfold from_dict. by case_bool_decide. Qed.

(** [Order.get_by_id] asks one query and returns the row it finds, filled
    up with the field defaults, or [None]. *)
Lemma Order_get_by_id_run order_id st :
  ∃ found,
    Order_get_by_id db order_id st
    = (Ok found, record (ExecuteQuery order_query [order_id] true) st) ∧
    ∀ order, found = Some order →
      ∃ data,
        fetchone db (calls st) order_query [order_id] = Some (Some data) ∧
        order = data ∪ list_to_map Order_fields.
Proof.
  unfold Order_get_by_id. unfold_m. simpl.
  destruct (fetchone db (calls st) order_query [order_id]) as [[data|]|];
    simpl; [|by eexists|by eexists].
  case_bool_decide; simpl; [by eexists|].
  rewrite from_dict_run. case_bool_decide; simpl; [|by eexists].
  eexists. split; [done|]. intros order [= <-]. eauto.
Qed.

Lemma create_from_cart_run customer_id route_id delivery_date special :
  let call := create_call customer_id route_id delivery_date special in
  let reply := stored_results db [] "sp_create_order_from_cart"
                 [customer_id; route_id; delivery_date; special] in
  let out := Order_create_from_cart db customer_id route_id delivery_date
               special initial in
  (∀ first others order_id,
     reply = Some (first :: others) →
     first !! "order_id" = Some order_id →
     truthy order_id = true →
     out = Order_get_by_id db order_id (mkSt [call] [])) ∧
  (reply = None ∨ reply = Some [] ∨
   (∃ first others,
      reply = Some (first :: others) ∧
      truthy (default VNone (first !! "order_id")) = false) →
   out = (Ok None, mkSt [call] [])).
Proof.
  intros call reply out. subst call reply out.
  unfold Order_create_from_cart, create_call. unfold_m. simpl. split.
  - intros first others order_id -> Hid Htruthy. simpl.
    rewrite Hid. simpl. rewrite Htruthy.
    destruct (Order_get_by_id_run order_id
                (mkSt [CallProcedure "sp_create_order_from_cart"
                         [customer_id; route_id; delivery_date; special]] []))
      as (found & -> & _).
    done.
  - intros [-> | [-> | (first & others & -> & Hfalsy)]]; simpl; try done.
    by rewrite Hfalsy.
Qed.

Lemma update_status_run self new_status user_name :
  Order_update_status db self new_status user_name initial
  = (Ok (match stored_results db [] "sp_update_order_status"
                 [attr self "order_id"; new_status; user_name] with
         | Some _ => (true, <["status" := new_status]> self)
         | None => (false, self)
         end),
     mkSt [CallProcedure "sp_update_order_status"
             [attr self "order_id"; new_status; user_name]] []).
Proof.
  unfold Order_update_status. unfold_m. simpl.
  by destruct (stored_results db _ _ _).
Qed.

Lemma call_function_state func_name args :
  (call_function db func_name args initial).2
  = mkSt [ExecuteQuery
            (String.append "SELECT "
               (String.append func_name
                  (String.append "("
                     (String.append
                        match args with
                        | [] => ""
                        | _ => String.concat ", " (replicate (length args) "%s")
                        end
                        ") as result"))))
            args true] [].
Proof.
  unfold call_function. unfold_m. simpl.
  destruct (fetchone db _ _ _) as [[row|]|]; simpl; try done.
  case_bool_decide; simpl; [done|].
  unfold_m. by destruct (row !! "result").
Qed.

Lemma shipping_cost_run route_id weight volume :
  let asked := call_function db "fn_calculate_shipping_cost"
                 [route_id; weight; volume] initial in
  calculate_shipping_cost db route_id weight volume initial
  = (Ok (match asked.1 with
         | Ok result =>
           if truthy result then
             match decimal_of_str result with
             | Ok cost => cost
             | Raise _ => ten
             end
           else ten
         | Raise _ => ten
         end),
     asked.2).
Proof.
  intros asked. subst asked. unfold calculate_shipping_cost.
  unfold try_except, mbind, M_bind at 1.
  destruct (call_function db "fn_calculate_shipping_cost"
              [route_id; weight; volume] initial) as [[result|e] st];
    simpl; [|done].
  destruct (truthy result); [|done].
  unfold lift_result. by destruct (decimal_of_str result).
Qed.

End delegation.

Section delegation_spec.
Import Connection Helpers Models.
Context `{PyRuntime} (db : Database).

(** C2, as the code has it.  [Order.create_from_cart], [Order.update_status]
    and [calculate_shipping_cost] each ask one database routine and return
    what follows from its answer alone.
    - [create_from_cart] calls [sp_create_order_from_cart] with its four
      arguments; when the first row of the answer holds a true [order_id] it
      returns [Order.get_by_id] of it (the row found for that id, or
      [None]), otherwise [None].
    - [update_status] calls [sp_update_order_status] and returns [True],
      with the status assigned, when the call succeeds, and [False]
      otherwise.
    - [calculate_shipping_cost] asks [fn_calculate_shipping_cost] only; it
      returns the result as a [Decimal] when the result is true in Python's
      sense, that is present and not zero, and converts; it returns
      [Decimal('10.00')] when the result is [None], zero or otherwise false,
      when it does not convert, and when the call fails. *)
Theorem delegation_spec :
  (∀ customer_id route_id delivery_date special,
     let call := create_call customer_id route_id delivery_date special in
     let reply := stored_results db [] "sp_create_order_from_cart"
                    [customer_id; route_id; delivery_date; special] in
     let out := Order_create_from_cart db customer_id route_id delivery_date
                  special initial in
     (∀ first others order_id,
        reply = Some (first :: others) →
        first !! "order_id" = Some order_id →
        truthy order_id = true →
        out = Order_get_by_id db order_id (mkSt [call] []) ∧
        ∃ found,
          out = (Ok found,
                 mkSt [call; ExecuteQuery order_query [order_id] true] []) ∧
          ∀ order, found = Some order →
            ∃ data,
              fetchone db [call] order_query [order_id] = Some (Some data) ∧
              order = data ∪ list_to_map Order_fields) ∧
     (reply = None ∨ reply = Some [] ∨
      (∃ first others,
         reply = Some (first :: others) ∧
         truthy (default VNone (first !! "order_id")) = false) →
      out = (Ok None, mkSt [call] []))) ∧
  (∀ self new_status user_name,
     Order_update_status db self new_status user_name initial
     = (Ok (match stored_results db [] "sp_update_order_status"
                    [attr self "order_id"; new_status; user_name] with
            | Some _ => (true, <["status" := new_status]> self)
            | None => (false, self)
            end),
        mkSt [CallProcedure "sp_update_order_status"
                [attr self "order_id"; new_status; user_name]] [])) ∧
  (∀ route_id weight volume,
     let asked := call_function db "fn_calculate_shipping_cost"
                    [route_id; weight; volume] initial in
     let out := calculate_shipping_cost db route_id weight volume initial in
     calls out.2 = [ExecuteQuery shipping_query [route_id; weight; volume] true] ∧
     flashes out.2 = [] ∧
     (∀ result cost,
        asked.1 = Ok result → truthy result = true →
        decimal_of_str result = Ok cost → out.1 = Ok cost) ∧
     (∀ result,
        asked.1 = Ok result → truthy result = false → out.1 = Ok ten) ∧
     (∀ result e,
        asked.1 = Ok result → decimal_of_str result = Raise e →
        out.1 = Ok ten) ∧
     (∀ e, asked.1 = Raise e → out.1 = Ok ten)).
Proof.
  split; [|split].
  - intros customer_id route_id delivery_date special call reply out.
    destruct (create_from_cart_run db customer_id route_id delivery_date special)
      as [Hfound Hnone].
    fold call reply out in Hfound, Hnone.
    split; [|exact Hnone].
    intros first others order_id Hreply Hid Htruthy.
    pose proof (Hfound first others order_id Hreply Hid Htruthy) as Hout.
    split; [exact Hout|].
    destruct (Order_get_by_id_run db order_id (mkSt [call] []))
      as (found & Hrun & Hrow).
    exists found. split; [by rewrite Hout, Hrun|exact Hrow].
  - apply update_status_run.
  - intros route_id weight volume asked out.
    pose proof (shipping_cost_run db route_id weight volume) as Hrun.
    fold asked out in Hrun.
    pose proof (call_function_state db "fn_calculate_shipping_cost"
                  [route_id; weight; volume]) as Hstate.
    fold asked in Hstate.
    rewrite Hrun. simpl. rewrite Hstate.
    split; [reflexivity|]. split; [reflexivity|].
    split; [|split; [|split]].
    + intros result cost -> Htruthy Hdec. by rewrite Htruthy, Hdec.
    + intros result -> Htruthy. by rewrite Htruthy.
    + intros result e -> Hdec. rewrite Hdec. by destruct (truthy result).
    + by intros e ->.
Qed.

End delegation_spec.

(** The sentence of C2 on the shipping cost fails at a cost of zero: the
    function answers [Decimal('0.00')], which is present and converts, the
    call does not fail, and [calculate_shipping_cost] returns
    [Decimal('10.00')], not that result. *)
Lemma shipping_cost_zero_counterexample :
  ¬ (∀ result,
       (Connection.call_function SampleRuntime.free_shipping_db
          "fn_calculate_shipping_cost" [VInt 1; VInt 0; VInt 0] initial).1
       = Ok result →
       result ≠ VNone →
       (Models.calculate_shipping_cost (H:=SampleRuntime.runtime)
          SampleRuntime.free_shipping_db (VInt 1) (VInt 0) (VInt 0) initial).1
       = Models.decimal_of_str (H:=SampleRuntime.runtime) result).
Proof.
  intros Hclaim.
  specialize (Hclaim (VDec (mkDecimal 0 (-2))) eq_refl ltac:(discriminate)).
  vm_compute in Hclaim. discriminate.
Qed.

Lemma delegation_spec_witness :
  ((Connection.call_function SampleRuntime.free_shipping_db
      "fn_calculate_shipping_cost" [VInt 1; VInt 0; VInt 0] initial).1
   = Ok (VDec (mkDecimal 0 (-2))) ∧
   truthy (VDec (mkDecimal 0 (-2))) = false) ∧
  (Models.calculate_shipping_cost (H:=SampleRuntime.runtime)
     SampleRuntime.free_shipping_db (VInt 1) (VInt 0) (VInt 0) initial).1
  = Ok Models.ten.
Proof.
  split; [split; reflexivity|].
  apply (proj1 (proj2 (proj2 (proj2
           (proj2 (proj2 (delegation_spec (H:=SampleRuntime.runtime)
                            SampleRuntime.free_shipping_db))
              (VInt 1) (VInt 0) (VInt 0)))))
           (VDec (mkDecimal 0 (-2)))); reflexivity.
Defined.

(* ===================================================================== *)
(** * Checkout *)
(* ===================================================================== *)

Section checkout.
Import Connection Helpers Models Routes.
Context `{PyRuntime} (db : Database).

Lemma procedure_calls_app proc_name (cs more : list DbCall) :
  procedure_calls proc_name (cs ++ more)
  = procedure_calls proc_name cs ++ procedure_calls proc_name more.
Proof. unfold procedure_calls. apply bind_app. Qed.

(** Building the model instances touches neither the database nor the
    flashed messages. *)
Lemma mapM_from_dict_run defaults (rows : list Row) st :
  ∃ r, mapM (from_dict defaults) rows st = (r, st).
Proof.
  induction rows as [|row rows [r IH]]; [by eexists|].
  simpl. unfold mbind, M_bind at 1. rewrite from_dict_run.
  case_bool_decide; [|by eexists].
  unfold mbind, M_bind at 1. rewrite IH.
  destruct r; by eexists.
Qed.

Lemma get_cart_contents_run customer_id st :
  ∃ cart_items,
    CartItem_get_cart_contents db customer_id st
    = (Ok cart_items,
       record (CallProcedure "sp_get_cart_summary" [customer_id]) st).
Proof.
  unfold CartItem_get_cart_contents, try_except, mbind, M_bind at 1.
  unfold call_procedure.
  destruct (stored_results db _ _ _) as [rows|]; [|by eexists].
  destruct (mapM_from_dict_run CartItem_fields rows
              (record (CallProcedure "sp_get_cart_summary" [customer_id]) st))
    as [[cart_items|e] ->]; by eexists.
Qed.

Lemma Customer_get_by_id_run customer_id st :
  ∃ found,
    Customer_get_by_id db customer_id st
    = (Ok found,
       record (ExecuteQuery "SELECT * FROM customers WHERE customer_id = %s"
                 [customer_id] true) st).
Proof.
  unfold Customer_get_by_id. unfold_m. simpl.
  destruct (fetchone db _ _ _) as [[data|]|]; simpl; [|by eexists|by eexists].
  case_bool_decide; simpl; [by eexists|].
  rewrite from_dict_run. case_bool_decide; by eexists.
Qed.

Lemma get_discount_rate_run self st :
  ∃ rate,
    Customer_get_discount_rate db self st
    = (Ok rate,
       record (ExecuteQuery
                 "SELECT discount_rate FROM customer_type WHERE customer_type = %s"
                 [attr self "customer_type"] true) st).
Proof.
  unfold Customer_get_discount_rate. unfold_m. simpl.
  destruct (fetchone db _ _ _) as [[row|]|]; simpl; [|by eexists|by eexists].
  case_bool_decide; simpl; [by eexists|].
  unfold_m. destruct (row !! "discount_rate") as [rate|]; simpl; [|by eexists].
  destruct (decimal_of_str rate); by eexists.
Qed.

Lemma render_checkout_page_run ctx st :
  ∃ response st',
    _render_checkout_page db ctx st = (Ok response, st') ∧ render_frame st st'.
Proof.
  unfold _render_checkout_page, render_frame.
  destruct (decide ("user_name" ∈ dom (session ctx))) as [Hlogin|Hlogin];
    [user_known Hlogin|
     user_unknown Hlogin; unfold_m; simpl; eauto 10].
  unfold try_except, mbind, M_bind at 1. simpl.
  unfold mbind, M_bind at 1.
  destruct (get_cart_contents_run (session_get ctx "customer_id") st)
    as [cart_items ->].
  destruct cart_items as [|first others].
  { unfold_m. simpl. do 2 eexists. split; [reflexivity|]. simpl.
    rewrite procedure_calls_app. simpl. rewrite app_nil_r. eauto. }
  unfold mbind, M_bind at 1.
  match goal with
  | |- context [Customer_get_by_id db ?c ?s] =>
    destruct (Customer_get_by_id_run c s) as [customer ->]
  end.
  unfold mbind, M_bind at 1.
  assert (∃ rate,
            match customer with
            | Some c => Customer_get_discount_rate db c
            | None => mret (mkDecimal 0 (-2))
            end
              (record (ExecuteQuery
                         "SELECT * FROM customers WHERE customer_id = %s"
                         [session_get ctx "customer_id"] true)
                 (record (CallProcedure "sp_get_cart_summary"
                            [session_get ctx "customer_id"]) st))
            = (Ok rate,
               match customer with
               | Some c =>
                 record (ExecuteQuery
                           "SELECT discount_rate FROM customer_type WHERE customer_type = %s"
                           [attr c "customer_type"] true)
               | None => λ s, s
               end
                 (record (ExecuteQuery
                            "SELECT * FROM customers WHERE customer_id = %s"
                            [session_get ctx "customer_id"] true)
                    (record (CallProcedure "sp_get_cart_summary"
                               [session_get ctx "customer_id"]) st))))
    as [rate ->].
  { destruct customer as [c|]; [|eexists; reflexivity].
    match goal with
    | |- ∃ _, Customer_get_discount_rate _ _ ?s = _ =>
      destruct (get_discount_rate_run c s) as [rate Hrate]
    end.
    exists rate. exact Hrate. }
  unfold_m. simpl.
  destruct (fetchall db _ _ _); destruct customer; simpl;
    (do 2 eexists; split; [reflexivity|]; simpl; split;
     [rewrite !procedure_calls_app; simpl; by rewrite !app_nil_r|
      first [by exists []; rewrite app_nil_r | by eexists]]).
Qed.

End checkout.

Section checkout_spec.
Import Connection Helpers Models Routes.
Context `{PyRuntime} (db : Database).

#[local] Arguments _render_checkout_page : simpl never.
#[local] Arguments CartItem_get_cart_contents : simpl never.
#[local] Arguments Order_create_from_cart : simpl never.

Lemma create_from_cart_state customer_id route_id delivery_date special st :
  ∃ order st',
    Order_create_from_cart db customer_id route_id delivery_date special st
    = (Ok order, st') ∧
    procedure_calls "sp_create_order_from_cart" (calls st')
    = procedure_calls "sp_create_order_from_cart" (calls st)
      ++ [[customer_id; route_id; delivery_date; special]] ∧
    flashes st' = flashes st.
Proof.
  unfold Order_create_from_cart. unfold_m. simpl.
  destruct (stored_results db _ _ _) as [[|first others]|]; simpl;
    try (do 2 eexists; split; [reflexivity|]; simpl;
         by rewrite procedure_calls_app).
  destruct (truthy (default VNone (first !! "order_id"))); simpl.
  - match goal with
    | |- context [Order_get_by_id db ?o ?s] =>
      destruct (Order_get_by_id_run db o s) as (found & -> & _)
    end.
    do 2 eexists. split; [reflexivity|]. simpl.
    rewrite !procedure_calls_app. simpl. by rewrite app_nil_r.
  - do 2 eexists. split; [reflexivity|]. simpl.
    by rewrite procedure_calls_app.
Qed.

(** A refusal: one error message, then the checkout page again. *)
Ltac refuse :=
  match goal with
  | |- context [_render_checkout_page db ?c ?s] =>
    destruct (render_checkout_page_run db c s)
      as (?response & ?st' & -> & ?Hcalls & ?more & ?Hflashes)
  end;
  simpl in *; left; split;
  [assumption | eauto].

Lemma checkout_cases ctx :
  method ctx ≠ "GET" →
  let out := checkout db ctx initial in
  let issued := procedure_calls "sp_create_order_from_cart" (calls out.2) in
  (issued = [] ∧ ∃ msg rest, flashes out.2 = mkFlash msg "error" :: rest) ∨
  (checkout_request_valid db ctx ∧ ∃ args, issued = [args]).
Proof.
  intros Hpost out issued. subst issued out.
  unfold checkout, checkout_request_valid.
  apply String.eqb_neq in Hpost. rewrite Hpost.
  rewrite int_of_form_eq.
  destruct (decide ("user_name" ∈ dom (session ctx))) as [Hlogin|Hlogin];
    [user_known Hlogin|user_unknown Hlogin; unfold_m; simpl; refuse].
  unfold_m. simpl.
  destruct (form_int ctx "route_id" 0) as [route_id|] eqn:Hroute; simpl;
    [|refuse].
  destruct (Z.leb_spec route_id 0) as [?|Hpos]; simpl; [refuse|].
  destruct (form_get (form ctx) "delivery_date") as [delivery_date|] eqn:Hdate;
    simpl; [|refuse].
  destruct (String.eqb_spec delivery_date "") as [?|Hnonempty]; simpl;
    [refuse|].
  unfold is_future_date.
  destruct (strptime_ymd delivery_date) as [parsed|] eqn:Hparsed; simpl;
    [|refuse].
  destruct (Z.leb_spec (today ctx + 7) parsed) as [Hfuture|?]; simpl;
    [|refuse].
  destruct (get_cart_contents_run db (session_get ctx "customer_id") initial)
    as [cart_items Hcart].
  rewrite Hcart.
  destruct cart_items as [|first others]; simpl; [left; eauto|].
  match goal with
  | |- context [Order_create_from_cart db ?a ?b ?c ?d ?s] =>
    destruct (create_from_cart_state a b c d s)
      as (order & st1 & -> & Hcreated & Hflashes1)
  end.
  simpl in Hcreated, Hflashes1.
  right. split.
  { split; [done|].
    by exists route_id, delivery_date, parsed, first, others. }
  eexists.
  destruct order as [o|]; simpl; [exact Hcreated|].
  match goal with
  | |- context [_render_checkout_page db ?c ?s] =>
    destruct (render_checkout_page_run db c s)
      as (response & st2 & -> & Hcalls & _)
  end.
  simpl in *. by rewrite Hcalls.
Qed.

(** C10.  A POST to [checkout] calls [sp_create_order_from_cart] only when
    the submitted [route_id] is positive, the submitted [delivery_date]
    parses as a date that is at least seven days after today, and the
    customer's cart, as [get_cart_contents] reads it, is not empty; it then
    calls it once.  When one of these fails the handler first flashes an
    error and does not call the procedure. *)
Theorem checkout_spec ctx :
  method ctx ≠ "GET" →
  let out := checkout db ctx initial in
  let issued := procedure_calls "sp_create_order_from_cart" (calls out.2) in
  (issued ≠ [] → checkout_request_valid db ctx ∧ length issued = 1%nat) ∧
  (¬ checkout_request_valid db ctx →
   issued = [] ∧ ∃ msg rest, flashes out.2 = mkFlash msg "error" :: rest).
Proof.
  intros Hpost out issued.
  destruct (checkout_cases ctx Hpost) as [[Hno Herr]|[Hvalid [args Hyes]]];
    fold out in Hno, Herr || fold out in Hyes.
  - fold issued in Hno. split; [by rewrite Hno|done].
  - fold issued in Hyes. split; [by rewrite Hyes|done].
Qed.

End checkout_spec.

Lemma checkout_spec_witness :
  method (SampleRuntime.customer_post
            [("route_id", "4"); ("delivery_date", "2026-11-20")]) ≠ "GET" ∧
  Routes.procedure_calls "sp_create_order_from_cart"
    (calls (Routes.checkout (H:=SampleRuntime.runtime) SampleRuntime.shop_db
              (SampleRuntime.customer_post
                 [("route_id", "4"); ("delivery_date", "2026-11-20")])
              initial).2) ≠ [] ∧
  Routes.checkout_request_valid (H:=SampleRuntime.runtime) SampleRuntime.shop_db
    (SampleRuntime.customer_post
       [("route_id", "4"); ("delivery_date", "2026-11-20")]) ∧
  length (Routes.procedure_calls "sp_create_order_from_cart"
            (calls (Routes.checkout (H:=SampleRuntime.runtime)
                      SampleRuntime.shop_db
                      (SampleRuntime.customer_post
                         [("route_id", "4"); ("delivery_date", "2026-11-20")])
                      initial).2)) = 1%nat.
Proof.
  pose (ctx := SampleRuntime.customer_post
                 [("route_id", "4"); ("delivery_date", "2026-11-20")]).
  assert (method ctx ≠ "GET") as Hpost by discriminate.
  assert (Routes.procedure_calls "sp_create_order_from_cart"
            (calls (Routes.checkout (H:=SampleRuntime.runtime)
                      SampleRuntime.shop_db ctx initial).2) ≠ []) as Hcall
    by (vm_compute; discriminate).
  split; [exact Hpost|]. split; [exact Hcall|].
  exact (proj1 (checkout_spec (H:=SampleRuntime.runtime)
                  SampleRuntime.shop_db ctx Hpost) Hcall).
Defined.

(** The same request a day too early for the date asked: the order is not
    created and the first message is the error about the date. *)
Example checkout_too_early :
  Routes.checkout (H:=SampleRuntime.runtime) SampleRuntime.empty_db
    (SampleRuntime.customer_post
       [("route_id", "4"); ("delivery_date", "2026-11-09")]) initial
  = (Ok (Redirect (url_for "customer.cart")),
     mkSt [CallProcedure "sp_get_cart_summary" [VInt 7]]
          [mkFlash [Lit "Delivery date must be at least 7 days from today"]
                   "error";
           mkFlash [Lit "Your cart is empty"] "warning"]).
Proof. vm_compute. reflexivity. Qed.

(* ===================================================================== *)
(** * Further properties: pagination *)
(* ===================================================================== *)

Section pagination_info.
Context {A : Type}.
Implicit Types (l : list A).

Lemma pagination_info_nonempty (total page per_page : Z) :
  0 < total → 0 < per_page →
  let pages := (total + per_page - 1) `div` per_page in
  let served := Helpers.clamp page pages in
  HelpersExt.get_pagination_info total page per_page =
    Ok (HelpersExt.mkPageInfo total served per_page pages
          (bool_decide (1 < served)) (bool_decide (served < pages))
          (if bool_decide (1 < served) then Some (served - 1) else None)
          (if bool_decide (served < pages) then Some (served + 1) else None)
          ((served - 1) * per_page + 1)
          (Z.min (served * per_page) total)).
Proof.
  intros Htotal Hper pages served.
  unfold HelpersExt.get_pagination_info, Helpers.floordiv.
  assert ((0 <? total) = true) as -> by lia.
  assert ((per_page =? 0) = false) as -> by lia.
  fold pages.
  assert (1 ≤ pages) as Hpages.
  { subst pages.
    pose proof (Z.div_mod (total + per_page - 1) per_page ltac:(lia)).
    pose proof (Z.mod_pos_bound (total + per_page - 1) per_page Hper). nia. }
  assert ((if page <? 1 then 1
           else if (pages <? page) && (0 <? pages) then pages else page)
          = served) as ->.
  { subst served. unfold Helpers.clamp.
    destruct (page <? 1) eqn:E1; [lia|].
    destruct (pages <? page) eqn:E2; simpl.
    - assert ((0 <? pages) = true) as -> by lia. lia.
    - lia. }
  by rewrite !Zltb_bool_decide.
Qed.

(** X1.  On a list that is not empty and for a positive page size,
    [get_pagination_info], given the length, and [paginate_query], given
    the list, report the same page, page count, flags and neighbours; the
    items that [paginate_query] returns are the elements numbered
    [start_index] to [end_index], counting from one. *)
Theorem pagination_info_agrees l (page per_page : Z) :
  0 < per_page → l ≠ [] →
  ∃ r i,
    Helpers.paginate_query l page per_page = Ok r ∧
    HelpersExt.get_pagination_info (Z.of_nat (length l)) page per_page = Ok i ∧
    HelpersExt.total i = Helpers.total r ∧
    HelpersExt.page i = Helpers.page r ∧
    HelpersExt.per_page i = Helpers.per_page r ∧
    HelpersExt.pages i = Helpers.pages r ∧
    HelpersExt.has_prev i = Helpers.has_prev r ∧
    HelpersExt.has_next i = Helpers.has_next r ∧
    HelpersExt.prev_num i = Helpers.prev_num r ∧
    HelpersExt.next_num i = Helpers.next_num r ∧
    1 ≤ HelpersExt.start_index i ≤ HelpersExt.end_index i ∧
    HelpersExt.end_index i ≤ Z.of_nat (length l) ∧
    Helpers.items r
    = Helpers.py_slice l (HelpersExt.start_index i - 1) (HelpersExt.end_index i) ∧
    Z.of_nat (length (Helpers.items r))
    = HelpersExt.end_index i - HelpersExt.start_index i + 1.
Proof.
  intros Hper Hne.
  assert (0 < Z.of_nat (length l)) as Htotal.
  { destruct l; [done|]. simpl length. lia. }
  destruct (paginate_query_nonempty l page per_page Hne Hper)
    as (Hpages & Hceil & Hquery).
  pose proof (pagination_info_nonempty (Z.of_nat (length l)) page per_page
                Htotal Hper) as Hinfo.
  simpl in Hinfo.
  set (total := Z.of_nat (length l)) in *.
  set (pages := (total + per_page - 1) `div` per_page) in *.
  set (served := Helpers.clamp page pages) in *.
  assert (1 ≤ served ≤ pages) as Hserved
    by (subst served; unfold Helpers.clamp; lia).
  do 2 eexists. split; [exact Hquery|]. split; [exact Hinfo|]. simpl.
  repeat (split; [done || nia|]).
  assert (0 ≤ (served - 1) * per_page < total) as Hstart by nia.
  split.
  - replace (Z.min (served * per_page) total)
      with ((served - 1) * per_page
            + Z.min per_page (total - (served - 1) * per_page)) by lia.
    replace ((served - 1) * per_page + 1 - 1) with ((served - 1) * per_page)
      by lia.
    rewrite slice_from_nonneg by lia.
    destruct (decide (per_page ≤ total - (served - 1) * per_page)).
    + f_equal. lia.
    + rewrite !take_ge; [done| |]; rewrite length_drop; subst total; lia.
  - rewrite length_take, length_drop. subst total. lia.
Qed.

End pagination_info.

Lemma pagination_info_agrees_witness :
  0 < 2 ∧ [10; 20; 30; 40; 50] ≠ [] ∧
  ∃ i, HelpersExt.get_pagination_info 5 3 2 = Ok i ∧
       HelpersExt.start_index i = 5 ∧ HelpersExt.end_index i = 5.
Proof.
  split; [lia|]. split; [discriminate|].
  destruct (pagination_info_agrees [10; 20; 30; 40; 50] 3 2 ltac:(lia)
              ltac:(discriminate)) as (r & i & _ & Hi & _).
  exists i. split; [exact Hi|].
  vm_compute in Hi. by injection Hi as <-.
Defined.

Section pagination_edges.
Context {A : Type}.
Implicit Types (l : list A).


(** X3.  [paginate_query] raises exactly when the page size is zero and
    the list is not empty, and then it is [ZeroDivisionError];
    [get_pagination_info] raises exactly when the page size is zero and the
    total is positive. *)
Theorem pagination_raises l (total page per_page : Z) (e : Exn) :
  (Helpers.paginate_query l page per_page = Raise e
   ↔ e = ZeroDivisionError ∧ per_page = 0 ∧ l ≠ []) ∧
  (HelpersExt.get_pagination_info total page per_page = Raise e
   ↔ e = ZeroDivisionError ∧ per_page = 0 ∧ 0 < total).
Proof.
  split.
  - unfold Helpers.paginate_query, Helpers.floordiv.
    destruct l as [|x l']; [split; [done|by intros (_ & _ & ?)]|].
    destruct (Z.eqb_spec per_page 0);
      [|split; [done|by intros (_ & ? & _)]].
    split; [intros [= <-]; done|]. by intros (-> & _ & _).
  - unfold HelpersExt.get_pagination_info, Helpers.floordiv.
    destruct (Z.ltb_spec 0 total); [|split; [done|lia]].
    destruct (Z.eqb_spec per_page 0);
      [|split; [done|by intros (_ & ? & _)]].
    split; [intros [= <-]; done|]. by intros (-> & _ & _).
Qed.

End pagination_edges.

(* ===================================================================== *)
(** * Further properties: input sanitising *)
(* ===================================================================== *)

Section sanitising.
Import Helpers.
Implicit Types (l : list ascii).

(** [lstrip] drops blanks, and only blanks, from the front. *)
Lemma lstrip_spec l :
  ∃ blanks,
    l = blanks ++ lstrip l ∧
    Forall (λ c, is_space c = true) blanks ∧
    ∀ c, head (lstrip l) = Some c → is_space c = false.
Proof.
  induction l as [|c l (blanks & Hl & Hblanks & Hhead)].
  { exists []. by repeat split. }
  simpl. destruct (is_space c) eqn:Hc.
  - exists (c :: blanks). split; [by rewrite Hl at 1|].
    split; [by constructor|done].
  - exists []. split; [done|]. split; [done|]. by intros ? [= <-].
Qed.

Lemma lstrip_fixed l :
  (∀ c, head l = Some c → is_space c = false) → lstrip l = l.
Proof.
  destruct l as [|c l]; [done|]. intros Hhead. simpl.
  by rewrite (Hhead c eq_refl).
Qed.

Lemma head_reverse l c : head (reverse l) = Some c ↔ last l = Some c.
Proof.
  destruct l as [|x l _] using rev_ind; [done|].
  by rewrite reverse_snoc, last_snoc.
Qed.

Lemma head_app_l l more c : head l = Some c → head (l ++ more) = Some c.
Proof. by destruct l. Qed.

(** [strip] leaves a piece of the text that neither starts nor ends with a
    blank. *)
Lemma strip_spec l :
  ∃ before after,
    l = before ++ strip l ++ after ∧
    (∀ c, head (strip l) = Some c → is_space c = false) ∧
    (∀ c, last (strip l) = Some c → is_space c = false).
Proof.
  unfold strip.
  destruct (lstrip_spec l) as (before & Hl & _ & Hhead).
  destruct (lstrip_spec (reverse (lstrip l))) as (after & Hr & _ & Hlast).
  set (m := lstrip l) in *. set (k := lstrip (reverse m)) in *.
  assert (m = reverse k ++ reverse after) as Hm.
  { rewrite <- reverse_app, <- Hr. by rewrite reverse_involutive. }
  exists before, (reverse after). split; [by rewrite Hl at 1; rewrite Hm at 1|].
  split.
  - intros c Hc. apply Hhead. rewrite Hm. by apply head_app_l.
  - intros c Hc. apply Hlast.
    rewrite <- (reverse_involutive k). by apply head_reverse.
Qed.

Lemma strip_fixed l :
  (∀ c, head l = Some c → is_space c = false) →
  (∀ c, last l = Some c → is_space c = false) →
  strip l = l.
Proof.
  intros Hhead Hlast. unfold strip.
  rewrite (lstrip_fixed l Hhead).
  rewrite lstrip_fixed; [apply reverse_involutive|].
  intros c Hc. apply Hlast. by apply head_reverse.
Qed.

Lemma strip_Forall (P : ascii → Prop) l : Forall P l → Forall P (strip l).
Proof.
  intros Hall. destruct (strip_spec l) as (before & after & Hl & _).
  rewrite Hl in Hall.
  by apply Forall_app in Hall as [_ [? _]%Forall_app].
Qed.

Lemma filter_safe l :
  Forall (λ c, is_dangerous c = false)
         (List.filter (λ c, negb (is_dangerous c)) l).
Proof.
  induction l as [|c l IH]; [constructor|].
  simpl. destruct (is_dangerous c) eqn:Hc; simpl; [done|by constructor].
Qed.

Lemma filter_fixed l :
  Forall (λ c, is_dangerous c = false) l →
  List.filter (λ c, negb (is_dangerous c)) l = l.
Proof.
  induction 1 as [|c l Hc _ IH]; [done|]. simpl. by rewrite Hc, IH.
Qed.

Lemma sanitize_input_chars text :
  String.list_ascii_of_string (sanitize_input text None)
  = strip (List.filter (λ c, negb (is_dangerous c))
             (String.list_ascii_of_string text)).
Proof.
  unfold sanitize_input.
  destruct (String.eqb_spec text "") as [->|_]; [done|].
  by rewrite String.list_ascii_of_string_of_list_ascii.
Qed.

(** X4.  Without a length limit, what [sanitize_input] returns holds none
    of the characters [<], [>], double quote, apostrophe and semicolon,
    neither starts nor ends with a blank, and is left as it is by a second
    pass. *)
Theorem sanitize_input_clean text :
  let out := String.list_ascii_of_string (sanitize_input text None) in
  Forall (λ c, is_dangerous c = false) out ∧
  (∀ c, head out = Some c → is_space c = false) ∧
  (∀ c, last out = Some c → is_space c = false) ∧
  sanitize_input (sanitize_input text None) None = sanitize_input text None.
Proof.
  intros out.
  assert (Forall (λ c, is_dangerous c = false) out) as Hsafe.
  { subst out. rewrite sanitize_input_chars.
    apply strip_Forall, filter_safe. }
  assert ((∀ c, head out = Some c → is_space c = false) ∧
          (∀ c, last out = Some c → is_space c = false)) as [Hhead Hlast].
  { subst out. rewrite sanitize_input_chars.
    destruct (strip_spec (List.filter (λ c, negb (is_dangerous c))
                            (String.list_ascii_of_string text)))
      as (_ & _ & _ & ? & ?).
    done. }
  split; [done|]. split; [done|]. split; [done|].
  rewrite <- (String.string_of_list_ascii_of_string (sanitize_input text None))
    at 2.
  fold out. unfold sanitize_input at 1.
  destruct (String.eqb_spec (sanitize_input text None) "") as [Hempty|_].
  { subst out. by rewrite Hempty. }
  fold out. by rewrite (filter_fixed out Hsafe), (strip_fixed out Hhead Hlast).
Qed.

Lemma length_string_of_list l :
  String.length (String.string_of_list_ascii l) = length l.
Proof. induction l as [|c l IH]; [done|]. simpl. by rewrite IH. Qed.

(** X5.  With a positive [max_length], what [sanitize_input] returns is at
    most that long and still holds none of the five characters; the cut
    comes after the stripping, so the result may end with a blank. *)
Theorem sanitize_input_bounded text (max_length : Z) :
  0 < max_length →
  let out := sanitize_input text (Some max_length) in
  Z.of_nat (String.length out) ≤ max_length ∧
  Forall (λ c, is_dangerous c = false) (String.list_ascii_of_string out).
Proof.
  intros Hpos out. subst out. unfold sanitize_input.
  destruct (String.eqb_spec text "") as [->|_].
  { split; [simpl; lia|constructor]. }
  set (chars := strip (List.filter (λ c, negb (is_dangerous c))
                         (String.list_ascii_of_string text))).
  assert (Forall (λ c, is_dangerous c = false) chars) as Hsafe
    by apply strip_Forall, filter_safe.
  assert ((max_length =? 0) = false) as -> by lia. simpl.
  rewrite length_string_of_list, String.list_ascii_of_string_of_list_ascii.
  destruct (Z.ltb_spec max_length (Z.of_nat (length chars))).
  - assert (py_slice chars 0 max_length = take (Z.to_nat max_length) chars)
      as -> by (apply (slice_from_nonneg chars 0 max_length); lia).
    split; [rewrite length_take; lia|by apply Forall_take].
  - done.
Qed.

End sanitising.

Lemma sanitize_input_bounded_witness :
  0 < 3 ∧
  Helpers.sanitize_input "ab <cd>" (Some 3) = "ab " ∧
  Z.of_nat (String.length (Helpers.sanitize_input "ab <cd>" (Some 3))) ≤ 3.
Proof.
  split; [lia|]. split; [reflexivity|].
  apply (sanitize_input_bounded "ab <cd>" 3). lia.
Defined.

(* ===================================================================== *)
(** * Further properties: checkout and the cart *)
(* ===================================================================== *)

Section checkout_accepts.
Import Connection Helpers Models Routes.
Context `{PyRuntime} (db : Database).

#[local] Arguments _render_checkout_page : simpl never.
#[local] Arguments CartItem_get_cart_contents : simpl never.
#[local] Arguments Order_create_from_cart : simpl never.

(** X6.  When a POST to [checkout] comes from a logged-in user with a
    positive route, a delivery date that parses to at least seven days
    ahead and a cart that is not empty, [sp_create_order_from_cart] is
    called exactly once, with the customer of the session, the route, the
    parsed date and the sanitised instructions.  The date
    [calculate_delivery_date(min_days=7)] that the checkout page offers as
    the earliest one is accepted, and the day before it is not. *)
Theorem checkout_creates_order ctx route_id delivery_date parsed first others :
  method ctx ≠ "GET" →
  "user_name" ∈ dom (session ctx) →
  form_int ctx "route_id" 0 = Some route_id →
  0 < route_id →
  form_get (form ctx) "delivery_date" = Some delivery_date →
  delivery_date ≠ "" →
  strptime_ymd delivery_date = Some parsed →
  today ctx + 7 ≤ parsed →
  (CartItem_get_cart_contents db (session_get ctx "customer_id") initial).1
    = Ok (first :: others) →
  procedure_calls "sp_create_order_from_cart"
    (calls (checkout db ctx initial).2)
  = [[session_get ctx "customer_id"; VInt route_id; VDate parsed;
      VStr (sanitize_input
              (default "" (form_get (form ctx) "special_instructions")) None)]] ∧
  is_future_date (today ctx)
    (AsDate (calculate_delivery_date (today ctx) None 7)) 7 = true ∧
  is_future_date (today ctx)
    (AsDate (calculate_delivery_date (today ctx) None 7 - 1)) 7 = false.
Proof.
  intros Hpost Hlogin Hroute Hpos Hdate Hnonempty Hparsed Hfuture Hcart.
  split; [|unfold is_future_date, calculate_delivery_date; simpl; split; lia].
  unfold checkout.
  apply String.eqb_neq in Hpost. rewrite Hpost.
  rewrite int_of_form_eq, Hroute, Hdate.
  user_known Hlogin. unfold_m. simpl.
  assert ((route_id <=? 0) = false) as -> by lia. simpl.
  apply String.eqb_neq in Hnonempty. rewrite Hnonempty. simpl.
  unfold is_future_date. rewrite Hparsed.
  assert ((today ctx + 7 <=? parsed) = true) as -> by lia. simpl.
  destruct (get_cart_contents_run db (session_get ctx "customer_id") initial)
    as [cart_items Hrun].
  rewrite Hrun in Hcart |- *. simpl in Hcart. injection Hcart as ->.
  simpl.
  match goal with
  | |- context [Order_create_from_cart db ?a ?b ?c ?d ?s] =>
    destruct (create_from_cart_state db a b c d s)
      as (order & st1 & -> & Hcreated & _)
  end.
  simpl in Hcreated.
  destruct order as [o|]; simpl; [exact Hcreated|].
  match goal with
  | |- context [_render_checkout_page db ?c ?s] =>
    destruct (render_checkout_page_run db c s)
      as (response & st2 & -> & Hcalls & _)
  end.
  simpl in *. by rewrite Hcalls.
Qed.

End checkout_accepts.

Lemma checkout_creates_order_witness :
  (method (SampleRuntime.customer_post
             [("route_id", "4"); ("delivery_date", "2026-11-20")]) ≠ "GET" ∧
   0 < 4 ∧ "2026-11-20" ≠ "" ∧ 739923 + 7 ≤ 739940) ∧
  Routes.procedure_calls "sp_create_order_from_cart"
    (calls (Routes.checkout (H:=SampleRuntime.runtime) SampleRuntime.shop_db
              (SampleRuntime.customer_post
                 [("route_id", "4"); ("delivery_date", "2026-11-20")])
              initial).2)
  = [[VInt 7; VInt 4; VDate 739940; VStr ""]].
Proof.
  split; [repeat split; (discriminate || lia)|].
  refine (proj1 (checkout_creates_order (H:=SampleRuntime.runtime)
                   SampleRuntime.shop_db
                   (SampleRuntime.customer_post
                      [("route_id", "4"); ("delivery_date", "2026-11-20")])
                   4 "2026-11-20" 739940
                   (<["item_id" := VInt 3]> {["quantity" := VInt 2]}
                      ∪ list_to_map Models.CartItem_fields) []
                   _ _ _ _ _ _ _ _ _)).
  - discriminate.
  - apply elem_of_dom. eexists. apply lookup_insert_eq.
  - reflexivity.
  - lia.
  - reflexivity.
  - discriminate.
  - reflexivity.
  - simpl. lia.
  - vm_compute. reflexivity.
Defined.

Section model_instances.
Import Connection Models ModelsExt.
Context (db : Database).

Lemma mapM_from_dict_value defaults (rows : list Row) st :
  mapM (from_dict defaults) rows st
  = (if bool_decide
          (Forall (λ row : Row,
                     dom row ⊆ dom (list_to_map (M:=gmap string Value) defaults))
                  rows)
     then Ok ((λ row : Row, row ∪ list_to_map defaults) <$> rows)
     else Raise TypeError, st).
Proof.
  induction rows as [|row rows IH]; [done|].
  simpl. unfold mbind, M_bind at 1. rewrite from_dict_run.
  set (known := λ row : Row,
         dom row ⊆ dom (list_to_map (M:=gmap string Value) defaults)) in *.
  destruct (decide (known row)) as [Hrow|Hrow].
  - rewrite (bool_decide_true (dom row ⊆ _)) by exact Hrow.
    unfold mbind, M_bind at 1. rewrite IH.
    destruct (decide (Forall known rows)) as [Hrows|Hrows].
    + rewrite (bool_decide_true (Forall known rows)) by done.
      rewrite (bool_decide_true (Forall known (row :: rows)))
        by (by constructor).
      done.
    + rewrite (bool_decide_false (Forall known rows)) by done.
      rewrite (bool_decide_false (Forall known (row :: rows))); [done|].
      intros Hall. apply Forall_cons in Hall as [_ Hall]. exact (Hrows Hall).
  - rewrite (bool_decide_false (dom row ⊆ _)) by exact Hrow.
    rewrite (bool_decide_false (Forall known (row :: rows))); [done|].
    intros Hall. apply Forall_cons in Hall as [Hhead _]. exact (Hrow Hhead).
Qed.

Lemma get_cart_contents_value customer_id st :
  (CartItem_get_cart_contents db customer_id st).1
  = Ok match stored_results db (calls st) "sp_get_cart_summary" [customer_id] with
       | Some rows =>
           if bool_decide
                (Forall (λ row : Row,
                           dom row ⊆ dom (list_to_map (M:=gmap string Value)
                                            CartItem_fields)) rows)
           then (λ row : Row, row ∪ list_to_map CartItem_fields) <$> rows
           else []
       | None => []
       end.
Proof.
  unfold CartItem_get_cart_contents, try_except, mbind, M_bind at 1.
  unfold call_procedure.
  destruct (stored_results db _ _ _) as [rows|]; [|done].
  rewrite mapM_from_dict_value. by case_bool_decide.
Qed.

(** X7.  [CartItem.get_cart_contents] never raises and is all or nothing:
    when [sp_get_cart_summary] answers with rows whose columns are all
    fields of [CartItem], it returns one item per row, in order, each row
    filled up with the field defaults; when a single row has another
    column, or the call fails, it returns the empty list, as for an empty
    cart. *)
Theorem cart_contents_all_or_nothing customer_id st :
  let reply := stored_results db (calls st) "sp_get_cart_summary" [customer_id] in
  let out := (CartItem_get_cart_contents db customer_id st).1 in
  let known (row : Row) :=
    dom row ⊆ dom (list_to_map (M:=gmap string Value) CartItem_fields) in
  (∀ rows, reply = Some rows → Forall known rows →
     out = Ok ((λ row : Row, row ∪ list_to_map CartItem_fields) <$> rows)) ∧
  (∀ rows row, reply = Some rows → row ∈ rows → ¬ known row → out = Ok []) ∧
  (reply = None → out = Ok []).
Proof.
  intros reply out known. subst out. rewrite get_cart_contents_value.
  fold reply. fold known.
  split; [|split].
  - intros rows -> Hknown. by rewrite bool_decide_true by done.
  - intros rows row -> Hrow Hunknown.
    rewrite bool_decide_false; [done|].
    intros Hall. rewrite Forall_forall in Hall. by apply Hunknown, Hall.
  - by intros ->.
Qed.

Lemma union_defaults_fixed (obj defaults : gmap string Value) :
  dom defaults ⊆ dom obj → obj ∪ defaults = obj.
Proof.
  intros Hsub. apply map_eq. intros k. rewrite lookup_union.
  destruct (obj !! k) as [v|] eqn:Hobj; [by destruct (defaults !! k)|].
  destruct (defaults !! k) as [d|] eqn:Hdef; [|done].
  assert (k ∈ dom obj) as Hin by (apply Hsub, elem_of_dom; eauto).
  apply elem_of_dom in Hin as [? Hin]. congruence.
Qed.

(** X8.  The instance that [from_dict] builds has exactly the fields of
    the class: the values of the dictionary where it has them, the defaults
    elsewhere.  When no field name starts with an underscore, [to_dict]
    gives all of them back and [from_dict] of that dictionary is the same
    instance. *)
Theorem from_dict_to_dict defaults (data : Row) obj st st' :
  Forall (λ kv : string * Value, is_private kv.1 = false) defaults →
  from_dict defaults data st = (Ok obj, st') →
  st' = st ∧
  dom obj = dom (list_to_map (M:=gmap string Value) defaults) ∧
  (∀ k v, data !! k = Some v → obj !! k = Some v) ∧
  (∀ k, data !! k = None →
        obj !! k = list_to_map (M:=gmap string Value) defaults !! k) ∧
  to_dict obj = obj ∧
  from_dict defaults (to_dict obj) st = (Ok obj, st).
Proof.
  intros Hpublic. rewrite from_dict_run.
  case_bool_decide as Hsub; [|done]. intros [= <- <-].
  set (fields := list_to_map (M:=gmap string Value) defaults) in *.
  assert (dom (data ∪ fields) = dom fields) as Hdom.
  { rewrite dom_union_L. by apply subseteq_union_1_L. }
  assert (to_dict (data ∪ fields) = data ∪ fields) as Hpub.
  { unfold to_dict. apply map_filter_id. intros k v Hk. simpl.
    assert (k ∈ dom fields) as Hin
      by (rewrite <- Hdom; apply elem_of_dom; eauto).
    apply elem_of_dom in Hin as [d Hd].
    apply elem_of_list_to_map_2 in Hd.
    rewrite Forall_forall in Hpublic. by apply (Hpublic (k, d)). }
  split; [done|]. split; [done|]. split; [|split; [|split; [done|]]].
  - intros k v Hk. by apply lookup_union_Some_l.
  - intros k Hk. by rewrite lookup_union_r.
  - rewrite Hpub, from_dict_run, Hdom, bool_decide_true by done.
    rewrite union_defaults_fixed; [done|]. by rewrite Hdom.
Qed.

End model_instances.

Lemma from_dict_to_dict_witness :
  Forall (λ kv : string * Value, ModelsExt.is_private kv.1 = false)
    Models.Order_fields ∧
  ModelsExt.to_dict ({["order_id" := VInt 5]} ∪ list_to_map Models.Order_fields)
  = {["order_id" := VInt 5]} ∪ list_to_map Models.Order_fields.
Proof.
  assert (Forall (λ kv : string * Value, ModelsExt.is_private kv.1 = false)
            Models.Order_fields) as Hpublic
    by (repeat constructor).
  split; [exact Hpublic|].
  apply (from_dict_to_dict Models.Order_fields {["order_id" := VInt 5]}
           _ initial initial Hpublic).
  reflexivity.
Defined.

(* ===================================================================== *)
(** * Further properties: password rules *)
(* ===================================================================== *)

Section passwords.
Import HelpersExt.

Lemma search_spec class s :
  search class s = true
  ↔ ∃ c, c ∈ String.list_ascii_of_string s ∧ class c = true.
Proof.
  unfold search. rewrite existsb_exists.
  split; intros (c & Hin & Hc); exists c; split; try done;
    by apply list_elem_of_In.
Qed.

(** X9.  [is_valid_password] accepts a password exactly when it has at
    least eight characters and holds an uppercase letter, a lowercase
    letter, a digit and one of the listed special characters; it accepts
    exactly when it reports no error, it reports one error for each rule
    that fails, and for the empty password it reports only that a password
    is required. *)
Theorem is_valid_password_spec password :
  let out := is_valid_password password in
  let holds class :=
    ∃ c, c ∈ String.list_ascii_of_string password ∧ class c = true in
  (out.1 = true
   ↔ (8 ≤ String.length password)%nat ∧ holds is_upper ∧ holds is_lower
     ∧ holds is_digit ∧ holds is_special) ∧
  (out.1 = true ↔ out.2 = []) ∧
  (password = "" → out.2 = ["Password is required"]) ∧
  (password ≠ "" →
   length out.2
   = ((if (String.length password <? 8)%nat then 1 else 0)
      + (if search is_upper password then 0 else 1)
      + (if search is_lower password then 0 else 1)
      + (if search is_digit password then 0 else 1)
      + (if search is_special password then 0 else 1))%nat).
Proof.
  intros out holds. subst out holds. cbv beta.
  rewrite <- !search_spec. unfold is_valid_password.
  destruct (String.eqb_spec password "") as [->|Hne].
  { simpl. split; [split; [done|intros [? _]; lia]|].
    split; [done|]. split; [done|]. by intros []. }
  repeat match goal with
         | |- context [[String ?a ?b]] => generalize (String a b); intro
         end.
  destruct (Nat.ltb_spec (String.length password) 8) as [Hshort|Hlong];
    destruct (search is_upper password), (search is_lower password),
      (search is_digit password), (search is_special password);
    cbn [negb app length Nat.eqb fst snd Nat.add];
    (split; [split; [discriminate || done
                    |intros (? & ? & ? & ? & ?);
                     first [done | discriminate | exfalso; lia]]|]);
    (split; [split; discriminate || done|]);
    (split; [done|]); done.
Qed.

End passwords.

(* ===================================================================== *)
(** * Further properties: sessions and the login decorators *)
(* ===================================================================== *)

Section sessions.
Import Helpers HelpersExt Decorators DecoratorsExt.
Context `{PyRuntimeExt}.

Lemma session_valid_iff env (s : gmap string Value) :
  _is_session_valid env s = true
  ↔ ∃ text last_activity_dt timeout,
      s !! "last_activity" = Some (VStr text) ∧ text ≠ "" ∧
      fromisoformat text = Some last_activity_dt ∧
      lifetime env = Some timeout ∧
      now env - last_activity_dt ≤ timeout.
Proof.
  unfold _is_session_valid.
  destruct (s !! "last_activity") as [v|] eqn:Hlast; simpl;
    [|split; [done|by intros (? & ? & ? & ? & _)]].
  destruct v as [|n|d|text|o]; simpl;
    try (split; [by repeat case_match|by intros (? & ? & ? & [=] & _)]).
  destruct (String.eqb_spec text "") as [->|Hne]; simpl.
  { split; [done|]. by intros (? & ? & ? & [= <-] & ? & _). }
  destruct (fromisoformat text) as [t|] eqn:Hparse;
    [|split; [done|]; intros (? & ? & ? & [= <-] & _ & Hp & _); congruence].
  destruct (lifetime env) as [timeout|] eqn:Hlife;
    [|split; [done|]; by intros (? & ? & ? & _ & _ & _ & ? & _)].
  destruct (Z.ltb_spec timeout (now env - t)).
  - split; [done|].
    intros (? & ? & ? & [= <-] & _ & Hp & [= <-] & ?).
    rewrite Hparse in Hp. injection Hp as <-. lia.
  - split; [|done]. intros _. exists text, t, timeout. repeat split; done || lia.
Qed.

(** X10.  After [create_user_session], whatever [user_data] holds (even
    nothing), the user counts as logged in and [get_current_user] returns
    the six entries of [user_data], the role under ['user_role']; when the
    runtime reads back the time stamp it wrote, the session is valid
    exactly while no more than the configured lifetime has passed since
    the login; after [clear_user_session] there is no current user. *)
Theorem session_round_trip env ctx (user_data : Row) (t timeout : Z) :
  fromisoformat (isoformat t) = Some t →
  isoformat t ≠ "" →
  lifetime env = Some timeout →
  let created := create_user_session t user_data (session ctx) in
  let ctx' := with_session ctx created.1 in
  is_logged_in ctx' = true ∧
  created.2 = true ∧
  get_current_user ctx'
  = Some (<["user_name" := dict_get user_data "user_name"]>
         (<["user_role" := dict_get user_data "role"]>
         (<["full_name" := dict_get user_data "full_name"]>
         (<["customer_id" := dict_get user_data "customer_id"]>
         (<["store_name" := dict_get user_data "store_name"]>
         (<["manager_id" := dict_get user_data "manager_id"]> ∅)))))) ∧
  (_is_session_valid env (session ctx') = true ↔ now env - t ≤ timeout) ∧
  get_current_user (with_session ctx' (clear_user_session (session ctx')))
  = None.
Proof.
  intros Hread Hnonempty Hlife created ctx'.
  assert (∀ key v, created.1 !! key = Some v → session_get ctx' key = v)
    as Hget.
  { intros key v Hkey. unfold session_get. subst ctx'. simpl in *.
    by rewrite Hkey. }
  assert ("user_name" ∈ dom (session ctx')) as Hin.
  { subst ctx' created. simpl. apply elem_of_dom. eexists.
    by repeat (rewrite lookup_insert_ne by done); rewrite lookup_insert_eq. }
  split; [unfold is_logged_in; by rewrite bool_decide_true|].
  split; [done|]. split; [|split].
  - unfold get_current_user. rewrite bool_decide_true by done.
    rewrite (Hget "user_name" (dict_get user_data "user_name")),
      (Hget "user_role" (dict_get user_data "role")),
      (Hget "full_name" (dict_get user_data "full_name")),
      (Hget "customer_id" (dict_get user_data "customer_id")),
      (Hget "store_name" (dict_get user_data "store_name")),
      (Hget "manager_id" (dict_get user_data "manager_id")); [done|..];
      subst created; simpl;
      by repeat (rewrite lookup_insert_ne by done); rewrite lookup_insert_eq.
  - rewrite session_valid_iff. subst ctx' created. simpl.
    rewrite lookup_insert_eq. split.
    + intros (text & t' & timeout' & [= <-] & _ & Hp & Hl & Hle).
      rewrite Hread in Hp. rewrite Hlife in Hl. congruence.
    + intros Hle. by exists (isoformat t), t, timeout.
  - unfold get_current_user, clear_user_session. simpl.
    by rewrite dom_empty_L, bool_decide_false by set_solver.
Qed.

End sessions.

Lemma session_round_trip_witness :
  (@fromisoformat SampleRuntimeExt.runtime
     (@isoformat SampleRuntimeExt.runtime 1000) = Some 1000 ∧
   @isoformat SampleRuntimeExt.runtime 1000 ≠ "" ∧
   DecoratorsExt.lifetime (SampleRuntimeExt.at_time 29800) = Some 28800) ∧
  (DecoratorsExt._is_session_valid (H:=SampleRuntimeExt.runtime)
     (SampleRuntimeExt.at_time 29800)
     (HelpersExt.create_user_session (H:=SampleRuntimeExt.runtime) 1000 ∅ ∅).1
   = true
   ↔ 29800 - 1000 ≤ 28800).
Proof.
  split; [by vm_compute|].
  apply (session_round_trip (H:=SampleRuntimeExt.runtime)
           (SampleRuntimeExt.at_time 29800) (mkCtx "GET" [] None ∅ 0)
           ∅ 1000 28800);
    by vm_compute.
Defined.

Section login.
Import Helpers HelpersExt Decorators DecoratorsExt.
Context `{PyRuntimeExt} {Args : Type}.

Lemma probe_not_flashed (notice : Flash) :
  notice ≠ probe_mark → probe_mark ∉ [notice].
Proof. intros Hne Hin. apply list_elem_of_singleton in Hin. congruence. Qed.

(** X11.  A view wrapped by [login_required] runs if and only if the
    session contains ['user_name'] and is still valid.  Without
    ['user_name'] the answer is a redirect to the login page after the
    login notice, and the URL of the request is kept in the session under
    ['next_url'].  With an invalid session the session is emptied, which
    also drops the messages flashed before, and the answer is the same
    redirect after the expiry notice alone.  In both cases the outcome does
    not depend on the wrapped view. *)
Theorem login_required_spec (f : Ctx → Args → M Response) env ctx args st :
  let logged_in := "user_name" ∈ dom (session ctx) in
  let valid := _is_session_valid env (session ctx) = true in
  let login := Ok (Redirect (url_for "auth.login")) in
  (logged_in ∧ valid →
   login_required f env ctx args st = (f ctx args st, session ctx)) ∧
  (¬ logged_in →
   login_required f env ctx args st
   = ((login, mkSt (calls st) (flashes st ++ [login_notice])),
      <["next_url" := VStr (url env)]> (session ctx))) ∧
  (logged_in ∧ ¬ valid →
   login_required f env ctx args st
   = ((login, mkSt (calls st) [expired_notice]), ∅)) ∧
  (probe_mark ∈ flashes (login_required probe env ctx args initial).1.2
   ↔ logged_in ∧ valid).
Proof.
  intros logged_in valid login. subst logged_in valid login.
  unfold login_required.
  destruct (decide ("user_name" ∈ dom (session ctx))) as [Hin|Hout].
  - rewrite (bool_decide_true _ Hin). simpl.
    destruct (_is_session_valid env (session ctx)) eqn:Hvalid; simpl.
    + split; [done|]. split; [done|]. split; [by intros [_ ?]|].
      split; [done|]. intros _. vm_compute. apply list_elem_of_here.
    + split; [by intros [_ ?]|]. split; [done|]. split; [done|].
      split; [|by intros [_ ?]].
      intros Hmark. by apply probe_not_flashed in Hmark.
  - rewrite (bool_decide_false _ Hout). simpl.
    split; [by intros [? _]|]. split; [done|]. split; [by intros [? _]|].
    split; [|by intros [? _]].
    intros Hmark. by apply probe_not_flashed in Hmark.
Qed.

Lemma py_eq_str v s : py_eq v (VStr s) = bool_decide (v = VStr s).
Proof. unfold py_eq. by destruct (as_number v). Qed.

Lemma guarded_runs allowed_roles env ctx (args : Args) :
  probe_mark
    ∈ flashes (login_required (role_required allowed_roles probe)
                 env ctx args initial).1.2
  ↔ "user_name" ∈ dom (session ctx)
    ∧ _is_session_valid env (session ctx) = true
    ∧ py_in (session_get ctx "user_role") allowed_roles = true.
Proof.
  unfold login_required, role_required.
  destruct (decide ("user_name" ∈ dom (session ctx))) as [Hin|Hout].
  - rewrite (bool_decide_true _ Hin). simpl.
    destruct (_is_session_valid env (session ctx)); simpl.
    + destruct (py_in (session_get ctx "user_role") allowed_roles); simpl.
      * split; [done|]. intros _. vm_compute. apply list_elem_of_here.
      * split; [|by intros (_ & _ & ?)].
        intros Hmark. by apply probe_not_flashed in Hmark.
    + split; [|by intros (_ & ? & _)].
      intros Hmark. by apply probe_not_flashed in Hmark.
  - rewrite (bool_decide_false _ Hout). simpl.
    split; [|by intros (? & _)].
    intros Hmark. by apply probe_not_flashed in Hmark.
Qed.

(** X12.  The four role decorators stack [login_required] on
    [role_required]: the view runs if and only if the session contains
    ['user_name'], is valid and carries exactly the role asked for;
    [manager_required] lets through what either of the two manager
    decorators lets through, and nothing that [customer_required] does.  A
    valid session with another role is sent to the index page with the
    permission notice and is left as it is; a request without
    ['user_name'] is always answered by the outer decorator, with
    ['next_url'] recorded. *)
Theorem role_decorators_spec env ctx (args : Args) :
  let logged_in := "user_name" ∈ dom (session ctx) in
  let valid := _is_session_valid env (session ctx) = true in
  let role := session_get ctx "user_role" in
  let runs (decorator : (Ctx → Args → M Response) → Env → Ctx → Args → St →
                        (Result Response * St) * gmap string Value) :=
    probe_mark ∈ flashes (decorator probe env ctx args initial).1.2 in
  (runs customer_required ↔ logged_in ∧ valid ∧ role = VStr "customer") ∧
  (runs store_manager_required
   ↔ logged_in ∧ valid ∧ role = VStr "store_manager") ∧
  (runs main_manager_required
   ↔ logged_in ∧ valid ∧ role = VStr "main_manager") ∧
  (runs manager_required
   ↔ runs store_manager_required ∨ runs main_manager_required) ∧
  ¬ (runs manager_required ∧ runs customer_required) ∧
  (∀ allowed_roles f st,
     logged_in → valid → py_in role allowed_roles = false →
     login_required (role_required allowed_roles f) env ctx args st
     = ((Ok (Redirect (url_for "index")),
         mkSt (calls st) (flashes st ++ [denied_notice])), session ctx)) ∧
  (∀ allowed_roles f st,
     ¬ logged_in →
     login_required (role_required allowed_roles f) env ctx args st
     = ((Ok (Redirect (url_for "auth.login")),
         mkSt (calls st) (flashes st ++ [login_notice])),
        <["next_url" := VStr (url env)]> (session ctx))).
Proof.
  intros logged_in valid role runs. subst runs. cbv beta.
  unfold customer_required, store_manager_required, main_manager_required,
    manager_required.
  rewrite !guarded_runs. fold logged_in valid role.
  assert (∀ s, py_in role [VStr s] = true ↔ role = VStr s) as Hone.
  { intros s. unfold py_in. simpl.
    by rewrite py_eq_str, orb_false_r, bool_decide_eq_true. }
  assert (∀ s t, py_in role [VStr s; VStr t] = true
                 ↔ role = VStr s ∨ role = VStr t) as Htwo.
  { intros s t. unfold py_in. simpl.
    by rewrite !py_eq_str, orb_false_r, orb_true_iff, !bool_decide_eq_true. }
  rewrite !Hone, Htwo.
  split; [done|]. split; [done|]. split; [done|].
  split; [tauto|]. split.
  { intros [(_ & _ & [Hrole|Hrole]) (_ & _ & Hcustomer)]; congruence. }
  split.
  - intros allowed_roles f st Hin Hvalid Hrole.
    unfold login_required, role_required. subst logged_in valid role.
    rewrite (bool_decide_true _ Hin), Hvalid. simpl. by rewrite Hrole.
  - intros allowed_roles f st Hout.
    unfold login_required. subst logged_in.
    by rewrite (bool_decide_false _ Hout).
Qed.

End login.

(* ===================================================================== *)
(** * Further properties: form validation *)
(* ===================================================================== *)

Section form_validation.
Import Helpers Decorators DecoratorsExt.
Context {Args : Type}.

Lemma collect_missing_filter f required_fields missing_fields :
  collect_missing f required_fields missing_fields
  = missing_fields ++ List.filter (is_blank f) required_fields.
Proof.
  revert missing_fields.
  induction required_fields as [|field rest IH]; intros missing_fields; simpl.
  { by rewrite app_nil_r. }
  rewrite IH. destruct (is_blank f field); [|done].
  by rewrite <- app_assoc.
Qed.

Lemma filter_nil_iff {A} (p : A → bool) (l : list A) :
  List.filter p l = [] ↔ Forall (λ x, p x = false) l.
Proof.
  induction l as [|x l IH]; simpl; [by split; [constructor|]|].
  destruct (p x) eqn:Hp.
  - split; [done|]. intros Hall. apply Forall_cons in Hall as [? _]. congruence.
  - rewrite IH. split; [by constructor|]. by intros [_ ?]%Forall_cons.
Qed.

(** X13.  A view wrapped by [validate_form] runs if and only if every
    required field was submitted with a first value that is not blank.
    Otherwise the view is not called: the answer is a redirect to the
    referrer, or to the index page when there is none, after one error
    message that names the missing fields in the order in which they were
    required. *)
Theorem validate_form_spec (required_fields : list string)
    (f : Ctx → Args → M Response) ctx args st :
  let missing := List.filter (is_blank (form ctx)) required_fields in
  let filled field :=
    ∃ v, form_get (form ctx) field = Some v
         ∧ strip (String.list_ascii_of_string v) ≠ [] in
  (missing = [] ↔ Forall filled required_fields) ∧
  (missing = [] → validate_form required_fields f ctx args st = f ctx args st) ∧
  (missing ≠ [] →
   validate_form required_fields f ctx args st
   = (Ok (Redirect (referrer_or ctx (url_for "index"))),
      mkSt (calls st)
        (flashes st
         ++ [mkFlash [Lit "Missing required fields: ";
                      Interp (VStr (String.concat ", " missing))] "error"]))) ∧
  (probe_mark ∈ flashes (validate_form required_fields probe ctx args initial).2
   ↔ Forall filled required_fields).
Proof.
  intros missing filled.
  assert (missing = [] ↔ Forall filled required_fields) as Hiff.
  { subst missing. rewrite filter_nil_iff. apply Forall_iff. intros field.
    subst filled. unfold is_blank. cbv beta.
    destruct (form_get (form ctx) field) as [v|].
    - rewrite bool_decide_eq_false. split; [by exists v|].
      by intros (? & [= <-] & ?).
    - split; [done|]. by intros (? & ? & _). }
  split; [exact Hiff|]. rewrite <- Hiff.
  unfold validate_form. rewrite collect_missing_filter. simpl. fold missing.
  destruct missing as [|field more]; simpl.
  - split; [done|]. split; [done|]. split; [done|].
    intros _. vm_compute. apply list_elem_of_here.
  - split; [done|]. split; [done|]. split; [|done].
    intros Hmark. unfold_m. simpl in Hmark.
    apply list_elem_of_singleton in Hmark. discriminate.
Qed.

End form_validation.

(* ===================================================================== *)
(** * Further properties: authentication *)
(* ===================================================================== *)

Section authentication.
Import Connection Models ModelsExt.
Context (db : Database).

(** X14.  [User.authenticate] never raises and flashes nothing.  It first
    calls [sp_authenticate_user] with the name and the password; it looks
    the user up in [users], by the name alone, exactly when the procedure
    answered with rows of which the first has the status ['Success'], and
    otherwise returns [None] after that one call.  A user it returns is
    the row of that lookup filled up with the defaults of the class, so the
    row has a ['user_name'] and no column that is not a field of [User]. *)
Theorem authenticate_spec user_name password st :
  let out := User_authenticate db user_name password st in
  let proc := CallProcedure "sp_authenticate_user" [user_name; password] in
  let lookup := ExecuteQuery users_query [user_name] true in
  let succeeded :=
    ∃ first rest status,
      stored_results db (calls st) "sp_authenticate_user" [user_name; password]
      = Some (first :: rest)
      ∧ first !! "status" = Some status
      ∧ py_eq status (VStr "Success") = true in
  (∃ r, out.1 = Ok r) ∧
  flashes out.2 = flashes st ∧
  (succeeded → calls out.2 = calls st ++ [proc; lookup]) ∧
  (¬ succeeded → calls out.2 = calls st ++ [proc] ∧ out.1 = Ok None) ∧
  (∀ user, out.1 = Ok (Some user) →
     succeeded ∧
     ∃ data,
       fetchone db (calls st ++ [proc]) users_query [user_name]
       = Some (Some data)
       ∧ "user_name" ∈ dom data
       ∧ dom data ⊆ {["user_name"]} ∪
                     dom (list_to_map (M:=gmap string Value) User_defaults)
       ∧ user = data ∪ list_to_map User_defaults).
Proof.
  intros out proc lookup succeeded. subst out succeeded.
  unfold User_authenticate. unfold_m. simpl. fold proc.
  destruct (stored_results db (calls st) "sp_authenticate_user"
              [user_name; password]) as [[|first rest]|] eqn:Hproc; simpl.
  - split; [eauto|]. split; [done|].
    split; [by intros (? & ? & ? & [=] & _)|]. split; [done|]. done.
  - destruct (first !! "status") as [status|] eqn:Hstatus; simpl;
      [|split; [eauto|]; split; [done|];
        split; [intros (? & ? & ? & [= <- <-] & ? & _); congruence|];
        split; done].
    destruct (py_eq status (VStr "Success")) eqn:Hsuccess; simpl;
      [|split; [eauto|]; split; [done|];
        split; [intros (? & ? & ? & [= <- <-] & ? & ?); congruence|];
        split; done].
    assert (∃ first' rest' status',
              Some (first :: rest) = Some (first' :: rest')
              ∧ first' !! "status" = Some status'
              ∧ py_eq status' (VStr "Success") = true) as Hyes
      by (by exists first, rest, status).
    fold users_query. fold lookup.
    assert ((calls st ++ [proc]) ++ [lookup] = calls st ++ [proc; lookup])
      as Hcalls by (by rewrite <- app_assoc).
    destruct (fetchone db (calls st ++ [proc]) users_query [user_name])
      as [[data|]|] eqn:Hfetch; simpl;
      [|split; [eauto|]; split; [done|]; split; [done|]; split; done
       |split; [eauto|]; split; [done|]; split; [done|]; split; done].
    case_bool_decide as Hempty; simpl;
      [split; [eauto|]; split; [done|]; split; [done|]; split; done|].
    unfold User_from_dict.
    case_bool_decide as Hsub; simpl;
      [|split; [eauto|]; split; [done|]; split; [done|]; split; done].
    case_bool_decide as Hname; simpl;
      [|split; [eauto|]; split; [done|]; split; [done|]; split; done].
    split; [eauto|]. split; [done|]. split; [done|]. split; [done|].
    intros user [= <-]. split; [done|]. by exists data.
  - split; [eauto|]. split; [done|].
    split; [by intros (? & ? & ? & [=] & _)|]. split; [done|]. done.
Qed.

End authentication.

(* ===================================================================== *)
(** * Further properties: the manager's order and truck handlers *)
(* ===================================================================== *)

Section manager.
Import Connection Helpers HelpersExt Routes Manager.
Context `{PyRuntime} (db : Database).

(** X15.  The body of the manager's [update_order_status] always answers
    with the redirect back.  For a positive order id, a status that is not
    empty and a logged-in user, its only access to the database is one
    call of [sp_update_order_status] with the id, the status as submitted
    and the user's name: it reads neither the order nor the store of the
    manager, and accepts any status text.  The procedure is called in no
    other case, and then one error is flashed. *)
Theorem manager_update_order_status_spec ctx :
  let out := Manager.update_order_status db ctx initial in
  let issued := procedure_calls "sp_update_order_status" (calls out.2) in
  let accepted order_id new_status :=
    form_int ctx "order_id" 0 = Some order_id ∧ 0 < order_id ∧
    form_get (form ctx) "new_status" = Some new_status ∧ new_status ≠ "" ∧
    "user_name" ∈ dom (session ctx) in
  out.1 = Ok (Redirect (referrer_or ctx (url_for "manager.orders_management"))) ∧
  (∀ order_id new_status,
     accepted order_id new_status →
     calls out.2
     = [update_call new_status (session_get ctx "user_name") order_id]) ∧
  (issued ≠ [] → ∃ order_id new_status, accepted order_id new_status) ∧
  (issued = [] → calls out.2 = [] ∧ ∃ msg, flashes out.2 = [mkFlash msg "error"]).
Proof.
  intros out issued accepted. subst out issued accepted. cbv beta.
  unfold Manager.update_order_status, update_call.
  rewrite int_of_form_eq.
  destruct (form_int ctx "order_id" 0) as [order_id|] eqn:Hid;
    [|unfold_m; simpl; split; [done|];
      split; [by intros ? ? ([=] & _)|]; split; [done|]; eauto].
  destruct (Z.leb_spec order_id 0) as [Hle|Hpos].
  { unfold_m. simpl.
    assert ((order_id <=? 0) = true) as -> by lia. simpl.
    split; [done|].
    split; [intros ? ? ([= <-] & ? & _); lia|]. split; [done|]. eauto. }
  destruct (form_get (form ctx) "new_status") as [new_status|] eqn:Hstatus;
    [|unfold_m; simpl;
      assert ((order_id <=? 0) = false) as -> by lia; simpl;
      split; [done|];
      split; [by intros ? ? (_ & _ & [=] & _)|]; split; [done|]; eauto].
  destruct (String.eqb_spec new_status "") as [->|Hne].
  { unfold_m. simpl.
    assert ((order_id <=? 0) = false) as -> by lia. simpl.
    split; [done|].
    split; [by intros ? ? (_ & _ & [= <-] & ? & _)|]. split; [done|]. eauto. }
  destruct (decide ("user_name" ∈ dom (session ctx))) as [Hlogin|Hlogin].
  - user_known Hlogin. unfold_m. simpl.
    assert ((order_id <=? 0) = false) as -> by lia. simpl.
    apply String.eqb_neq in Hne as Hneb. rewrite Hneb. simpl.
    destruct (stored_results db _ _ _); simpl.
    + split; [done|].
      split; [by intros ? ? ([= <-] & _ & [= <-] & _)|].
      split; [|done].
      intros _. by exists order_id, new_status.
    + split; [done|].
      split; [by intros ? ? ([= <-] & _ & [= <-] & _)|].
      split; [|done].
      intros _. by exists order_id, new_status.
  - user_unknown Hlogin. unfold_m. simpl.
    assert ((order_id <=? 0) = false) as -> by lia. simpl.
    apply String.eqb_neq in Hne as Hneb. rewrite Hneb. simpl.
    split; [done|].
    split; [by intros ? ? (_ & _ & _ & _ & ?)|]. split; [done|]. eauto.
Qed.

End manager.


Section trucks.
Import Connection Helpers HelpersExt Routes Manager.
Context `{PyRuntime} (db : Database).


End trucks.


(* ===================================================================== *)
(** * Further properties: the rate-limit and cache decorators *)
(* ===================================================================== *)

Section rate_limited_views.
Import Decorators DecoratorsExt.
Context `{PyRuntimeExt} {V Args : Type}.

Lemma rate_limit_probe max_requests per_seconds env ctx (args : Args)
    (g : G V) :
  let checked :=
    _is_rate_limited (now env) (_get_rate_limit_key env ctx)
      max_requests per_seconds g in
  let out := rate_limit max_requests per_seconds None probe env ctx args g
               initial in
  out.2 = checked.2 ∧
  bool_decide (probe_mark ∈ flashes out.1.2) = negb checked.1.
Proof.
  intros checked out. subst checked out. unfold rate_limit.
  destruct (_is_rate_limited _ _ _ _ _) as [[|] g1]; simpl.
  - by destruct (is_json env).
  - done.
Qed.

Lemma serve_run_checks max_requests per_seconds (args : Args) key requests :
  ∀ g : G V,
    ran key requests (serve max_requests per_seconds probe args requests g).1
    = admitted key (keyed requests)
        (run_checks max_requests per_seconds (keyed requests) g).1.
Proof.
  induction requests as [|[env ctx] rest IH]; intros g; [done|].
  simpl.
  pose proof (rate_limit_probe max_requests per_seconds env ctx args g)
    as [Hstore Hmark].
  destruct (rate_limit max_requests per_seconds None probe env ctx args g
              initial) as [[r st] g1].
  destruct (_is_rate_limited (now env) (_get_rate_limit_key env ctx)
              max_requests per_seconds g) as [limited g1'].
  simpl in Hstore, Hmark. subst g1'.
  specialize (IH g1).
  destruct (serve max_requests per_seconds probe args rest g1) as [sts g2].
  destruct (run_checks max_requests per_seconds (keyed rest) g1)
    as [verdicts g2'].
  simpl in IH |- *. rewrite Hmark, IH. done.
Qed.

(** X17.  Behind [rate_limit(max_requests, per_seconds)] with the default
    key, over calls that share one [g] and read a clock that does not run
    backwards, the wrapped view runs at most [max_requests] times in any
    window of [per_seconds] (start included, end excluded) for the same
    user, or for the same address when nobody is logged in.  The limit is
    not negative. *)
Theorem rate_limited_view_bound max_requests per_seconds (args : Args)
    (requests : list (Env * Ctx)) key from :
  0 ≤ max_requests →
  clock_monotone (keyed requests) →
  in_window from per_seconds
    (ran key requests
       (serve (V:=V) max_requests per_seconds probe args requests fresh).1)
  ≤ max_requests.
Proof.
  intros Hmax Hclock. rewrite serve_run_checks.
  destruct (decide (0 < per_seconds)) as [Hper|Hper];
    [|rewrite in_window_empty by lia; done].
  destruct (keyed requests) as [|[k t] rest] eqn:Hreq; [by simpl|].
  rewrite <- Hreq in *.
  apply (run_checks_window key max_requests per_seconds (keyed requests) Hper
           fresh [] t); try done.
  rewrite Hreq in Hclock |- *. unfold clock_monotone in Hclock.
  simpl in Hclock.
  apply StronglySorted_inv in Hclock as [_ Hnow].
  apply Forall_cons. split; [simpl; lia|].
  apply Forall_forall. intros r Hr.
  rewrite Forall_forall in Hnow. apply Hnow.
  by apply (list_elem_of_fmap_2 snd).
Qed.

End rate_limited_views.

Lemma rate_limited_view_bound_witness :
  (0 ≤ 2 ∧
   Decorators.clock_monotone
     (DecoratorsExt.keyed (H:=SampleRuntimeExt.runtime)
        [(SampleRuntimeExt.at_time 100, SampleRuntime.customer_post []);
         (SampleRuntimeExt.at_time 101, SampleRuntime.customer_post []);
         (SampleRuntimeExt.at_time 102, SampleRuntime.customer_post [])])) ∧
  DecoratorsExt.ran (H:=SampleRuntimeExt.runtime) "rate_limit:user:alice"
    [(SampleRuntimeExt.at_time 100, SampleRuntime.customer_post []);
     (SampleRuntimeExt.at_time 101, SampleRuntime.customer_post []);
     (SampleRuntimeExt.at_time 102, SampleRuntime.customer_post [])]
    (DecoratorsExt.serve (H:=SampleRuntimeExt.runtime) (V:=unit) 2 60
       Decorators.probe tt
       [(SampleRuntimeExt.at_time 100, SampleRuntime.customer_post []);
        (SampleRuntimeExt.at_time 101, SampleRuntime.customer_post []);
        (SampleRuntimeExt.at_time 102, SampleRuntime.customer_post [])]
       Decorators.fresh).1
  = [100; 101] ∧
  Decorators.in_window 100 60
    (DecoratorsExt.ran (H:=SampleRuntimeExt.runtime) "rate_limit:user:alice"
       [(SampleRuntimeExt.at_time 100, SampleRuntime.customer_post []);
        (SampleRuntimeExt.at_time 101, SampleRuntime.customer_post []);
        (SampleRuntimeExt.at_time 102, SampleRuntime.customer_post [])]
       (DecoratorsExt.serve (H:=SampleRuntimeExt.runtime) (V:=unit) 2 60
          Decorators.probe tt
          [(SampleRuntimeExt.at_time 100, SampleRuntime.customer_post []);
           (SampleRuntimeExt.at_time 101, SampleRuntime.customer_post []);
           (SampleRuntimeExt.at_time 102, SampleRuntime.customer_post [])]
          Decorators.fresh).1)
  ≤ 2.
Proof.
  assert (Decorators.clock_monotone
            (DecoratorsExt.keyed (H:=SampleRuntimeExt.runtime)
               [(SampleRuntimeExt.at_time 100, SampleRuntime.customer_post []);
                (SampleRuntimeExt.at_time 101, SampleRuntime.customer_post []);
                (SampleRuntimeExt.at_time 102, SampleRuntime.customer_post [])]))
    as Hclock.
  { unfold Decorators.clock_monotone. simpl.
    repeat (constructor; [|repeat constructor; lia]). constructor. }
  split; [split; [lia|exact Hclock]|]. split; [by vm_compute|].
  apply (rate_limited_view_bound (H:=SampleRuntimeExt.runtime) (V:=unit) 2 60 tt
           _ "rate_limit:user:alice" 100 ltac:(lia) Hclock).
Defined.

Section cached_views.
Import Decorators DecoratorsExt.
Context `{PyRuntimeExt}.

(** X18.  Behind [cache_response], and after a lookup that missed: when
    the view raises, nothing is stored; when it returns, its result is
    stored under a key made of the function name, the prefix and the
    arguments alone.  Until [timeout] after the storing, a later call under
    the same [g] with the same arguments gets that result without the view
    being called, whatever the request, the session and the view are then,
    and it flashes nothing; from then on the view is called again. *)
Theorem cache_response_spec timeout key_prefix func_name
    (f : Ctx → list Value → list (string * Value) → M Response)
    now later ctx args kwargs (g : G Response) st :
  let key := _generate_cache_key func_name args kwargs key_prefix in
  let first := cache_response timeout key_prefix func_name f now later ctx
                 args kwargs g st in
  (_get_from_cache now key g).1 = None →
  (∀ e st1,
     f ctx args kwargs st = (Raise e, st1) →
     first.1 = (Raise e, st1) ∧ cached first.2 key = None) ∧
  (∀ result st1,
     f ctx args kwargs st = (Ok result, st1) →
     first.1 = (Ok result, st1) ∧
     cached first.2 key = Some (mkCacheEntry result (later + timeout)) ∧
     ∀ f' now' later' ctx' st',
       let second := cache_response timeout key_prefix func_name f' now' later'
                       ctx' args kwargs first.2 st' in
       (now' < later + timeout →
        second.1 = (Ok result, st') ∧ second.2 = first.2) ∧
       (later + timeout ≤ now' → second.1.1 = (f' ctx' args kwargs st').1)).
Proof.
  intros key first Hmiss. subst first. unfold cache_response. fold key.
  destruct (_get_from_cache now key g) as [cached_result g1] eqn:Hget.
  simpl in Hmiss. subst cached_result.
  assert (cached g1 key = None ∧ ∃ store, cache_store g1 = Some store)
    as [Hnone [store Hstore]].
  { unfold _get_from_cache in Hget. unfold cached.
    destruct (default ∅ (cache_store g) !! key) as [entry|] eqn:Hentry.
    - destruct (now <? expires entry); [done|].
      injection Hget as <-. simpl. split; [apply lookup_delete_eq|by eexists].
    - injection Hget as <-. simpl. split; [done|by eexists]. }
  split.
  - intros e st1 ->. done.
  - intros result st1 ->. cbv beta iota. cbn [fst snd].
    set (g2 := _set_cache later key result timeout g1).
    split; [done|].
    split; [subst g2; unfold cached, _set_cache; simpl; apply lookup_insert_eq|].
    intros f' now' later' ctx' st'.
    assert (_get_from_cache now' key g2
            = if now' <? later + timeout then (Some result, g2)
              else (None,
                    mkG (rate_limit_store g2)
                      (Some (delete key (default ∅ (cache_store g2))))))
      as ->.
    { subst g2. unfold _get_from_cache, _set_cache. simpl.
      rewrite lookup_insert_eq. simpl.
      by destruct (now' <? later + timeout). }
    destruct (Z.ltb_spec now' (later + timeout)) as [Hhit|Hlate].
    + split; [done|]. intros ?; lia.
    + split; [intros ?; lia|]. intros _.
      by destruct (f' ctx' args kwargs st') as [[r|e] st2].
Qed.

End cached_views.

Lemma cache_response_spec_witness :
  (Decorators._get_from_cache (V:=Response) 1000
     (DecoratorsExt._generate_cache_key (H:=SampleRuntimeExt.runtime)
        "dashboard" [VInt 7] [] None)
     Decorators.fresh).1 = None ∧
  (DecoratorsExt.cache_response (H:=SampleRuntimeExt.runtime) 300 None
     "dashboard" (λ _ _ _, mret (RenderTemplate "other.html")) 1200 1201
     (mkCtx "GET" [] None ∅ 0) [VInt 7] []
     (DecoratorsExt.cache_response (H:=SampleRuntimeExt.runtime) 300 None
        "dashboard" (λ _ _ _, mret (RenderTemplate "dashboard.html")) 1000 1001
        (SampleRuntime.customer_post []) [VInt 7] [] Decorators.fresh
        initial).2
     initial).1
  = (Ok (RenderTemplate "dashboard.html"), initial).
Proof.
  assert ((Decorators._get_from_cache (V:=Response) 1000
             (DecoratorsExt._generate_cache_key (H:=SampleRuntimeExt.runtime)
                "dashboard" [VInt 7] [] None)
             Decorators.fresh).1 = None) as Hmiss by reflexivity.
  split; [exact Hmiss|].
  destruct (cache_response_spec (H:=SampleRuntimeExt.runtime) 300 None
              "dashboard" (λ _ _ _, mret (RenderTemplate "dashboard.html"))
              1000 1001 (SampleRuntime.customer_post []) [VInt 7] []
              Decorators.fresh initial Hmiss) as [_ Hstored].
  destruct (Hstored (RenderTemplate "dashboard.html") initial eq_refl)
    as (_ & _ & Hlater).
  apply (Hlater (λ _ _ _, mret (RenderTemplate "other.html")) 1200 1201
           (mkCtx "GET" [] None ∅ 0) initial).
  lia.
Defined.

Section role_helpers.
Import Helpers HelpersExt Decorators DecoratorsExt.
Context `{PyRuntimeExt} {Args : Type}.

(** X19.  The role helpers of [utils/helpers.py] and the role decorators
    agree: each decorator lets a request through if and only if the user is
    logged in, the session is valid and the helper of the same name holds.
    [is_manager] is the disjunction of the two manager helpers, and no
    session is a customer's and a manager's at once. *)
Theorem role_helpers_agree env ctx (args : Args) :
  let admitted :=
    is_logged_in ctx = true ∧ _is_session_valid env (session ctx) = true in
  let runs (decorator : (Ctx → Args → M Response) → Env → Ctx → Args → St →
                        (Result Response * St) * gmap string Value) :=
    probe_mark ∈ flashes (decorator probe env ctx args initial).1.2 in
  (runs customer_required ↔ admitted ∧ is_customer ctx = true) ∧
  (runs store_manager_required ↔ admitted ∧ is_store_manager ctx = true) ∧
  (runs main_manager_required ↔ admitted ∧ is_main_manager ctx = true) ∧
  (runs manager_required ↔ admitted ∧ is_manager ctx = true) ∧
  is_manager ctx = is_store_manager ctx || is_main_manager ctx ∧
  (is_customer ctx = true → is_manager ctx = false).
Proof.
  intros admitted runs. subst admitted runs. cbv beta.
  unfold customer_required, store_manager_required, main_manager_required,
    manager_required.
  rewrite !guarded_runs.
  unfold is_logged_in, is_customer, is_store_manager, is_main_manager,
    is_manager, py_in.
  rewrite bool_decide_eq_true. simpl. rewrite !orb_false_r.
  split; [tauto|]. split; [tauto|]. split; [tauto|]. split; [tauto|].
  split; [done|].
  rewrite !py_eq_str, orb_false_iff, bool_decide_eq_true,
    !bool_decide_eq_false.
  intros ->. done.
Qed.

End role_helpers.

(* ===================================================================== *)
(** * Further properties: the discount rate *)
(* ===================================================================== *)

Section discount_rate.
Import Connection Models.
Context `{PyRuntime} (db : Database).

(** X20.  [Customer.get_discount_rate] never raises, flashes nothing and
    makes one query, for the customer's type.  When the query finds a row
    whose [discount_rate] reads as a number, that number is returned, a
    rate of zero included; in every other case (no row, no such column, a
    rate that is no number, a failing query) the result is 0.00. *)
Theorem discount_rate_spec (self : Obj) st :
  let query :=
    "SELECT discount_rate FROM customer_type WHERE customer_type = %s" in
  let out := Customer_get_discount_rate db self st in
  let found d :=
    ∃ row rate,
      fetchone db (calls st) query [attr self "customer_type"] = Some (Some row)
      ∧ row !! "discount_rate" = Some rate
      ∧ decimal_of_str rate = Ok d in
  out.2 = record (ExecuteQuery query [attr self "customer_type"] true) st ∧
  (∀ d, found d → out.1 = Ok d) ∧
  ((∀ d, ¬ found d) → out.1 = Ok (mkDecimal 0 (-2))).
Proof.
  intros query out found. subst out found. cbv beta.
  unfold Customer_get_discount_rate. unfold_m. simpl. fold query.
  destruct (fetchone db (calls st) query [attr self "customer_type"])
    as [[row|]|] eqn:Hfetch; simpl;
    [|split; [done|]; split; [by intros ? (? & ? & [=] & _)|done]
     |split; [done|]; split; [by intros ? (? & ? & [=] & _)|done]].
  case_bool_decide as Hempty; simpl.
  { subst row. split; [done|]. split; [|done].
    intros d (? & ? & [= <-] & Hrate & _). by rewrite lookup_empty in Hrate. }
  unfold_m. simpl.
  destruct (row !! "discount_rate") as [rate|] eqn:Hrate; simpl;
    [|split; [done|]; split; [|done];
      intros d (? & ? & [= <-] & ? & _); congruence].
  destruct (decimal_of_str rate) as [d|e] eqn:Hdecimal; simpl.
  - split; [done|]. split.
    + intros d' (? & ? & [= <-] & Hrate' & Hd').
      rewrite Hrate in Hrate'. injection Hrate' as <-. congruence.
    + intros Hnone. destruct (Hnone d). by exists row, rate.
  - split; [done|]. split; [|done].
    intros d' (? & ? & [= <-] & Hrate' & Hd').
    rewrite Hrate in Hrate'. injection Hrate' as <-. congruence.
Qed.

End discount_rate.
